(** * File organizer and monitor: a shallow embedding of [dashboard.py]

    The development embeds the logic of [MonitorApp] (the exclusion check,
    the extension lookup, the creation of the category directories, the move
    and the periodic count refresh) together with a model of the part of the
    Python library and of the file system it runs on.

    Modelling conventions.
    - A Python [str] is a [string] of 8-bit characters, read as the code
      points 0..255 (Latin-1); [lower] is [str.lower] on that range.
    - [os.path] is [posixpath]: the separator is [/] and there is no
      alternative separator.
    - The file system is a finite map from normalised absolute paths (lists
      of component names) to nodes; there are no symbolic links, one device,
      and no permission failures; a [..] segment is resolved lexically, as
      [os.path.normpath] does.
    - Effects are threaded through a state and error monad; everything the
      program prints, every dialog it opens and every directory creation and
      rename it performs is appended to a trace. *)

From Stdlib Require Import ZArith Ascii String List Lia Bool.
From stdpp Require Import gmap strings list fin_maps.

Local Open Scope Z_scope.

(** ** Python strings *)

Module Py.

Definition sep : ascii := "/"%char.
Definition extsep : ascii := "."%char.

Fixpoint str_take (n : nat) (s : string) : string :=
  match n, s with
  | S n', String c r => String c (str_take n' r)
  | _, _ => EmptyString
  end.

Fixpoint str_drop (n : nat) (s : string) : string :=
  match n, s with
  | S n', String _ r => str_drop n' r
  | _, _ => s
  end.

(** [p[i:j]] for [0 <= i]; the program never slices with a negative bound. *)
Definition slice (p : string) (i j : Z) : string :=
  str_take (Z.to_nat (j - i)) (str_drop (Z.to_nat i) p).

(** [p[i:]] *)
Definition slice_from (p : string) (i : Z) : string := str_drop (Z.to_nat i) p.

(** [p[:j]] *)
Definition slice_to (p : string) (j : Z) : string := str_take (Z.to_nat j) p.

(** [s.rfind(c)]: the highest index holding [c], or [-1]. *)
Fixpoint rfind (c : ascii) (s : string) : Z :=
  match s with
  | EmptyString => -1
  | String a r =>
      let i := rfind c r in
      if 0 <=? i then i + 1 else if Ascii.eqb a c then 0 else -1
  end.

Definition startswith (c : ascii) (s : string) : bool :=
  match s with
  | String a _ => Ascii.eqb a c
  | EmptyString => false
  end.

Fixpoint endswith (c : ascii) (s : string) : bool :=
  match s with
  | EmptyString => false
  | String a EmptyString => Ascii.eqb a c
  | String _ r => endswith c r
  end.

(** [s.rstrip(c)] *)
Fixpoint rstrip (c : ascii) (s : string) : string :=
  match s with
  | EmptyString => EmptyString
  | String a r =>
      match rstrip c r with
      | EmptyString => if Ascii.eqb a c then EmptyString else String a EmptyString
      | r' => String a r'
      end
  end.

(** [all(ch == c for ch in s)] *)
Fixpoint all_char (c : ascii) (s : string) : bool :=
  match s with
  | EmptyString => true
  | String a r => Ascii.eqb a c && all_char c r
  end.

(** [c in s] for a one-character [c] *)
Fixpoint has_char (c : ascii) (s : string) : bool :=
  match s with
  | EmptyString => false
  | String a r => Ascii.eqb a c || has_char c r
  end.

(** [s.split(c)]; the result is never empty. *)
Fixpoint split (c : ascii) (s : string) : list string :=
  match s with
  | EmptyString => [EmptyString]
  | String a r =>
      if Ascii.eqb a c then EmptyString :: split c r
      else match split c r with
           | h :: t => String a h :: t
           | [] => [String a EmptyString]
           end
  end.

(** [str.lower] on one code point below 256: the upper-case letters are
    A..Z and the Latin-1 capitals 0xC0..0xDE without the multiplication
    sign 0xD7; each is 32 below its lower-case form. *)
Definition lower_char (c : ascii) : ascii :=
  let n := N_of_ascii c in
  if ((65 <=? n) && (n <=? 90) || (192 <=? n) && (n <=? 222) && negb (n =? 215))%N
  then ascii_of_N (n + 32)
  else c.

Fixpoint lower (s : string) : string :=
  match s with
  | EmptyString => EmptyString
  | String c r => String (lower_char c) (lower r)
  end.

(** [x in l] for a list of strings *)
Definition str_in (x : string) (l : list string) : bool :=
  existsb (String.eqb x) l.

(** Truth value of a string: [bool(s)] *)
Definition truthy (s : string) : bool :=
  match s with
  | EmptyString => false
  | _ => true
  end.

End Py.

(** ** [posixpath] *)

Module PosixPath.
Import Py.

(** [posixpath.basename] *)
Definition basename (p : string) : string :=
  let i := rfind sep p + 1 in
  slice_from p i.

(** [posixpath.split] *)
Definition split (p : string) : string * string :=
  let i := rfind sep p + 1 in
  let head := slice_to p i in
  let tail := slice_from p i in
  let head := if truthy head && negb (all_char sep head) then rstrip sep head else head in
  (head, tail).

(** The [while] loop of [genericpath._splitext], which skips the leading
    dots of the file name; [true] when it leaves through the [return] in
    its body.  The loop variable grows by one in each round, so
    [dotIndex - filenameIndex] rounds are enough. *)
Fixpoint splitext_loop (p : string) (dotIndex filenameIndex : Z) (rounds : nat) : bool :=
  match rounds with
  | O => false
  | S n =>
      if filenameIndex <? dotIndex then
        if negb (String.eqb (slice p filenameIndex (filenameIndex + 1)) (String extsep EmptyString))
        then true
        else splitext_loop p dotIndex (filenameIndex + 1) n
      else false
  end.

(** [posixpath.splitext] *)
Definition splitext (p : string) : string * string :=
  let sepIndex := rfind sep p in
  let dotIndex := rfind extsep p in
  if (dotIndex >? sepIndex)
     && splitext_loop p dotIndex (sepIndex + 1) (Z.to_nat (dotIndex - (sepIndex + 1)))
  then (slice_to p dotIndex, slice_from p dotIndex)
  else (p, slice_to p 0).

(** [posixpath.join] with one further component *)
Definition join (a b : string) : string :=
  if startswith sep b then b
  else if negb (truthy a) || endswith sep a then a +:+ b
  else a +:+ String sep b.

End PosixPath.

(** ** The tables of the program *)

(** [FOLDERS] of [organize_file]: a dictionary, iterated in insertion order. *)
Definition FOLDERS : list (string * list string) :=
  [ ("images", [".png"; ".jpg"; ".jpeg"; ".gif"; ".bmp"; ".tiff"]);
    ("videos", [".mp4"; ".mkv"; ".mov"; ".avi"]);
    ("audio", [".mp3"; ".wav"; ".aac"; ".flac"]);
    ("documents", [".pdf"; ".docx"; ".txt"; ".pptx"]);
    ("spreadsheets", [".xls"; ".xlsx"; ".csv"]);
    ("archives", [".zip"; ".rar"; ".7z"; ".tar"; ".gz"]);
    ("software", [".exe"; ".msi"; ".apk"; ".iso"]);
    ("others", []) ].

(** [self.folders] of [MonitorApp.__init__] *)
Definition folders : list string :=
  ["images"; "videos"; "audio"; "documents";
   "spreadsheets"; "archives"; "software"; "others"].

Definition excluded_files : list string := ["README.txt"; "dashboard.png"].

(** ** Classification: lines 146-147 and 163-170 of [organize_file] *)

(** The extension as the lookup sees it. *)
Definition extension (file_path : string) : string :=
  Py.lower (snd (PosixPath.splitext file_path)).

(** The [for folder, extensions in FOLDERS.items()] loop with its [break]:
    the first folder whose list holds [ext]. *)
Fixpoint find_folder (ext : string) (items : list (string * list string)) : option string :=
  match items with
  | [] => None
  | (folder, extensions) :: rest =>
      if Py.str_in ext extensions then Some folder else find_folder ext rest
  end.

(** The category a path is filed under. *)
Definition classify (file_path : string) : string :=
  match find_folder (extension file_path) FOLDERS with
  | Some folder => folder
  | None => "others"
  end.

(** The exclusion test of lines 137-141. *)
Definition is_excluded (file_path : string) : bool :=
  Py.str_in (PosixPath.basename file_path) excluded_files.


(** ** The file system and the state of the program *)

Inductive node : Type :=
  | File (content : string)
  | Dir.

(** A normalised absolute path: the names from the root down. *)
Abbreviation key := (list string) (only parsing).

Inductive errno : Type :=
  ENOENT | EEXIST | ENOTDIR | EISDIR | ENOTEMPTY | EINVAL.

(** The exceptions the program can meet.  [ShutilError] is [shutil.Error],
    a subclass of [OSError]. *)
Inductive exn : Type :=
  | TypeError (msg : string)
  | IndexError (msg : string)
  | RecursionError
  | OSError (e : errno) (filename : string)
  | ShutilError (msg : string).

Inductive icon : Type := Information | Warning.

Inductive effect : Type :=
  | Print (line : string)
  | Mkdir (k : key)
  | Rename (src dst : key)
  | MessageBox (i : icon) (title text : string)
  | ObserverStart (path : string)
  | TimerStart.

Record CircularProgressBar : Type := mkBar {
  folder_name : string;
  total_items : Z
}.

Record state : Type := mkState {
  base_folder : option string;
  progress_bars : list CircularProgressBar;
  cwd : key;
  fs : gmap key node;
  trace : list effect
}.

#[global] Instance node_eq_dec : EqDecision node.
Proof. solve_decision. Defined.

#[global] Instance icon_eq_dec : EqDecision icon.
Proof. solve_decision. Defined.

#[global] Instance effect_eq_dec : EqDecision effect.
Proof. solve_decision. Defined.

Definition with_fs (m : gmap key node) (st : state) : state :=
  mkState (base_folder st) (progress_bars st) (cwd st) m (trace st).

Definition with_bars (bars : list CircularProgressBar) (st : state) : state :=
  mkState (base_folder st) bars (cwd st) (fs st) (trace st).

Definition with_base (b : option string) (st : state) : state :=
  mkState b (progress_bars st) (cwd st) (fs st) (trace st).

Definition log (e : effect) (st : state) : state :=
  mkState (base_folder st) (progress_bars st) (cwd st) (fs st) (trace st ++ [e]).

(** *** Path resolution *)

Definition resolve_step (stack : key) (c : string) : key :=
  if Py.str_in c [""; "."] then stack
  else if String.eqb c ".." then removelast stack
  else stack ++ [c].

(** The key a path denotes when the working directory is [wd]. *)
Definition resolve (wd : key) (p : string) : key :=
  fold_left resolve_step (Py.split Py.sep p)
            (if Py.startswith Py.sep p then [] else wd).

(** A path that can only denote a directory: it ends in a separator or in
    a dot segment. *)
Definition dir_only (p : string) : bool :=
  Py.str_in (PosixPath.basename p) [""; "."; ".."].

(** The root always exists. *)
Definition node_at (m : gmap key node) (k : key) : option node :=
  match k with
  | [] => Some Dir
  | _ => m !! k
  end.

Definition stat (wd : key) (m : gmap key node) (p : string) : errno + node :=
  if negb (Py.truthy p) then inl ENOENT
  else
    let k := resolve wd p in
    match node_at m k with
    | Some (File c) => if dir_only p then inl ENOTDIR else inr (File c)
    | Some Dir => inr Dir
    | None =>
        match node_at m (removelast k) with
        | Some (File _) => inl ENOTDIR
        | _ => inl ENOENT
        end
    end.

(** [child_name k k'] is the name of [k'] inside [k] when [k'] is an
    immediate entry of [k]. *)
Definition child_name (k k' : key) : option string :=
  if decide (take (length k) k' = k) then
    match drop (length k) k' with
    | [x] => Some x
    | _ => None
    end
  else None.

(** The names of the immediate entries of the directory [k]. *)
Definition children (m : gmap key node) (k : key) : list string :=
  omap (fun kn => child_name k (fst kn)) (map_to_list m).

Definition is_prefix (k1 k2 : key) : bool :=
  bool_decide (take (length k1) k2 = k1).

Definition rekey (ks kd k : key) : key :=
  if is_prefix ks k then kd ++ drop (length ks) k else k.

(** The map after the subtree at [ks] has been moved to [kd]. *)
Definition move_tree (ks kd : key) (m : gmap key node) : gmap key node :=
  list_to_map (map (fun kn => (rekey ks kd (fst kn), snd kn)) (map_to_list m)).

(** ** The monad of the program: state and exceptions *)

Inductive result (A : Type) : Type :=
  | Ok (a : A)
  | Raise (e : exn).
Arguments Ok {A} a.
Arguments Raise {A} e.

Definition M (A : Type) : Type := state -> result A * state.

#[global] Instance M_ret : MRet M := fun A a st => (Ok a, st).

#[global] Instance M_bind : MBind M := fun A B f m st =>
  match m st with
  | (Ok a, st') => f a st'
  | (Raise e, st') => (Raise e, st')
  end.

Definition raise {A : Type} (e : exn) : M A := fun st => (Raise e, st).

Definition emit (e : effect) : M unit := fun st => (Ok tt, log e st).

(** [try: m  except <handles>: h] *)
Definition catch {A : Type} (handles : exn -> bool) (m : M A) (h : exn -> M A) : M A :=
  fun st =>
    match m st with
    | (Raise e, st') => if handles e then h e st' else (Raise e, st')
    | r => r
    end.

Fixpoint for_each {A : Type} (l : list A) (body : A -> M unit) : M unit :=
  match l with
  | [] => mret tt
  | x :: rest => body x ;; for_each rest body
  end.

Definition is_Exception (e : exn) : bool := true.

Definition is_OSError (e : exn) : bool :=
  match e with
  | OSError _ _ | ShutilError _ => true
  | _ => false
  end.

Definition is_FileExistsError (e : exn) : bool :=
  match e with
  | OSError EEXIST _ => true
  | _ => false
  end.

Definition strerror (e : errno) : string :=
  match e with
  | ENOENT => "[Errno 2] No such file or directory"
  | EEXIST => "[Errno 17] File exists"
  | ENOTDIR => "[Errno 20] Not a directory"
  | EISDIR => "[Errno 21] Is a directory"
  | ENOTEMPTY => "[Errno 39] Directory not empty"
  | EINVAL => "[Errno 22] Invalid argument"
  end.

(** [str(e)] *)
Definition exn_str (e : exn) : string :=
  match e with
  | TypeError msg | IndexError msg | ShutilError msg => msg
  | RecursionError => "maximum recursion depth exceeded"
  | OSError e filename => strerror e +:+ ": '" +:+ filename +:+ "'"
  end.

Definition print (line : string) : M unit := emit (Print line).

(** ** The operating-system and library calls the program makes *)

Module Os.
Import Py PosixPath.

(** [os.path.exists] *)
Definition path_exists (p : string) : M bool := fun st =>
  (Ok (match stat (cwd st) (fs st) p with inr _ => true | inl _ => false end), st).

(** [os.path.isdir] *)
Definition path_isdir (p : string) : M bool := fun st =>
  (Ok (match stat (cwd st) (fs st) p with inr Dir => true | _ => false end), st).

(** [os.mkdir] *)
Definition mkdir (p : string) : M unit := fun st =>
  if negb (truthy p) then (Raise (OSError ENOENT p), st)
  else
    let k := resolve (cwd st) p in
    match node_at (fs st) k with
    | Some _ => (Raise (OSError EEXIST p), st)
    | None =>
        if str_in (basename p) ["."; ".."] then (Raise (OSError ENOENT p), st)
        else
          match node_at (fs st) (removelast k) with
          | Some Dir => (Ok tt, log (Mkdir k) (with_fs (<[k := Dir]> (fs st)) st))
          | Some (File _) => (Raise (OSError ENOTDIR p), st)
          | None => (Raise (OSError ENOENT p), st)
          end
    end.

(** [os.makedirs]; [depth] bounds the recursion on the head of the name. *)
Fixpoint makedirs_rec (depth : nat) (name : string) (exist_ok : bool) : M unit :=
  match depth with
  | O => raise RecursionError
  | S depth' =>
      let '(head, tail) := split name in
      let '(head, tail) := if negb (truthy tail) then split head else (head, tail) in
      head_exists ← path_exists head;
      returned ←
        (if truthy head && truthy tail && negb head_exists then
           catch is_FileExistsError (makedirs_rec depth' head exist_ok) (fun _ => mret tt) ;;
           mret (String.eqb tail ".")
         else mret false);
      if (returned : bool) then mret tt
      else
        catch is_OSError (mkdir name)
          (fun e =>
             d ← path_isdir name;
             if negb exist_ok || negb d then raise e else mret tt)
  end.

(** Each recursive call is on a strictly shorter name. *)
Definition makedirs (name : string) (exist_ok : bool) : M unit :=
  makedirs_rec (S (String.length name)) name exist_ok.

(** [os.listdir] *)
Definition listdir (p : string) : M (list string) := fun st =>
  match stat (cwd st) (fs st) p with
  | inr Dir => (Ok (children (fs st) (resolve (cwd st) p)), st)
  | inr (File _) => (Raise (OSError ENOTDIR p), st)
  | inl e => (Raise (OSError e p), st)
  end.

(** Where a node may be placed at [dst]: the parent must be a directory. *)
Definition check_parent (m : gmap key node) (kd : key) (dst : string) : option exn :=
  match node_at m (removelast kd) with
  | Some Dir => None
  | Some (File _) => Some (OSError ENOTDIR dst)
  | None => Some (OSError ENOENT dst)
  end.

(** [os.rename] *)
Definition rename (src dst : string) : M unit := fun st =>
  let m := fs st in
  let ks := resolve (cwd st) src in
  let kd := resolve (cwd st) dst in
  match stat (cwd st) m src with
  | inl e => (Raise (OSError e src), st)
  | inr (File c) =>
      if negb (truthy dst) then (Raise (OSError ENOENT dst), st)
      else
        match node_at m kd with
        | Some Dir => (Raise (OSError EISDIR dst), st)
        | Some (File _) =>
            if dir_only dst then (Raise (OSError ENOTDIR dst), st)
            else if decide (ks = kd) then (Ok tt, log (Rename ks kd) st)
            else (Ok tt, log (Rename ks kd) (with_fs (<[kd := File c]> (delete ks m)) st))
        | None =>
            if dir_only dst then (Raise (OSError ENOTDIR dst), st)
            else
              match check_parent m kd dst with
              | Some e => (Raise e, st)
              | None => (Ok tt, log (Rename ks kd) (with_fs (<[kd := File c]> (delete ks m)) st))
              end
        end
  | inr Dir =>
      if negb (truthy dst) then (Raise (OSError ENOENT dst), st)
      else if decide (ks = kd) then (Ok tt, log (Rename ks kd) st)
      else if is_prefix ks kd then (Raise (OSError EINVAL src), st)
      else
        match node_at m kd with
        | Some (File _) => (Raise (OSError ENOTDIR dst), st)
        | Some Dir =>
            match children m kd with
            | [] => (Ok tt, log (Rename ks kd) (with_fs (move_tree ks kd (delete kd m)) st))
            | _ => (Raise (OSError ENOTEMPTY dst), st)
            end
        | None =>
            match check_parent m kd dst with
            | Some e => (Raise e, st)
            | None => (Ok tt, log (Rename ks kd) (with_fs (move_tree ks kd m) st))
            end
        end
  end.

End Os.

Module Shutil.
Import Py PosixPath.

(** [shutil._basename] *)
Definition _basename (path : string) : string := basename (rstrip sep path).

(** [shutil._samefile]: both paths exist and are the same node. *)
Definition _samefile (src dst : string) : M bool := fun st =>
  (Ok (match stat (cwd st) (fs st) src, stat (cwd st) (fs st) dst with
       | inr _, inr _ => bool_decide (resolve (cwd st) src = resolve (cwd st) dst)
       | _, _ => false
       end), st).

(** [shutil._destinsrc] *)
Definition _destinsrc (src dst : string) : M bool := fun st =>
  (Ok (is_prefix (resolve (cwd st) src) (resolve (cwd st) dst)), st).

(** The handler of [except OSError:] in [shutil.move].  Within one file
    system the copy that follows a failed rename fails on the same
    obstacle, so the handler raises again. *)
Definition fallback (src dst : string) (e : exn) : M unit :=
  src_is_dir ← Os.path_isdir src;
  inside ← _destinsrc src dst;
  if (src_is_dir : bool) && inside
  then raise (ShutilError ("Cannot move a directory '" +:+ src +:+
                           "' into itself '" +:+ dst +:+ "'."))
  else raise e.

(** The [try: os.rename ... except OSError:] part of [shutil.move]. *)
Definition rename_or_copy (src dst real_dst : string) : M (option string) :=
  catch is_OSError (Os.rename src real_dst) (fallback src dst) ;;
  mret (Some real_dst).

(** [shutil.move] *)
Definition move (src dst : string) : M (option string) :=
  dst_is_dir ← Os.path_isdir dst;
  if (dst_is_dir : bool) then
    same ← _samefile src dst;
    if (same : bool) then Os.rename src dst ;; mret None
    else
      let real_dst := join dst (_basename src) in
      taken ← Os.path_exists real_dst;
      if (taken : bool)
      then raise (ShutilError ("Destination path '" +:+ real_dst +:+ "' already exists"))
      else rename_or_copy src dst real_dst
  else rename_or_copy src dst dst.

End Shutil.

(** ** The program *)

Import Py PosixPath.

Definition get_base_folder : M (option string) := fun st => (Ok (base_folder st), st).

(** [os.path.join(self.base_folder, b)]: [base_folder] is [None] until a
    folder is selected. *)
Definition join_base (b : string) : M string :=
  base ← get_base_folder;
  match base with
  | None => raise (TypeError "expected str, bytes or os.PathLike object, not NoneType")
  | Some a => mret (join a b)
  end.

(** The body of the loop of lines 160-161. *)
Definition create_body (folder : string) : M unit :=
  p ← join_base folder; Os.makedirs p true.

(** Lines 160-161: one [os.makedirs] per key of [FOLDERS]. *)
Definition create_category_dirs : M unit :=
  for_each (map fst FOLDERS) create_body.

(** Lines 163-170. *)
Definition destination (ext : string) : M string :=
  destination_folder ←
    match find_folder ext FOLDERS with
    | Some folder => d ← join_base folder; mret (Some d)
    | None => mret None
    end;
  match destination_folder with
  | Some d => if truthy d then mret d else join_base "others"
  | None => join_base "others"
  end.

(** Lines 172-176. *)
Definition move_step (file_path destination_folder : string) : M unit :=
  catch is_Exception
    (Shutil.move file_path (join destination_folder (basename file_path)) ;;
     print ("Moved: " +:+ file_path +:+ " -> " +:+ destination_folder))
    (fun e => print ("Error moving " +:+ file_path +:+ ": " +:+ exn_str e)).

(** [MonitorApp.organize_file] *)
Definition organize_file (file_path : string) : M unit :=
  let filename := basename file_path in
  if str_in filename excluded_files then print ("Skipping: " +:+ filename)
  else
    print ("Organizing: " +:+ file_path) ;;
    let ext := lower (snd (splitext file_path)) in
    create_category_dirs ;;
    destination_folder ← destination ext;
    move_step file_path destination_folder.

(** [self.progress_bars[i].set_total_items(total_items)] *)
Definition set_total_items (i : nat) (n : Z) : M unit := fun st =>
  match progress_bars st !! i with
  | Some bar => (Ok tt, with_bars (<[i := mkBar (folder_name bar) n]> (progress_bars st)) st)
  | None => (Raise (IndexError "list index out of range"), st)
  end.

Definition enumerate {A : Type} (l : list A) : list (nat * A) :=
  zip (seq 0 (length l)) l.

Definition is_set (b : option string) : bool :=
  match b with
  | Some s => truthy s
  | None => false
  end.

(** The body of the loop of lines 182-186. *)
Definition count_body (ic : nat * string) : M unit :=
  let '(i, folder) := ic in
  folder_path ← join_base folder;
  present ← Os.path_exists folder_path;
  if (present : bool) then
    names ← Os.listdir folder_path;
    set_total_items i (Z.of_nat (length names))
  else mret tt.

(** [MonitorApp.update_folder_counts] *)
Definition update_folder_counts : M unit :=
  base ← get_base_folder;
  if negb (is_set base) then mret tt
  else for_each (enumerate folders) count_body.

(** [MonitorApp.start_watching] *)
Definition start_watching : M unit :=
  base ← get_base_folder;
  if negb (is_set base) then
    emit (MessageBox Warning "No Folder" "Please select a folder first.")
  else
    emit (ObserverStart (default "" base)) ;;
    update_folder_counts ;;
    emit TimerStart.

(** [MonitorApp.select_folder]; [folder] is what the directory dialog
    returned, the empty string when it was dismissed. *)
Definition select_folder (folder : string) : M unit :=
  if truthy folder then
    (fun st => (Ok tt, with_base (Some folder) st)) ;;
    print ("Selected folder: " +:+ folder) ;;
    emit (MessageBox Information "Folder Selected" ("Organizing: " +:+ folder)) ;;
    start_watching
  else emit (MessageBox Warning "No Folder Selected" "Please select a valid folder.").

(** A watchdog event. *)
Record event : Type := mkEvent {
  src_path : string;
  is_directory : bool
}.

(** [FileOrganizerHandler.on_created] *)
Definition on_created (ev : event) : M unit :=
  if negb (is_directory ev) then organize_file (src_path ev) else mret tt.

(** The state [MonitorApp.__init__] leaves, on a file system [m] with
    working directory [wd]. *)
Definition init (wd : key) (m : gmap key node) : state :=
  mkState None (map (fun folder => mkBar folder 0) folders) wd m [].

(** ** Auxiliary notions used in the statements *)

(** An extension as the table lists them: a dot, then a stretch free of
    dots and separators. *)
Definition plain_ext (E : string) : bool :=
  match E with
  | String c e =>
      Ascii.eqb c Py.extsep && negb (Py.has_char Py.sep e) && negb (Py.has_char Py.extsep e)
  | EmptyString => false
  end.

(** Every listed extension is plain and is found under its own folder. *)
Definition table_ok : bool :=
  forallb (fun item : string * list string =>
             forallb (fun E =>
                        plain_ext E &&
                        match find_folder E FOLDERS with
                        | Some C => String.eqb C (fst item)
                        | None => false
                        end) (snd item))
          FOLDERS.

(** No folder lists [ext]. *)
Definition unsupported (ext : string) : Prop :=
  forall C exts, In (C, exts) FOLDERS -> ~ In ext exts.

(** A single name: no separator, and not one of the dot segments. *)
Definition plain_name (x : string) : bool :=
  negb (Py.has_char Py.sep x) && negb (Py.str_in x [""; "."; ".."]).

Definition is_dir (st : state) (p : string) : Prop :=
  stat (cwd st) (fs st) p = inr Dir.

Definition is_file (st : state) (p content : string) : Prop :=
  stat (cwd st) (fs st) p = inr (File content).

Definition absent (st : state) (p : string) : Prop :=
  exists e, stat (cwd st) (fs st) p = inl e.

(** [st'] differs from [st] only by nodes that were added. *)
Definition extends (st st' : state) : Prop :=
  base_folder st' = base_folder st /\
  progress_bars st' = progress_bars st /\
  cwd st' = cwd st /\
  fs st ⊆ fs st'.

(** How often the directory at [k] has been created so far. *)
Definition mkdir_count (k : list string) (st : state) : nat :=
  count_occ effect_eq_dec (trace st) (Mkdir k).

(** The key of a path in a state. *)
Definition key_of (st : state) (p : string) : list string := resolve (cwd st) p.

(** The state after the regular file at [ks], with content [c], has been
    renamed to [kd]. *)
Definition moved_state (st : state) (ks kd : list string) (c : string) : state :=
  log (Rename ks kd)
      (if decide (ks = kd) then st
       else with_fs (<[kd := File c]> (delete ks (fs st))) st).

(** [st'] has every directory of [st], the same settings, and no further
    directory creation in its trace. *)
Definition keeps_dirs (st st' : state) : Prop :=
  base_folder st' = base_folder st /\
  cwd st' = cwd st /\
  progress_bars st' = progress_bars st /\
  (forall k, fs st !! k = Some Dir -> fs st' !! k = Some Dir) /\
  (forall k, mkdir_count k st' = mkdir_count k st).

(** [organize_file] called on each path in turn, as the watcher does for a
    stream of events; the outcomes are collected. *)
Fixpoint organize_all (ps : list string) (st : state) : list (result unit) * state :=
  match ps with
  | [] => ([], st)
  | p :: ps' =>
      let (r, st1) := organize_file p st in
      let (rs, st') := organize_all ps' st1 in
      (r :: rs, st')
  end.

(** Each path names a regular file at the time of its call. *)
Fixpoint sources_are_files (ps : list string) (st : state) : Prop :=
  match ps with
  | [] => True
  | p :: ps' =>
      (exists c, is_file st p c) /\ sources_are_files ps' (snd (organize_file p st))
  end.

(** Whether the category directory [c] is missing below the root [b]. *)
Definition missing (st : state) (b c : string) : bool :=
  match fs st !! (key_of st b ++ [c]) with
  | None => true
  | Some _ => false
  end.

(** Where [organize_file] sends [p] when the root is [b]. *)
Definition target (b p : string) : string :=
  PosixPath.join (PosixPath.join b (classify p)) (PosixPath.basename p).

(** What one round of the count refresh makes of the counters. *)
Definition refresh_bar (st : state) (b : string)
           (bars : list CircularProgressBar) (ic : nat * string) : list CircularProgressBar :=
  match fs st !! (key_of st b ++ [snd ic]), bars !! fst ic with
  | Some Dir, Some bar =>
      <[fst ic := mkBar (folder_name bar)
                        (Z.of_nat (length (children (fs st) (key_of st b ++ [snd ic]))))]> bars
  | _, _ => bars
  end.

(** ** The window between calls *)

(** The selected folder, the working directory and the counters of [st']
    are those of [st]. *)
Definition same_settings (st st' : state) : Prop :=
  base_folder st' = base_folder st /\ cwd st' = cwd st /\
  progress_bars st' = progress_bars st.

(** An effect on the file system or the console, as opposed to one on the
    window, the observer or the timer. *)
Definition is_io (e : effect) : bool :=
  match e with
  | Print _ | Mkdir _ | Rename _ _ => true
  | _ => false
  end.

(** The exceptions a computation below the window layer may end with when
    it is started in [st]. *)
Definition allowed (st : state) (e : exn) : Prop :=
  match e with
  | IndexError _ => False
  | TypeError _ => base_folder st = None
  | _ => True
  end.

(** A computation that leaves the settings alone, adds only console and
    file-system effects to the trace and raises only allowed exceptions. *)
Definition tame {A : Type} (m : M A) : Prop :=
  forall st,
    same_settings st (snd (m st)) /\
    (exists l, trace (snd (m st)) = trace st ++ l /\ forallb is_io l = true) /\
    (forall e, fst (m st) = Raise e -> allowed st e).

(** A computation that changes nothing but the numbers the counters show. *)
Definition only_counts (st st' : state) : Prop :=
  fs st' = fs st /\ trace st' = trace st /\ base_folder st' = base_folder st /\
  cwd st' = cwd st /\
  map folder_name (progress_bars st') = map folder_name (progress_bars st).

(** A computation all of whose exceptions satisfy [P]. *)
Definition raises_only {A : Type} (P : exn -> Prop) (m : M A) : Prop :=
  forall st e, fst (m st) = Raise e -> P e.

Definition is_os_error (e : exn) : Prop := exists en name, e = OSError en name.

(** The state in which [select_folder] reaches the count refresh of
    [start_watching], the dialog having returned [folder]. *)
Definition selected (folder : string) (st : state) : state :=
  log (ObserverStart folder)
      (log (MessageBox Information "Folder Selected" ("Organizing: " +:+ folder))
           (log (Print ("Selected folder: " +:+ folder))
                (with_base (Some folder) st))).

(** What can happen to the running program: the folder dialog returns, the
    timer fires, the observer reports a created entry. *)
Inductive action : Type :=
  | Select (folder : string)
  | Tick
  | Created (ev : event).

Definition perform (a : action) : M unit :=
  match a with
  | Select folder => select_folder folder
  | Tick => update_folder_counts
  | Created ev => on_created ev
  end.

(** The states the program can be in between two callbacks: it starts in
    [init]; a callback runs, to its end or to the point where it raises;
    meanwhile anything may happen to the file system. *)
Inductive reachable : state -> Prop :=
  | reach_init (wd : key) (m : gmap key node) : reachable (init wd m)
  | reach_perform (a : action) (st : state) :
      reachable st -> reachable (snd (perform a st))
  | reach_world (m : gmap key node) (st : state) :
      reachable st -> reachable (with_fs m st).

(** The observer or the timer has been started. *)
Definition watching (st : state) : Prop :=
  In TimerStart (trace st) \/ exists b, In (ObserverStart b) (trace st).

(** ** The grid of [init_ui] *)

Inductive widget : Type :=
  | TitleLabel
  | Counter (folder : string)
  | SelectButton.

(** [layout.addWidget(w, row, column, rowSpan, columnSpan)] *)
Record placement : Type := mkPlacement {
  placed : widget;
  row : nat;
  column : nat;
  row_span : nat;
  column_span : nat
}.

(** The cell of the [i]-th counter: [(i // 3) + 1, i % 3]. *)
Definition grid_position (i : nat) : nat * nat := ((i / 3) + 1, i mod 3)%nat.

(** The calls of [addWidget] in [init_ui], in their order, for the list
    [fl] of folders. *)
Definition init_ui (fl : list string) : list placement :=
  mkPlacement TitleLabel 0 0 1 3 ::
  map (fun '(i, folder) =>
         mkPlacement (Counter folder) (fst (grid_position i)) (snd (grid_position i)) 1 1)
      (enumerate fl) ++
  [mkPlacement SelectButton 4 0 1 3].

(** The cell [(r, c)] lies in the area of [p]. *)
Definition covers (p : placement) (r c : nat) : bool :=
  (row p <=? r)%nat && (r <? row p + row_span p)%nat &&
  (column p <=? c)%nat && (c <? column p + column_span p)%nat.

(** ** Example file systems *)

(** A root [/srv/inbox] without subfolders, holding four files. *)
Definition fs_fresh : gmap (list string) node :=
  list_to_map
    [ (["srv"], Dir);
      (["srv"; "inbox"], Dir);
      (["srv"; "inbox"; "photo.jpg"], File "JFIF");
      (["srv"; "inbox"; "README.txt"], File "notes");
      (["srv"; "inbox"; "readme.txt"], File "lower-case notes");
      (["srv"; "inbox"; "README.TXT"], File "upper-case notes") ].

(** The same root with the category [images] in place: it holds a picture
    and a directory that is named like the photo. *)
Definition fs_sorted : gmap (list string) node :=
  list_to_map
    [ (["srv"], Dir);
      (["srv"; "inbox"], Dir);
      (["srv"; "inbox"; "photo.jpg"], File "JFIF");
      (["srv"; "inbox"; "images"], Dir);
      (["srv"; "inbox"; "images"; "cat.png"], File "PNG");
      (["srv"; "inbox"; "images"; "photo.jpg"], Dir);
      (["srv"; "inbox"; "images"; "photo.jpg"; "photo.jpg"], File "older JFIF") ].

(** The same root where a directory named like the photo waits, empty,
    inside [images]. *)
Definition fs_clash : gmap (list string) node :=
  list_to_map
    [ (["srv"], Dir);
      (["srv"; "inbox"], Dir);
      (["srv"; "inbox"; "photo.jpg"], File "JFIF");
      (["srv"; "inbox"; "images"], Dir);
      (["srv"; "inbox"; "images"; "photo.jpg"], Dir) ].

(** Two roots side by side: [/srv/inbox] with two pictures filed under
    [images], and [/srv/empty] without subfolders. *)
Definition fs_two : gmap (list string) node :=
  list_to_map
    [ (["srv"], Dir);
      (["srv"; "inbox"], Dir);
      (["srv"; "inbox"; "images"], Dir);
      (["srv"; "inbox"; "images"; "cat.png"], File "PNG");
      (["srv"; "inbox"; "images"; "dog.png"], File "PNG");
      (["srv"; "inbox"; "images"; "album"], Dir);
      (["srv"; "inbox"; "images"; "album"; "one.png"], File "PNG");
      (["srv"; "empty"], Dir) ].

(** A root in which a regular file is named like the category [videos]. *)
Definition fs_blocked : gmap (list string) node :=
  list_to_map
    [ (["srv"], Dir);
      (["srv"; "inbox"], Dir);
      (["srv"; "inbox"; "photo.jpg"], File "JFIF");
      (["srv"; "inbox"; "videos"], File "not a directory") ].

(** The program after the folder dialog returned [/srv/inbox], started in
    that directory. *)
Definition st_fresh : state :=
  with_base (Some "/srv/inbox") (init ["srv"; "inbox"] fs_fresh).

Definition st_sorted : state :=
  with_base (Some "/srv/inbox") (init ["srv"; "inbox"] fs_sorted).

Definition st_clash : state :=
  with_base (Some "/srv/inbox") (init ["srv"; "inbox"] fs_clash).

(** The user selects [/srv/inbox] and later [/srv/empty]. *)
Definition st_reselected : state :=
  snd ((select_folder "/srv/inbox" ;; select_folder "/srv/empty") (init [] fs_two)).

(** The program watching [/srv/inbox] on the file system with two roots. *)
Definition st_two : state :=
  with_base (Some "/srv/inbox") (init [] fs_two).

Definition st_blocked : state :=
  with_base (Some "/srv/inbox") (init ["srv"; "inbox"] fs_blocked).

(** The program before any folder has been selected. *)
Definition st_unset : state := init ["srv"; "inbox"] fs_fresh.

(** * Properties *)

(** ** Strings and paths *)

#[local] Arguments String.append !_ _ : simpl nomatch.

Section StringFacts.
Import Py PosixPath.

Lemma length_str_take (n : nat) (s : string) :
  String.length (str_take n s) = Nat.min n (String.length s).
Proof.
  revert s; induction n as [|n IH]; intros [|c r]; simpl; try reflexivity.
  now rewrite IH.
Qed.

Lemma length_str_drop (n : nat) (s : string) :
  String.length (str_drop n s) = (String.length s - n)%nat.
Proof.
  revert s; induction n as [|n IH]; intros [|c r]; simpl; try reflexivity.
  apply IH.
Qed.

Lemma str_take_drop (n : nat) (s : string) : str_take n s +:+ str_drop n s = s.
Proof.
  revert s; induction n as [|n IH]; intros [|c r]; simpl; try reflexivity.
  now rewrite IH.
Qed.

Lemma str_length_app (a b : string) :
  String.length (a +:+ b) = (String.length a + String.length b)%nat.
Proof. induction a as [|c a IH]; simpl; [reflexivity | now rewrite IH]. Qed.

Lemma app_assoc_str (a b c : string) : (a +:+ b) +:+ c = a +:+ (b +:+ c).
Proof. induction a as [|x a IH]; simpl; [reflexivity | now rewrite IH]. Qed.

Lemma app_empty_r (a : string) : a +:+ "" = a.
Proof. induction a as [|x a IH]; simpl; [reflexivity | now rewrite IH]. Qed.

Lemma str_drop_app (n : nat) (a b : string) :
  (n <= String.length a)%nat -> str_drop n (a +:+ b) = str_drop n a +:+ b.
Proof.
  revert a; induction n as [|n IH]; intros [|c a] Hn; simpl in *; try reflexivity; try lia.
  apply IH; lia.
Qed.

Lemma str_take_app (n : nat) (a b : string) :
  (n <= String.length a)%nat -> str_take n (a +:+ b) = str_take n a.
Proof.
  revert a; induction n as [|n IH]; intros [|c a] Hn; simpl in *; try reflexivity; try lia.
  rewrite IH; [reflexivity | lia].
Qed.

Lemma str_take_all (n : nat) (s : string) :
  (String.length s <= n)%nat -> str_take n s = s.
Proof.
  revert s; induction n as [|n IH]; intros [|c r] Hn; simpl in *; try reflexivity; try lia.
  rewrite IH; [reflexivity | lia].
Qed.

Lemma str_drop_all (n : nat) (s : string) :
  (String.length s <= n)%nat -> str_drop n s = "".
Proof.
  revert s; induction n as [|n IH]; intros [|c r] Hn; simpl in *; try reflexivity; try lia.
  apply IH; lia.
Qed.

Lemma rfind_bounds (c : ascii) (s : string) :
  -1 <= rfind c s < Z.of_nat (String.length s).
Proof.
  induction s as [|a r IH]; simpl; [lia |].
  destruct (0 <=? rfind c r) eqn:E; [apply Z.leb_le in E; lia |].
  destruct (Ascii.eqb a c); lia.
Qed.

Lemma rfind_has_char (c : ascii) (s : string) : (0 <=? rfind c s) = has_char c s.
Proof.
  induction s as [|a r IH]; simpl; [reflexivity |].
  pose proof (rfind_bounds c r) as Hb.
  destruct (0 <=? rfind c r) eqn:E.
  - apply Z.leb_le in E. rewrite <- IH, orb_true_r. apply Z.leb_le; lia.
  - rewrite <- IH, orb_false_r. now destruct (Ascii.eqb a c).
Qed.

Lemma rfind_absent (c : ascii) (s : string) : has_char c s = false -> rfind c s = -1.
Proof.
  intros H. rewrite <- rfind_has_char in H. apply Z.leb_gt in H.
  pose proof (rfind_bounds c s); lia.
Qed.

Lemma rfind_app (c : ascii) (a b : string) :
  rfind c (a +:+ b) =
  if has_char c b then Z.of_nat (String.length a) + rfind c b else rfind c a.
Proof.
  induction a as [|x a IH]; simpl String.length; simpl append.
  - destruct (has_char c b) eqn:E; [lia | now apply rfind_absent].
  - cbn [rfind]. rewrite IH. rewrite <- (rfind_has_char c b).
    pose proof (rfind_bounds c b) as Hb.
    destruct (0 <=? rfind c b) eqn:E.
    + apply Z.leb_le in E.
      replace (0 <=? Z.of_nat (String.length a) + rfind c b) with true
        by (symmetry; apply Z.leb_le; lia).
      lia.
    + reflexivity.
Qed.

Lemma has_char_app (c : ascii) (a b : string) :
  has_char c (a +:+ b) = has_char c a || has_char c b.
Proof. induction a as [|x a IH]; simpl; [reflexivity | now rewrite IH, orb_assoc]. Qed.

Lemma has_char_str_drop (c : ascii) (n : nat) (s : string) :
  has_char c s = false -> has_char c (str_drop n s) = false.
Proof.
  revert s; induction n as [|n IH]; intros [|x r] H; simpl in *; try assumption.
  apply orb_false_elim in H as [_ H]. now apply IH.
Qed.

(** The base name holds no separator. *)
Lemma basename_no_sep (p : string) : has_char sep (basename p) = false.
Proof.
  unfold basename, slice_from.
  induction p as [|a r IH]; [reflexivity |].
  cbn [rfind]. pose proof (rfind_bounds sep r) as Hb.
  destruct (0 <=? rfind sep r) eqn:E.
  - apply Z.leb_le in E.
    replace (Z.to_nat (rfind sep r + 1 + 1)) with (S (Z.to_nat (rfind sep r + 1))) by lia.
    exact IH.
  - apply Z.leb_gt in E. assert (rfind sep r = -1) as Hr by lia.
    rewrite Hr in IH. simpl in IH.
    destruct (Ascii.eqb a sep) eqn:Ea; simpl; [exact IH |].
    now rewrite Ea, IH.
Qed.

(** A path is its directory part followed by its base name. *)
Lemma basename_decompose (p : string) :
  p = slice_to p (rfind sep p + 1) +:+ basename p.
Proof. unfold slice_to, basename, slice_from. cbv zeta. now rewrite str_take_drop. Qed.

Lemma basename_app (F b : string) :
  has_char sep b = false -> basename (F +:+ b) = basename F +:+ b.
Proof.
  intros Hb. unfold basename, slice_from. rewrite rfind_app, Hb.
  apply str_drop_app. pose proof (rfind_bounds sep F). lia.
Qed.

Lemma basename_plain (b : string) : has_char sep b = false -> basename b = b.
Proof.
  intros Hb. unfold basename, slice_from. now rewrite (rfind_absent _ _ Hb).
Qed.

(** Below a directory prefix the base name is that of the last component. *)
Lemma basename_under (d b : string) :
  has_char sep b = false -> basename (d +:+ String sep b) = b.
Proof.
  intros Hb. unfold basename, slice_from.
  rewrite rfind_app. cbn [has_char]. rewrite Ascii.eqb_refl. cbn [orb rfind].
  rewrite (rfind_absent _ _ Hb). cbn.
  replace (Z.to_nat (Z.of_nat (String.length d) + 0 + 1)) with (S (String.length d)) by lia.
  replace (S (String.length d)) with (String.length (d +:+ String sep "")).
  - change (String sep b) with (String sep "" +:+ b).
    rewrite <- app_assoc_str, str_drop_app by lia.
    now rewrite str_drop_all by lia.
  - rewrite str_length_app. simpl. lia.
Qed.

Lemma str_drop_S (i : nat) (p : string) :
  (i < String.length p)%nat ->
  exists c, str_drop i p = String c (str_drop (S i) p).
Proof.
  revert p; induction i as [|i IH]; intros [|a r] Hi; simpl in *; try lia.
  - now exists a.
  - apply IH; lia.
Qed.

(** The loop of [splitext] leaves through its [return] exactly when the
    scanned stretch holds something else than dots. *)
Lemma splitext_loop_spec (p : string) (n : nat) (i : Z) :
  0 <= i -> i + Z.of_nat n <= Z.of_nat (String.length p) ->
  splitext_loop p (i + Z.of_nat n) i n = negb (all_char extsep (slice p i (i + Z.of_nat n))).
Proof.
  revert i; induction n as [|n IH]; intros i Hi Hn.
  - unfold slice. replace (Z.to_nat (i + Z.of_nat 0 - i)) with O by lia. reflexivity.
  - cbn [splitext_loop].
    replace (i <? i + Z.of_nat (S n)) with true by (symmetry; apply Z.ltb_lt; lia).
    destruct (str_drop_S (Z.to_nat i) p) as [c Hc]; [lia |].
    unfold slice.
    replace (Z.to_nat (i + 1 - i)) with 1%nat by lia.
    replace (Z.to_nat (i + Z.of_nat (S n) - i)) with (S n) by lia.
    rewrite Hc. cbn [str_take all_char].
    replace (str_take 0 (str_drop (S (Z.to_nat i)) p)) with "" by now destruct (str_drop _ p).
    cbn [String.eqb]. unfold extsep at 1.
    destruct (Ascii.eqb c ".") eqn:Ec.
    + cbn [negb andb].
      replace (i + Z.of_nat (S n)) with ((i + 1) + Z.of_nat n) by lia.
      rewrite IH by lia. unfold slice.
      replace (Z.to_nat (i + 1 + Z.of_nat n - (i + 1))) with n by lia.
      replace (Z.to_nat (i + 1)) with (S (Z.to_nat i)) by lia.
      unfold extsep. now rewrite Ec.
    + unfold extsep. now rewrite Ec.
Qed.

(** The extension of a name that ends in a dot followed by a stretch free
    of dots and separators: that stretch, unless the name before it is made
    of dots only. *)
Lemma splitext_app (F e : string) :
  has_char sep e = false -> has_char extsep e = false ->
  snd (splitext (F +:+ String extsep e)) =
  if all_char extsep (basename F) then "" else String extsep e.
Proof.
  intros Hs Hd. unfold splitext.
  pose proof (rfind_bounds sep F) as HbF.
  assert (rfind extsep (F +:+ String extsep e) = Z.of_nat (String.length F)) as ->.
  { rewrite rfind_app. cbn [has_char rfind]. rewrite Ascii.eqb_refl. cbn [orb].
    rewrite (rfind_absent _ _ Hd). cbn. lia. }
  assert (rfind sep (F +:+ String extsep e) = rfind sep F) as ->.
  { rewrite rfind_app. cbn [has_char]. now rewrite Hs. }
  replace (Z.of_nat (String.length F) >? rfind sep F) with true
    by (symmetry; apply Z.gtb_lt; lia).
  cbn [andb].
  set (i := rfind sep F + 1).
  set (n := Z.to_nat (Z.of_nat (String.length F) - i)).
  assert (Z.of_nat (String.length F) = i + Z.of_nat n) as Hlen by lia.
  rewrite Hlen at 1.
  rewrite splitext_loop_spec; [| lia | rewrite str_length_app; lia].
  assert (slice (F +:+ String extsep e) i (i + Z.of_nat n) = basename F) as ->.
  { unfold slice, basename, slice_from. fold i.
    rewrite str_drop_app by lia.
    rewrite str_take_app by (rewrite length_str_drop; lia).
    apply str_take_all. rewrite length_str_drop. lia. }
  destruct (all_char extsep (basename F)); cbn [negb snd]; [reflexivity |].
  unfold slice_from. rewrite Nat2Z.id.
  rewrite str_drop_app by lia. now rewrite str_drop_all by lia.
Qed.

(** A name without a dot has no extension. *)
Lemma splitext_no_dot (p : string) :
  has_char extsep (basename p) = false -> snd (splitext p) = "".
Proof.
  intros Hd. unfold splitext.
  replace (rfind extsep p >? rfind sep p) with false; [reflexivity |].
  symmetry. rewrite Z.gtb_ltb. apply Z.ltb_ge.
  rewrite (basename_decompose p) at 1. rewrite rfind_app, Hd.
  set (d := slice_to p (rfind sep p + 1)).
  pose proof (rfind_bounds sep p) as Hb. pose proof (rfind_bounds extsep d) as Hd'.
  assert (String.length d = Z.to_nat (rfind sep p + 1)) as Hlen.
  { unfold d, slice_to. rewrite length_str_take. lia. }
  destruct (Z.eq_dec (rfind sep p) (-1)) as [E|E]; [lia |].
  assert (rfind extsep d <> rfind sep p); [| lia].
  intros Heq.
  (* the character at the last separator would be a dot *)
  assert (forall (s : string) (c1 c2 : ascii), c1 <> c2 -> 0 <= rfind c1 s -> rfind c1 s <> rfind c2 s) as Hdiff.
  { clear. induction s as [|a r IH]; intros c1 c2 Hne H0; cbn in *; [lia |].
    pose proof (rfind_bounds c1 r). pose proof (rfind_bounds c2 r).
    destruct (0 <=? rfind c1 r) eqn:E1.
    - apply Z.leb_le in E1. specialize (IH c1 c2 Hne E1).
      destruct (0 <=? rfind c2 r) eqn:E2; [lia |].
      destruct (Ascii.eqb a c2); lia.
    - destruct (Ascii.eqb a c1) eqn:Ea; [| lia].
      apply Ascii.eqb_eq in Ea. subst a.
      destruct (0 <=? rfind c2 r) eqn:E2; [apply Z.leb_le in E2; lia |].
      destruct (Ascii.eqb c1 c2) eqn:Ec; [apply Ascii.eqb_eq in Ec; congruence | lia]. }
  assert (rfind sep d = rfind sep p) as Hsd.
  { transitivity (rfind sep (d +:+ basename p)).
    - now rewrite rfind_app, basename_no_sep.
    - f_equal. symmetry. apply basename_decompose. }
  apply (Hdiff d sep extsep); [discriminate | lia | lia].
Qed.

End StringFacts.

(** ** Lower-casing *)

Section LowerFacts.
Import Py PosixPath.

Lemma lower_char_sep (c : ascii) : Ascii.eqb (lower_char c) sep = Ascii.eqb c sep.
Proof. destruct c as [[] [] [] [] [] [] [] []]; reflexivity. Qed.

Lemma lower_char_extsep (c : ascii) : Ascii.eqb (lower_char c) extsep = Ascii.eqb c extsep.
Proof. destruct c as [[] [] [] [] [] [] [] []]; reflexivity. Qed.

Lemma has_char_lower_sep (s : string) : has_char sep (lower s) = has_char sep s.
Proof. induction s as [|c r IH]; simpl; [reflexivity | now rewrite lower_char_sep, IH]. Qed.

Lemma has_char_lower_extsep (s : string) : has_char extsep (lower s) = has_char extsep s.
Proof. induction s as [|c r IH]; simpl; [reflexivity | now rewrite lower_char_extsep, IH]. Qed.

Lemma all_char_lower_extsep (s : string) : all_char extsep (lower s) = all_char extsep s.
Proof. induction s as [|c r IH]; simpl; [reflexivity | now rewrite lower_char_extsep, IH]. Qed.

Lemma lower_app (a b : string) : lower (a +:+ b) = lower a +:+ lower b.
Proof. induction a as [|c a IH]; simpl; [reflexivity | now rewrite IH]. Qed.

(** A string whose lower-case form is [x +:+ y] splits accordingly. *)
Lemma lower_app_inv (x y s : string) :
  lower s = x +:+ y ->
  exists s1 s2, s = s1 +:+ s2 /\ lower s1 = x /\ lower s2 = y.
Proof.
  revert s; induction x as [|c x IH]; intros s H.
  - exists "", s. auto.
  - destruct s as [|a s]; [discriminate |].
    simpl in H. injection H as Hc Hs.
    destruct (IH s Hs) as (s1 & s2 & -> & H1 & H2).
    exists (String a s1), s2. simpl. now rewrite Hc, H1.
Qed.

(** A plain extension keeps its shape under any spelling of its letters. *)
Lemma plain_ext_lower (E' : string) : plain_ext (lower E') = plain_ext E'.
Proof.
  destruct E' as [|c e]; [reflexivity |]. simpl.
  now rewrite lower_char_extsep, has_char_lower_sep, has_char_lower_extsep.
Qed.

End LowerFacts.

(** ** The classification table *)

Section TableFacts.
Import Py PosixPath.

Lemma table_ok_true : table_ok = true.
Proof. vm_compute. reflexivity. Qed.

Lemma table_entry (C : string) (exts : list string) (E : string) :
  In (C, exts) FOLDERS -> In E exts ->
  plain_ext E = true /\ find_folder E FOLDERS = Some C.
Proof.
  intros HC HE.
  pose proof table_ok_true as H. unfold table_ok in H.
  rewrite forallb_forall in H. specialize (H _ HC). cbn [fst snd] in H.
  rewrite forallb_forall in H. specialize (H _ HE).
  apply andb_true_iff in H as [Hp Hf]. split; [exact Hp |].
  destruct (find_folder E FOLDERS) as [C'|]; [| discriminate].
  apply String.eqb_eq in Hf. now subst.
Qed.

Lemma str_in_In (x : string) (l : list string) : str_in x l = true <-> In x l.
Proof.
  unfold str_in. rewrite existsb_exists. split.
  - intros (y & Hy & E). apply String.eqb_eq in E. now subst.
  - intros H. exists x. split; [exact H | apply String.eqb_refl].
Qed.

Lemma find_folder_none (ext : string) (items : list (string * list string)) :
  (forall C exts, In (C, exts) items -> ~ In ext exts) ->
  find_folder ext items = None.
Proof.
  induction items as [|[folder extensions] rest IH]; intros H; simpl; [reflexivity |].
  destruct (str_in ext extensions) eqn:E.
  - apply str_in_In in E. exfalso. apply (H folder extensions); [left; reflexivity | exact E].
  - apply IH. intros C exts HC. apply (H C). right; exact HC.
Qed.

Lemma find_folder_some (ext folder : string) (items : list (string * list string)) :
  find_folder ext items = Some folder ->
  exists exts, In (folder, exts) items /\ In ext exts.
Proof.
  induction items as [|[f extensions] rest IH]; simpl; [discriminate |].
  destruct (str_in ext extensions) eqn:E.
  - intros [= <-]. exists extensions. split; [left; reflexivity | now apply str_in_In].
  - intros H. destruct (IH H) as (exts & H1 & H2). exists exts. split; [right; exact H1 | exact H2].
Qed.

Lemma classify_in_folders (p : string) : In (classify p) folders.
Proof.
  unfold classify.
  destruct (find_folder (extension p) FOLDERS) as [f|] eqn:E.
  - destruct (find_folder_some _ _ _ E) as (exts & H & _).
    change folders with (map fst FOLDERS). now apply (in_map fst) in H.
  - simpl. tauto.
Qed.

(** The extension lookup of a name spelled [F] followed by any casing [E']
    of a listed extension. *)
Lemma classify_case_variant (F E' C E : string) (exts : list string) :
  In (C, exts) FOLDERS -> In E exts -> lower E' = E ->
  all_char extsep (basename F) = false ->
  classify (F +:+ E') = C.
Proof.
  intros HC HE Hl Hstem.
  destruct (table_entry _ _ _ HC HE) as [Hp Hf].
  rewrite <- Hl, plain_ext_lower in Hp.
  destruct E' as [|c e]; [discriminate |]. simpl in Hp.
  apply andb_true_iff in Hp as [Hp Hd]. apply andb_true_iff in Hp as [Hc Hs].
  apply Ascii.eqb_eq in Hc. subst c.
  apply negb_true_iff in Hd, Hs.
  unfold classify, extension.
  rewrite (splitext_app F e Hs Hd), Hstem, Hl. now rewrite Hf.
Qed.

Lemma classify_no_extension (p : string) : snd (splitext p) = "" -> classify p = "others".
Proof. intros H. unfold classify, extension. rewrite H. reflexivity. Qed.

Lemma classify_unsupported (p : string) : unsupported (extension p) -> classify p = "others".
Proof. intros H. unfold classify. now rewrite (find_folder_none _ _ H). Qed.

End TableFacts.

(** ** Classification of supported and unsupported extensions *)

Section Classification.
Import Py PosixPath.

(** C1, as stated, fails: the name [...] followed by [.jpg] is filed under
    "others", because [splitext] skips the leading dots of a file name and
    finds no extension; the same holds for the hidden file [.jpg]. *)
Lemma classify_leading_dots_counterexample :
  ~ (forall (F C E : string) (exts : list string),
       In (C, exts) FOLDERS -> In E exts -> classify (F +:+ E) = C).
Proof.
  intros H.
  specialize (H "..." "images" ".jpg" [".png"; ".jpg"; ".jpeg"; ".gif"; ".bmp"; ".tiff"]).
  assert (classify ("..." +:+ ".jpg") = "images") as Habs.
  { apply H; simpl; auto. }
  vm_compute in Habs. discriminate.
Qed.

(** C1 (amended): for every name [F] whose last component holds a character
    other than a dot, and every extension [E] listed under category [C],
    [classify] of [F] followed by any spelling [E'] of [E] in upper or lower
    case (any string whose lower-case form is [E]) is [C]. *)
Theorem classify_supported_extension (F E' C E : string) (exts : list string) :
  In (C, exts) FOLDERS -> In E exts -> lower E' = E ->
  all_char extsep (basename F) = false ->
  classify (F +:+ E') = C.
Proof. apply classify_case_variant. Qed.

Lemma classify_supported_extension_witness :
  classify ("/home/u/Photo" +:+ ".JpG") = "images".
Proof.
  apply (classify_supported_extension "/home/u/Photo" ".JpG" "images" ".jpg"
           [".png"; ".jpg"; ".jpeg"; ".gif"; ".bmp"; ".tiff"]).
  - simpl. left. reflexivity.
  - simpl. right. left. reflexivity.
  - reflexivity.
  - reflexivity.
Defined.

(** C2: a path whose extension is empty, or is listed under no category,
    is filed under "others"; [classify] is a total function and its value is
    always one of the eight category names. *)
Theorem classify_fallback_others (p : string) :
  snd (splitext p) = "" \/ unsupported (extension p) ->
  classify p = "others" /\ In (classify p) folders.
Proof.
  intros H. split; [| apply classify_in_folders].
  destruct H as [H | H]; [now apply classify_no_extension | now apply classify_unsupported].
Qed.

Lemma classify_fallback_others_witness :
  classify "/srv/in/Makefile" = "others" /\ classify "/srv/in/data.xyz" = "others".
Proof.
  split.
  - apply (classify_fallback_others "/srv/in/Makefile"). left. reflexivity.
  - apply (classify_fallback_others "/srv/in/data.xyz"). right.
    intros C exts HC HE. simpl in HC.
    repeat (destruct HC as [HC | HC];
            [injection HC as <- <-; simpl in HE; repeat (destruct HE as [HE | HE]; [discriminate |]); exact HE |]).
    exact HC.
Defined.

End Classification.

(** ** Joining and resolving paths *)

Section PathFacts.
Import Py PosixPath.

Lemma split_cons (c : ascii) (s : string) : exists h t, Py.split c s = h :: t.
Proof.
  induction s as [|a r [h [t IH]]]; simpl; [now exists "", [] |].
  destruct (Ascii.eqb a c); [now eexists _, _ |]. rewrite IH. now eexists _, _.
Qed.

Lemma split_app_sep (a b : string) :
  Py.split sep (a +:+ String sep b) = Py.split sep a ++ Py.split sep b.
Proof.
  induction a as [|x a IH]; simpl.
  - reflexivity.
  - rewrite IH. destruct (Ascii.eqb x sep); [reflexivity |].
    destruct (split_cons sep a) as (h & t & ->). reflexivity.
Qed.

Lemma split_plain (b : string) : has_char sep b = false -> Py.split sep b = [b].
Proof.
  induction b as [|x b IH]; simpl; [reflexivity |].
  intros H. apply orb_false_elim in H as [Hx Hb]. rewrite Hx, (IH Hb). reflexivity.
Qed.

Lemma endswith_inv (a : string) :
  endswith sep a = true -> exists a', a = a' +:+ String sep "".
Proof.
  induction a as [|x a IH]; simpl; [discriminate |].
  destruct a as [|y a].
  - intros H. apply Ascii.eqb_eq in H. subst. now exists "".
  - intros H. destruct (IH H) as [a' ->]. now exists (String x a').
Qed.

Lemma startswith_app (c : ascii) (a b : string) :
  truthy a = true -> startswith c (a +:+ b) = startswith c a.
Proof. destruct a; [discriminate | reflexivity]. Qed.

Lemma plain_name_inv (x : string) :
  plain_name x = true ->
  has_char sep x = false /\ str_in x [""; "."] = false /\ String.eqb x ".." = false /\
  truthy x = true.
Proof.
  unfold plain_name. intros H. apply andb_true_iff in H as [H1 H2].
  apply negb_true_iff in H1, H2. cbn in H2.
  repeat (apply orb_false_elim in H2 as [? H2]).
  repeat split; [assumption | | assumption |].
  - cbn. now rewrite H, H0.
  - destruct x; [discriminate | reflexivity].
Qed.

Lemma resolve_step_plain (stack : list string) (x : string) :
  plain_name x = true -> resolve_step stack x = stack ++ [x].
Proof.
  intros H. destruct (plain_name_inv x H) as (_ & H1 & H2 & _).
  unfold resolve_step. now rewrite H1, H2.
Qed.

(** Joining a single name onto a path descends by one level. *)
Lemma resolve_join (wd : list string) (a x : string) :
  plain_name x = true -> resolve wd (join a x) = resolve wd a ++ [x].
Proof.
  intros H. destruct (plain_name_inv x H) as (Hs & _ & _ & Hx).
  unfold join.
  assert (startswith sep x = false) as ->.
  { destruct x as [|c x]; [reflexivity |]. simpl in *. now apply orb_false_elim in Hs as [-> _]. }
  destruct a as [|c a].
  - cbn [truthy negb orb]. unfold resolve. cbn.
    rewrite split_plain by assumption. cbn.
    replace (startswith sep x) with false
      by (destruct x as [|y x]; [reflexivity | simpl in *; now apply orb_false_elim in Hs as [-> _]]).
    now apply resolve_step_plain.
  - cbn [truthy negb orb].
    destruct (endswith sep (String c a)) eqn:E.
    + destruct (endswith_inv _ E) as [a' Ha]. rewrite Ha.
      unfold resolve.
      rewrite (startswith_app sep (a' +:+ String sep "") x) by (now rewrite <- Ha).
      rewrite app_assoc_str. cbn [append].
      rewrite !split_app_sep, (split_plain x) by assumption.
      rewrite !fold_left_app. cbn [Py.split fold_left].
      change (resolve_step ?s "") with s.
      now apply resolve_step_plain.
    + unfold resolve. rewrite startswith_app by reflexivity.
      rewrite split_app_sep, (split_plain x) by assumption.
      rewrite fold_left_app. cbn [fold_left]. now apply resolve_step_plain.
Qed.

Lemma basename_join (a x : string) : has_char sep x = false -> basename (join a x) = x.
Proof.
  intros Hs. unfold join.
  assert (startswith sep x = false) as ->.
  { destruct x as [|c x]; [reflexivity |]. simpl in *. now apply orb_false_elim in Hs as [-> _]. }
  destruct a as [|c a].
  - cbn. now apply basename_plain.
  - cbn [truthy negb orb].
    destruct (endswith sep (String c a)) eqn:E.
    + destruct (endswith_inv _ E) as [a' ->].
      rewrite app_assoc_str. cbn [append]. now apply basename_under.
    + now apply basename_under.
Qed.

Lemma truthy_join (a x : string) : truthy x = true -> truthy (join a x) = true.
Proof.
  intros H. unfold join. destruct (startswith sep x); [assumption |].
  destruct x; [discriminate |].
  destruct (negb (truthy a) || endswith sep a); destruct a; reflexivity.
Qed.

Lemma dir_only_join (a x : string) : plain_name x = true -> dir_only (join a x) = false.
Proof.
  intros H. destruct (plain_name_inv x H) as (Hs & H1 & H2 & _).
  unfold dir_only. rewrite basename_join by assumption.
  cbn in *. apply orb_false_elim in H1 as [-> H1]. apply orb_false_elim in H1 as [-> _].
  now rewrite H2.
Qed.

Lemma removelast_snoc {A : Type} (l : list A) (x : A) : removelast (l ++ [x]) = l.
Proof. now rewrite removelast_app, app_nil_r. Qed.

Lemma node_at_snoc (m : gmap (list string) node) (k : list string) (x : string) :
  node_at m (k ++ [x]) = m !! (k ++ [x]).
Proof. unfold node_at. now destruct k. Qed.

(** What [stat] answers for a single name below a path. *)
Lemma stat_join (wd : list string) (m : gmap (list string) node) (a x : string) :
  plain_name x = true ->
  stat wd m (join a x) =
  match m !! (resolve wd a ++ [x]) with
  | Some n => inr n
  | None =>
      match node_at m (resolve wd a) with
      | Some (File _) => inl ENOTDIR
      | _ => inl ENOENT
      end
  end.
Proof.
  intros H. destruct (plain_name_inv x H) as (_ & _ & _ & Hx).
  unfold stat. rewrite truthy_join by assumption. cbn [negb].
  rewrite resolve_join, node_at_snoc, removelast_snoc, dir_only_join by assumption.
  now destruct (m !! (resolve wd a ++ [x])) as [[c|]|].
Qed.

(** Every category name is a single name. *)
Lemma folders_plain (c : string) : In c folders -> plain_name c = true.
Proof.
  intros H. simpl in H.
  repeat (destruct H as [<- | H]; [reflexivity |]). contradiction.
Qed.

End PathFacts.

(** ** The monad *)

Section MonadFacts.

Lemma bind_unfold {A B : Type} (m : M A) (f : A -> M B) (st : state) :
  (m ≫= f) st =
  match m st with
  | (Ok a, st') => f a st'
  | (Raise e, st') => (Raise e, st')
  end.
Proof. reflexivity. Qed.

Lemma bind_ok {A B : Type} (m : M A) (f : A -> M B) (st st' : state) (a : A) :
  m st = (Ok a, st') -> (m ≫= f) st = f a st'.
Proof. intros H. now rewrite bind_unfold, H. Qed.

Lemma bind_raise {A B : Type} (m : M A) (f : A -> M B) (st st' : state) (e : exn) :
  m st = (Raise e, st') -> (m ≫= f) st = (Raise e, st').
Proof. intros H. now rewrite bind_unfold, H. Qed.

Lemma catch_unfold {A : Type} (handles : exn -> bool) (m : M A) (h : exn -> M A) (st : state) :
  catch handles m h st =
  match m st with
  | (Raise e, st') => if handles e then h e st' else (Raise e, st')
  | r => r
  end.
Proof. reflexivity. Qed.

End MonadFacts.

(** ** States that only grow *)

Section Extends.
Import Py PosixPath.

Lemma extends_refl (st : state) : extends st st.
Proof. unfold extends. repeat split; reflexivity. Qed.

Lemma extends_trans (st1 st2 st3 : state) :
  extends st1 st2 -> extends st2 st3 -> extends st1 st3.
Proof.
  intros (B1 & P1 & C1 & F1) (B2 & P2 & C2 & F2).
  repeat split; try congruence. now transitivity (fs st2).
Qed.

Lemma extends_log (e : effect) (st : state) : extends st (log e st).
Proof. unfold extends. repeat split; reflexivity. Qed.

Lemma node_at_weaken (m m' : gmap (list string) node) (k : list string) (n : node) :
  m ⊆ m' -> node_at m k = Some n -> node_at m' k = Some n.
Proof.
  intros Hsub. destruct k as [|x k]; [trivial |]. cbn.
  intros H. now apply (lookup_weaken m m').
Qed.

Lemma stat_inr (wd : list string) (m : gmap (list string) node) (p : string) (n : node) :
  stat wd m p = inr n <->
  truthy p = true /\ node_at m (resolve wd p) = Some n /\
  (dir_only p = true -> n = Dir).
Proof.
  unfold stat. destruct (truthy p); cbn [negb].
  - destruct (node_at m (resolve wd p)) as [[c|]|] eqn:E.
    + destruct (dir_only p); split.
      * discriminate.
      * intros (_ & [= <-] & H). now specialize (H eq_refl).
      * intros [= <-]. repeat split. discriminate.
      * intros (_ & [= <-] & _). reflexivity.
    + split; [intros [= <-]; now repeat split | intros (_ & [= <-] & _); reflexivity].
    + split; [now destruct (node_at m (removelast (resolve wd p))) as [[?|]|] | intros (_ & ? & _); discriminate].
  - split; [discriminate | intros (? & _); discriminate].
Qed.

Lemma stat_weaken (st st' : state) (p : string) (n : node) :
  extends st st' ->
  stat (cwd st) (fs st) p = inr n -> stat (cwd st') (fs st') p = inr n.
Proof.
  intros (_ & _ & Hc & Hf). rewrite !stat_inr, Hc.
  intros (H1 & H2 & H3). repeat split; try assumption.
  now apply (node_at_weaken (fs st)).
Qed.

Lemma is_dir_weaken (st st' : state) (p : string) :
  extends st st' -> is_dir st p -> is_dir st' p.
Proof. unfold is_dir. apply stat_weaken. Qed.

Lemma is_file_weaken (st st' : state) (p c : string) :
  extends st st' -> is_file st p c -> is_file st' p c.
Proof. unfold is_file. apply stat_weaken. Qed.

Lemma mkdir_extends (p : string) (st st' : state) (r : result unit) :
  Os.mkdir p st = (r, st') -> extends st st'.
Proof.
  unfold Os.mkdir.
  destruct (negb (truthy p)); [intros [= _ <-]; apply extends_refl |].
  destruct (node_at (fs st) (resolve (cwd st) p)) as [n|] eqn:E;
    [intros [= _ <-]; apply extends_refl |].
  destruct (str_in (basename p) ["."; ".."]); [intros [= _ <-]; apply extends_refl |].
  destruct (node_at (fs st) (removelast (resolve (cwd st) p))) as [[c|]|];
    intros [= _ <-]; try apply extends_refl.
  repeat split. cbn. apply insert_subseteq.
  destruct (resolve (cwd st) p); [discriminate | exact E].
Qed.

Lemma mkdir_ok_is_dir (p : string) (st st' : state) :
  Os.mkdir p st = (Ok tt, st') -> is_dir st' p.
Proof.
  unfold Os.mkdir, is_dir.
  destruct (truthy p) eqn:Hp; cbn [negb]; [| discriminate].
  destruct (node_at (fs st) (resolve (cwd st) p)) as [n|] eqn:E; [discriminate |].
  destruct (str_in (basename p) ["."; ".."]); [discriminate |].
  destruct (node_at (fs st) (removelast (resolve (cwd st) p))) as [[c|]|]; try discriminate.
  intros [= <-]. apply stat_inr. cbn.
  split; [assumption |]. split; [| reflexivity].
  destruct (resolve (cwd st) p) as [|x k] eqn:Ek; [reflexivity |].
  cbn. apply lookup_insert_eq.
Qed.

Lemma makedirs_rec_extends (depth : nat) (name : string) (ok : bool)
      (st st' : state) (r : result unit) :
  Os.makedirs_rec depth name ok st = (r, st') -> extends st st'.
Proof.
  revert name st st' r. induction depth as [|depth IH]; intros name st st' r.
  - intros [= _ <-]. apply extends_refl.
  - cbn [Os.makedirs_rec].
    destruct (PosixPath.split name) as [head tail].
    destruct (if negb (truthy tail) then PosixPath.split head else (head, tail)) as [head' tail'].
    rewrite bind_unfold. unfold Os.path_exists at 1.
    set (head_exists := match stat (cwd st) (fs st) head' with inr _ => true | inl _ => false end).
    rewrite bind_unfold.
    assert (forall (b : bool) (st1 : state) (r1 : result unit) (st2 : state),
               extends st st1 ->
               (if b then mret tt
                else catch is_OSError (Os.mkdir name)
                       (fun e => d ← Os.path_isdir name;
                                 if negb ok || negb d then raise e else mret tt)) st1 = (r1, st2) ->
               extends st st2) as Hfinal.
    { intros b st1 r1 st2 H1. destruct b; [intros [= _ <-]; exact H1 |].
      rewrite catch_unfold.
      destruct (Os.mkdir name st1) as [[[]|e] st1'] eqn:Em.
      - intros [= _ <-]. eapply extends_trans; [exact H1 | eapply mkdir_extends; exact Em].
      - apply mkdir_extends in Em.
        destruct (is_OSError e); [| intros [= _ <-]; eapply extends_trans; eassumption].
        rewrite bind_unfold. unfold Os.path_isdir.
        destruct (negb ok || negb _); intros [= _ <-]; eapply extends_trans; eassumption. }
    destruct (truthy head' && truthy tail' && negb head_exists).
    + rewrite bind_unfold, catch_unfold.
      destruct (Os.makedirs_rec depth head' ok st) as [[[]|e] st1] eqn:Er;
        apply IH in Er.
      * intros H. exact (Hfinal (String.eqb tail' ".") st1 r st' Er H).
      * destruct (is_FileExistsError e).
        -- intros H. exact (Hfinal (String.eqb tail' ".") st1 r st' Er H).
        -- intros [= _ <-]. exact Er.
    + intros H. exact (Hfinal false st r st' (extends_refl st) H).
Qed.

Lemma length_rstrip (c : ascii) (s : string) :
  (String.length (rstrip c s) <= String.length s)%nat.
Proof.
  induction s as [|a r IH]; [reflexivity |].
  cbn [rstrip]. destruct (rstrip c r) as [|y r'].
  - destruct (Ascii.eqb a c); cbn; lia.
  - cbn in *. lia.
Qed.

Lemma split_lengths (p h t : string) :
  PosixPath.split p = (h, t) ->
  (String.length h + String.length t <= String.length p)%nat.
Proof.
  unfold PosixPath.split, slice_to, slice_from. cbv zeta.
  set (n := Z.to_nat (rfind sep p + 1)).
  intros [= <- <-].
  pose proof (length_str_take n p). pose proof (length_str_drop n p).
  pose proof (length_rstrip sep (str_take n p)).
  destruct (truthy (str_take n p) && negb (all_char sep (str_take n p))); lia.
Qed.

Lemma mkdir_raises_OSError (p : string) (st st' : state) (e : exn) :
  Os.mkdir p st = (Raise e, st') -> is_OSError e = true.
Proof.
  unfold Os.mkdir.
  repeat match goal with
         | |- context [match ?x with _ => _ end] => destruct x
         end; intros [= <- _]; reflexivity.
Qed.

(** The recursion of [os.makedirs] is on a strictly shorter name each time,
    so the depth [makedirs] grants is never used up. *)
Lemma makedirs_rec_depth (depth : nat) :
  forall (name : string) (ok : bool) (st st' : state) (r : result unit),
    (String.length name < depth)%nat ->
    Os.makedirs_rec depth name ok st = (r, st') -> r <> Raise RecursionError.
Proof.
  induction depth as [|depth IH]; intros name ok st st' r Hlen; [lia |].
  cbn [Os.makedirs_rec].
  destruct (PosixPath.split name) as [head tail] eqn:Hs.
  destruct (if negb (truthy tail) then PosixPath.split head else (head, tail))
    as [head' tail'] eqn:Hs2.
  assert (truthy tail' = true -> (String.length head' < depth)%nat) as Hshort.
  { intros Ht. pose proof (split_lengths _ _ _ Hs) as H1.
    assert (1 <= String.length tail')%nat as H3 by (destruct tail'; [discriminate | cbn; lia]).
    destruct (truthy tail); cbn [negb] in Hs2.
    - injection Hs2 as <- <-. lia.
    - pose proof (split_lengths _ _ _ Hs2) as H2. lia. }
  rewrite bind_unfold. unfold Os.path_exists at 1. rewrite bind_unfold.
  assert (forall (b : bool) (st1 : state),
             (if b then mret tt
              else catch is_OSError (Os.mkdir name)
                     (fun e => d ← Os.path_isdir name;
                               if negb ok || negb d then raise e else mret tt)) st1 = (r, st') ->
             r <> Raise RecursionError) as Hfinal.
  { intros b st1. destruct b; [intros [= <- _]; discriminate |].
    rewrite catch_unfold.
    destruct (Os.mkdir name st1) as [[[]|e] st1'] eqn:Em; [intros [= <- _]; discriminate |].
    pose proof (mkdir_raises_OSError _ _ _ _ Em) as He. rewrite He.
    rewrite bind_unfold. unfold Os.path_isdir.
    destruct (negb ok || negb _); intros [= <- _]; [| discriminate].
    intros [= ->]. discriminate. }
  destruct (truthy head' && truthy tail' && negb _) eqn:Econd.
  - apply andb_true_iff in Econd as [Econd _]. apply andb_true_iff in Econd as [_ Ht].
    rewrite bind_unfold, catch_unfold.
    destruct (Os.makedirs_rec depth head' ok st) as [[[]|e] st1] eqn:Er.
    + intros H. exact (Hfinal (String.eqb tail' ".") st1 H).
    + pose proof (IH head' ok st st1 (Raise e) (Hshort Ht) Er) as Hne.
      destruct (is_FileExistsError e).
      * intros H. exact (Hfinal (String.eqb tail' ".") st1 H).
      * intros [= <- _]. exact Hne.
  - intros H. exact (Hfinal false st H).
Qed.

Lemma makedirs_never_exhausted (name : string) (ok : bool) (st st' : state) (r : result unit) :
  Os.makedirs name ok st = (r, st') -> r <> Raise RecursionError.
Proof. unfold Os.makedirs. apply makedirs_rec_depth. lia. Qed.

(** A successful [makedirs] of a name whose last segment is an ordinary
    name leaves a directory at that name. *)
Lemma makedirs_rec_ok_is_dir (depth : nat) (name : string) (st st' : state) :
  truthy (basename name) = true -> basename name <> "." ->
  Os.makedirs_rec depth name true st = (Ok tt, st') -> is_dir st' name.
Proof.
  intros Ht Hdot. destruct depth as [|depth]; [discriminate |].
  cbn [Os.makedirs_rec].
  destruct (PosixPath.split name) as [head tail] eqn:Hs.
  assert (tail = basename name) as Htail by (unfold PosixPath.split in Hs; now injection Hs).
  rewrite <- Htail in Ht, Hdot. rewrite Ht. cbn [negb].
  rewrite bind_unfold. unfold Os.path_exists at 1. rewrite bind_unfold.
  assert (forall (st1 st2 : state),
             catch is_OSError (Os.mkdir name)
               (fun e => d ← Os.path_isdir name;
                         if negb true || negb d then raise e else mret tt) st1 = (Ok tt, st2) ->
             is_dir st2 name) as Hfinal.
  { intros st1 st2. rewrite catch_unfold.
    destruct (Os.mkdir name st1) as [[[]|e] st1'] eqn:Em.
    - intros [= <-]. eapply mkdir_ok_is_dir; exact Em.
    - destruct (is_OSError e); [| discriminate].
      rewrite bind_unfold. unfold Os.path_isdir, is_dir.
      destruct (stat (cwd st1') (fs st1') name) as [|[|]] eqn:Es; cbn; try discriminate.
      intros [= <-]. exact Es. }
  assert (String.eqb tail "." = false) as Hne by (now apply String.eqb_neq).
  destruct (truthy head && truthy tail && negb _).
  - rewrite bind_unfold, catch_unfold.
    destruct (Os.makedirs_rec depth head true st) as [[[]|e] st1].
    + change ((mret (String.eqb tail ".") : M bool) st1) with (Ok (String.eqb tail "."), st1).
      rewrite Hne. apply Hfinal.
    + destruct (is_FileExistsError e); [| discriminate].
      change ((mret (String.eqb tail ".") : M bool) st1) with (Ok (String.eqb tail "."), st1).
      rewrite Hne. apply Hfinal.
  - intros H. exact (Hfinal st st' H).
Qed.

End Extends.

(** ** Creating the category directories *)

Section CreateDirs.
Import Py PosixPath.

Lemma for_each_extends {A : Type} (l : list A) (body : A -> M unit) :
  (forall x st1 st2 r, body x st1 = (r, st2) -> extends st1 st2) ->
  forall st st' r, for_each l body st = (r, st') -> extends st st'.
Proof.
  intros Hbody. induction l as [|x l IH]; intros st st' r; cbn [for_each].
  - intros [= _ <-]. apply extends_refl.
  - rewrite bind_unfold. destruct (body x st) as [[[]|e] st1] eqn:E.
    + intros H. eapply extends_trans; [eapply Hbody; exact E | eapply IH; exact H].
    + intros [= _ <-]. eapply Hbody; exact E.
Qed.

(** What every round of a loop establishes, and later rounds keep, holds
    for each element when the loop completes. *)
Lemma for_each_ok_all {A : Type} (P : A -> state -> Prop) (l : list A) (body : A -> M unit) :
  (forall x st1 st2 r, body x st1 = (r, st2) -> extends st1 st2) ->
  (forall x st1 st2, P x st1 -> extends st1 st2 -> P x st2) ->
  (forall x st1 st2, In x l -> body x st1 = (Ok tt, st2) -> P x st2) ->
  forall st st', for_each l body st = (Ok tt, st') -> forall x, In x l -> P x st'.
Proof.
  intros Hext Hmono. induction l as [|y l IH]; intros Hstep st st' Hrun x Hx; [contradiction |].
  cbn [for_each] in Hrun. rewrite bind_unfold in Hrun.
  destruct (body y st) as [[[]|e] st1] eqn:E; [| discriminate].
  destruct Hx as [<- | Hx].
  - apply (Hmono y st1 st'); [| eapply for_each_extends; eassumption].
    apply (Hstep y st st1); [now left | exact E].
  - apply (IH (fun z s1 s2 Hz => Hstep z s1 s2 (or_intror Hz)) st1 st' Hrun x Hx).
Qed.

Lemma create_body_unfold (folder : string) (st : state) :
  create_body folder st =
  match base_folder st with
  | None => (Raise (TypeError "expected str, bytes or os.PathLike object, not NoneType"), st)
  | Some b => Os.makedirs (join b folder) true st
  end.
Proof.
  unfold create_body, join_base. rewrite !bind_unfold. unfold get_base_folder.
  now destruct (base_folder st).
Qed.

Lemma create_body_extends (folder : string) (st st' : state) (r : result unit) :
  create_body folder st = (r, st') -> extends st st'.
Proof.
  rewrite create_body_unfold. destruct (base_folder st).
  - apply makedirs_rec_extends.
  - intros [= _ <-]. apply extends_refl.
Qed.

Lemma create_category_dirs_extends (st st' : state) (r : result unit) :
  create_category_dirs st = (r, st') -> extends st st'.
Proof. apply for_each_extends. intros x. apply create_body_extends. Qed.

(** When the loop completes, the root is set and every category directory
    exists. *)
Lemma create_category_dirs_ok (st st' : state) :
  create_category_dirs st = (Ok tt, st') ->
  exists b, base_folder st = Some b /\ extends st st' /\
            forall c, In c folders -> is_dir st' (join b c).
Proof.
  intros Hrun. pose proof (create_category_dirs_extends _ _ _ Hrun) as Hext.
  destruct (base_folder st) as [b|] eqn:Hb.
  - exists b. split; [reflexivity |]. split; [exact Hext |].
    intros c Hc.
    apply (for_each_ok_all (fun c s => base_folder s = Some b -> is_dir s (join b c))
             (map fst FOLDERS) create_body) with (st := st) (st' := st').
    + intros x. apply create_body_extends.
    + intros x st1 st2 HP H12 Hb2. apply (is_dir_weaken st1); [exact H12 |].
      apply HP. destruct H12 as (E & _). rewrite <- E. exact Hb2.
    + intros x st1 st2 Hx Hbody Hb2.
      pose proof (create_body_extends _ _ _ _ Hbody) as (Hb1 & _).
      rewrite create_body_unfold in Hbody. rewrite <- Hb1, Hb2 in Hbody.
      assert (basename (join b x) = x) as Hbn.
      { apply basename_join. now destruct (plain_name_inv x (folders_plain x Hx)). }
      apply makedirs_rec_ok_is_dir in Hbody; [exact Hbody | |]; rewrite Hbn.
      * now destruct (plain_name_inv x (folders_plain x Hx)) as (_ & _ & _ & ?).
      * intros ->. simpl in Hx. repeat (destruct Hx as [Hx | Hx]; [discriminate |]). exact Hx.
    + exact Hrun.
    + exact Hc.
    + destruct Hext as (E & _). rewrite E. exact Hb.
  - exfalso. unfold create_category_dirs in Hrun. cbn [map FOLDERS fst for_each] in Hrun.
    rewrite bind_unfold, create_body_unfold, Hb in Hrun. discriminate.
Qed.

Lemma join_base_ok (x : string) (st : state) (b : string) :
  base_folder st = Some b -> join_base x st = (Ok (join b x), st).
Proof.
  intros Hb. unfold join_base. rewrite bind_unfold. unfold get_base_folder. now rewrite Hb.
Qed.

(** Lines 163-170 name the folder [classify] chooses, below the root. *)
Lemma destination_ok (p : string) (st : state) (b : string) :
  base_folder st = Some b ->
  destination (extension p) st = (Ok (join b (classify p)), st).
Proof.
  intros Hb. unfold destination, classify. rewrite bind_unfold.
  destruct (find_folder (extension p) FOLDERS) as [folder|] eqn:E.
  - rewrite bind_unfold, (join_base_ok _ _ _ Hb). cbn -[join truthy].
    rewrite truthy_join; [reflexivity |].
    destruct (find_folder_some _ _ _ E) as (exts & HC & _).
    apply (in_map fst) in HC. change (map fst FOLDERS) with folders in HC.
    now destruct (plain_name_inv _ (folders_plain _ HC)) as (_ & _ & _ & ?).
  - cbn -[join]. apply join_base_ok, Hb.
Qed.

Lemma organize_file_excluded (p : string) (st : state) :
  is_excluded p = true ->
  organize_file p st = (Ok tt, log (Print ("Skipping: " +:+ basename p)) st).
Proof. unfold organize_file, is_excluded. now intros ->. Qed.

Lemma organize_file_unfold (p : string) (st : state) :
  is_excluded p = false ->
  organize_file p st =
  (create_category_dirs ;; d ← destination (extension p); move_step p d)
    (log (Print ("Organizing: " +:+ p)) st).
Proof. unfold organize_file, is_excluded. now intros ->. Qed.

(** The three courses a call of [organize_file] can take. *)
Lemma organize_file_cases (p : string) (st : state) :
  (is_excluded p = true /\
   organize_file p st = (Ok tt, log (Print ("Skipping: " +:+ basename p)) st)) \/
  (is_excluded p = false /\
   exists e st1,
     create_category_dirs (log (Print ("Organizing: " +:+ p)) st) = (Raise e, st1) /\
     organize_file p st = (Raise e, st1)) \/
  (is_excluded p = false /\
   exists b st1,
     create_category_dirs (log (Print ("Organizing: " +:+ p)) st) = (Ok tt, st1) /\
     base_folder st = Some b /\
     (forall c, In c folders -> is_dir st1 (join b c)) /\
     organize_file p st = move_step p (join b (classify p)) st1).
Proof.
  destruct (is_excluded p) eqn:Hex.
  - left. split; [reflexivity | now apply organize_file_excluded].
  - right. rewrite (organize_file_unfold p st Hex), bind_unfold.
    destruct (create_category_dirs (log (Print ("Organizing: " +:+ p)) st)) as [[[]|e] st1] eqn:E.
    + right. split; [reflexivity |].
      destruct (create_category_dirs_ok _ _ E) as (b & Hb & Hext & Hdirs).
      exists b, st1. repeat split; try assumption.
      rewrite bind_unfold, (destination_ok p st1 b); [reflexivity |].
      destruct Hext as (E' & _). rewrite E'. exact Hb.
    + left. split; [reflexivity |]. now exists e, st1.
Qed.

End CreateDirs.

(** ** Creating the category directories below an existing root *)

Section UnderRoot.
Import Py PosixPath.

Lemma rstrip_decompose (a : string) :
  exists s, a = rstrip sep a +:+ s /\ all_char sep s = true.
Proof.
  induction a as [|x a (s & Ha & Hs)]; [now exists "" |].
  cbn [rstrip]. destruct (rstrip sep a) as [|y r] eqn:E.
  - destruct (Ascii.eqb x sep) eqn:Ex.
    + exists (String x a). split; [reflexivity |].
      cbn. rewrite Ex. cbn in Ha. now rewrite Ha.
    + exists s. split; [cbn in *; now rewrite <- Ha | exact Hs].
  - exists s. split; [cbn in *; now rewrite <- Ha | exact Hs].
Qed.

Lemma rstrip_truthy (a : string) : all_char sep a = false -> truthy (rstrip sep a) = true.
Proof.
  induction a as [|x a IH]; [discriminate |].
  cbn [all_char rstrip]. destruct (Ascii.eqb x sep) eqn:Ex; cbn [andb].
  - intros H. specialize (IH H). now destruct (rstrip sep a).
  - intros _. now destruct (rstrip sep a).
Qed.

Lemma fold_slashes (s : string) (stack : list string) :
  all_char sep s = true -> fold_left resolve_step (Py.split sep s) stack = stack.
Proof.
  induction s as [|x s IH]; [reflexivity |].
  cbn [all_char Py.split]. intros H. apply andb_true_iff in H as [-> H].
  cbn [fold_left]. now apply IH.
Qed.

Lemma resolve_app_slashes (wd : list string) (h s : string) :
  truthy h = true -> all_char sep s = true -> resolve wd (h +:+ s) = resolve wd h.
Proof.
  intros Hh Hs. destruct s as [|x s]; [now rewrite app_empty_r |].
  cbn [all_char] in Hs. apply andb_true_iff in Hs as [Hx Hs].
  apply Ascii.eqb_eq in Hx. subst x.
  unfold resolve. rewrite startswith_app by assumption.
  rewrite split_app_sep, fold_left_app. now apply fold_slashes.
Qed.

(** The head and tail [posixpath.split] finds in a joined path. *)
Lemma split_join (wd : list string) (b c : string) :
  truthy b = true -> has_char sep c = false ->
  exists head, PosixPath.split (join b c) = (head, c) /\
               truthy head = true /\ resolve wd head = resolve wd b.
Proof.
  intros Hb Hc.
  assert (exists a', join b c = a' +:+ String sep c /\
                     resolve wd (a' +:+ String sep "") = resolve wd b) as (a' & Hj & Hr).
  { unfold join.
    assert (startswith sep c = false) as ->.
    { destruct c as [|y c]; [reflexivity |]. simpl in *. now apply orb_false_elim in Hc as [-> _]. }
    rewrite Hb. cbn [negb orb].
    destruct (endswith sep b) eqn:E.
    - destruct (endswith_inv _ E) as [a' ->]. exists a'.
      rewrite app_assoc_str. now split.
    - exists b. split; [reflexivity |]. now apply resolve_app_slashes. }
  rewrite Hj. unfold PosixPath.split.
  assert (rfind sep (a' +:+ String sep c) + 1 = Z.of_nat (String.length (a' +:+ String sep ""))) as ->.
  { rewrite rfind_app. cbn [has_char]. rewrite Ascii.eqb_refl. cbn [orb rfind].
    rewrite (rfind_absent _ _ Hc). cbn. rewrite str_length_app. cbn. lia. }
  unfold slice_to, slice_from. rewrite Nat2Z.id.
  change (a' +:+ String sep c) with (a' +:+ (String sep "" +:+ c)).
  rewrite <- app_assoc_str.
  rewrite str_take_app, str_take_all, str_drop_app, str_drop_all by lia.
  cbn [append].
  set (h0 := a' +:+ String sep "") in *.
  assert (truthy h0 = true) as Hh0 by (unfold h0; now destruct a').
  rewrite Hh0. cbn [andb].
  destruct (all_char sep h0) eqn:Eall; cbn [negb].
  - exists h0. now repeat split.
  - exists (rstrip sep h0). split; [reflexivity |]. split; [now apply rstrip_truthy |].
    rewrite <- Hr.
    destruct (rstrip_decompose h0) as (s & Hd & Hs).
    rewrite Hd at 2. symmetry. apply resolve_app_slashes; [now apply rstrip_truthy | exact Hs].
Qed.

Lemma is_dir_inv (st : state) (p : string) :
  is_dir st p <-> truthy p = true /\ node_at (fs st) (key_of st p) = Some Dir.
Proof.
  unfold is_dir, key_of. rewrite stat_inr. split.
  - now intros (? & ? & _).
  - intros (? & ?). now repeat split.
Qed.

(** [os.makedirs] of a single name below an existing directory. *)
Lemma makedirs_under_root (st : state) (b c : string) :
  is_dir st b -> plain_name c = true ->
  Os.makedirs (join b c) true st =
  match fs st !! (key_of st b ++ [c]) with
  | Some Dir => (Ok tt, st)
  | Some (File _) => (Raise (OSError EEXIST (join b c)), st)
  | None =>
      (Ok tt, log (Mkdir (key_of st b ++ [c]))
                  (with_fs (<[key_of st b ++ [c] := Dir]> (fs st)) st))
  end.
Proof.
  intros Hdir Hc. destruct (plain_name_inv c Hc) as (Hs & H1 & H2 & Ht).
  apply is_dir_inv in Hdir as (Hb & Hnode).
  destruct (split_join (cwd st) b c Hb Hs) as (head & Hsplit & Hh & Hr).
  unfold Os.makedirs. cbn [Os.makedirs_rec]. rewrite Hsplit, Ht. cbn [negb].
  rewrite bind_unfold. unfold Os.path_exists at 1.
  assert (stat (cwd st) (fs st) head = inr Dir) as ->.
  { apply stat_inr. rewrite Hr. now repeat split. }
  rewrite andb_false_r. rewrite bind_unfold.
  change ((mret false : M bool) st) with (Ok false, st). cbv iota beta.
  rewrite catch_unfold. unfold Os.mkdir.
  rewrite truthy_join by assumption. cbn [negb].
  rewrite resolve_join, node_at_snoc by assumption. fold (key_of st b).
  destruct (fs st !! (key_of st b ++ [c])) as [n|] eqn:E.
  - cbn [is_OSError]. rewrite bind_unfold. unfold Os.path_isdir.
    rewrite stat_join by assumption. fold (key_of st b). rewrite E.
    now destruct n.
  - rewrite basename_join by assumption.
    assert (str_in c ["."; ".."] = false) as ->.
    { cbn in *. apply orb_false_elim in H1 as [_ H1]. apply orb_false_elim in H1 as [-> _].
      now rewrite H2. }
    rewrite removelast_snoc, Hnode. reflexivity.
Qed.

Lemma lookup_category (st : state) (b c : string) (n : node) :
  plain_name c = true ->
  stat (cwd st) (fs st) (join b c) = inr n <-> fs st !! (key_of st b ++ [c]) = Some n.
Proof.
  intros Hc. rewrite stat_join by assumption. fold (key_of st b). split.
  - destruct (fs st !! (key_of st b ++ [c])); [now intros [= ->] |].
    now destruct (node_at (fs st) (key_of st b)) as [[?|]|].
  - now intros ->.
Qed.

Lemma mkdir_count_log_eq (k : list string) (st : state) :
  mkdir_count k (log (Mkdir k) st) = S (mkdir_count k st).
Proof.
  unfold mkdir_count, log. cbn [trace]. rewrite count_occ_app. cbn [count_occ].
  destruct (effect_eq_dec (Mkdir k) (Mkdir k)); [lia | congruence].
Qed.

Lemma mkdir_count_log_ne (e : effect) (k : list string) (st : state) :
  e <> Mkdir k -> mkdir_count k (log e st) = mkdir_count k st.
Proof.
  intros Hne. unfold mkdir_count, log. cbn [trace]. rewrite count_occ_app. cbn [count_occ].
  destruct (effect_eq_dec e (Mkdir k)); [contradiction | lia].
Qed.

(** Running the creation loop when every directory exists changes nothing. *)
Lemma create_loop_noop (cs : list string) (st : state) (b : string) :
  base_folder st = Some b -> is_dir st b ->
  (forall c, In c cs -> plain_name c = true /\ is_dir st (join b c)) ->
  for_each cs create_body st = (Ok tt, st).
Proof.
  intros Hb Hroot. induction cs as [|c cs IH]; intros Hcs; [reflexivity |].
  cbn [for_each]. rewrite bind_unfold, create_body_unfold, Hb.
  destruct (Hcs c (or_introl eq_refl)) as [Hc Hd].
  rewrite makedirs_under_root by assumption.
  apply (lookup_category st b c Dir Hc) in Hd. rewrite Hd.
  apply IH. intros c' Hc'. apply Hcs. now right.
Qed.

(** The creation loop below an existing root, when no category name is
    taken by a regular file: it completes, creates exactly the missing
    directories, once each, and touches nothing else. *)
Lemma create_loop_under_root (cs : list string) :
  forall (st : state) (b : string),
    base_folder st = Some b -> is_dir st b -> List.NoDup cs ->
    (forall c, In c cs -> plain_name c = true) ->
    (forall c x, In c cs -> ~ is_file st (join b c) x) ->
    exists st',
      for_each cs create_body st = (Ok tt, st') /\
      extends st st' /\
      (forall c, In c cs -> is_dir st' (join b c)) /\
      (forall k, (forall c, In c cs -> k <> key_of st b ++ [c]) ->
                 fs st' !! k = fs st !! k /\ mkdir_count k st' = mkdir_count k st) /\
      (forall c, In c cs ->
                 mkdir_count (key_of st b ++ [c]) st' =
                 (mkdir_count (key_of st b ++ [c]) st +
                  match fs st !! (key_of st b ++ [c]) with None => 1 | Some _ => 0 end)%nat).
Proof.
  induction cs as [|c cs IH]; intros st b Hb Hroot Hnd Hplain Hnf.
  - exists st. split; [reflexivity |]. split; [apply extends_refl |].
    split; [intros c [] |]. split; [now intros k _ | intros c []].
  - apply List.NoDup_cons_iff in Hnd as [Hnotin Hnd].
    assert (plain_name c = true) as Hc by (apply Hplain; now left).
    cbn [for_each]. rewrite bind_unfold, create_body_unfold, Hb.
    rewrite makedirs_under_root by assumption.
    set (kc := key_of st b ++ [c]).
    assert (exists st1,
               match fs st !! kc with
               | Some Dir => (Ok tt, st)
               | Some (File _) => (Raise (OSError EEXIST (join b c)), st)
               | None => (Ok tt, log (Mkdir kc) (with_fs (<[kc := Dir]> (fs st)) st))
               end = (Ok tt, st1) /\
               extends st st1 /\ fs st1 !! kc = Some Dir /\
               (forall k, k <> kc -> fs st1 !! k = fs st !! k /\ mkdir_count k st1 = mkdir_count k st) /\
               mkdir_count kc st1 =
               (mkdir_count kc st + match fs st !! kc with None => 1 | Some _ => 0 end)%nat)
      as (st1 & -> & Hext1 & Hkc & Hother & Hcount).
    { destruct (fs st !! kc) as [[x|]|] eqn:E.
      - exfalso. apply (Hnf c x); [now left |]. now apply lookup_category.
      - exists st. split; [reflexivity |]. split; [apply extends_refl |].
        split; [exact E |]. split; [now intros k _ | lia].
      - eexists. split; [reflexivity |]. split.
        + unfold extends. cbn. repeat split. now apply insert_subseteq.
        + split; [cbn; apply lookup_insert_eq |]. split.
          * intros k Hk. split; [cbn; now apply lookup_insert_ne |].
            rewrite mkdir_count_log_ne by congruence. reflexivity.
          * rewrite mkdir_count_log_eq. unfold mkdir_count. cbn [trace with_fs]. lia. }
    assert (key_of st1 b = key_of st b) as Hkey.
    { unfold key_of. destruct Hext1 as (_ & _ & -> & _). reflexivity. }
    destruct (IH st1 b) as (st' & Hrun & Hext & Hdirs & Hout & Hin).
    + destruct Hext1 as (-> & _). exact Hb.
    + now apply (is_dir_weaken st).
    + exact Hnd.
    + intros c' Hc'. apply Hplain. now right.
    + intros c' x Hc' Hfile.
      assert (plain_name c' = true) as Hp' by (apply Hplain; now right).
      apply (lookup_category st1 b c' (File x) Hp') in Hfile. rewrite Hkey in Hfile.
      apply (Hnf c' x); [now right |]. apply (lookup_category st b c' (File x) Hp').
      destruct (Hother (key_of st b ++ [c'])) as [<- _]; [| exact Hfile].
      unfold kc. intros Heq. apply app_inj_tail in Heq as [_ ->]. contradiction.
    + exists st'. split; [exact Hrun |]. split; [eapply extends_trans; eassumption |].
      rewrite Hkey in *. split; [| split].
      * intros c' [<- | Hc']; [| now apply Hdirs].
        apply (is_dir_weaken st1); [exact Hext |].
        apply (lookup_category st1 b c Dir Hc). now rewrite Hkey.
      * intros k Hk.
        destruct (Hout k) as [-> ->]; [intros c' Hc'; apply Hk; now right |].
        apply Hother. apply Hk. now left.
      * intros c' [<- | Hc'].
        -- fold kc. destruct (Hout kc) as [_ ->]; [| exact Hcount].
           intros c' Hc' Heq. apply app_inj_tail in Heq as [_ ->]. contradiction.
        -- rewrite (Hin c' Hc').
           assert (key_of st b ++ [c'] <> kc) as Hne.
           { intros Heq. apply app_inj_tail in Heq as [_ ->]. contradiction. }
           now destruct (Hother _ Hne) as [-> ->].
Qed.

Lemma folders_NoDup : List.NoDup folders.
Proof.
  unfold folders.
  repeat (apply List.NoDup_cons; [cbn; intuition discriminate |]). apply List.NoDup_nil.
Qed.

End UnderRoot.

(** ** Renaming and moving *)

Section Move.
Import Py PosixPath.

Ltac break_match :=
  match goal with
  | |- context [match ?x with _ => _ end] => destruct x eqn:?
  end.

Lemma rename_raise_unchanged (src dst : string) (st st' : state) (e : exn) :
  Os.rename src dst st = (Raise e, st') -> st' = st.
Proof.
  unfold Os.rename, Os.check_parent.
  repeat break_match; intros H; try discriminate; now injection H.
Qed.

Lemma fallback_raises (src dst : string) (e : exn) (st : state) :
  exists e', Shutil.fallback src dst e st = (Raise e', st).
Proof.
  unfold Shutil.fallback. rewrite bind_unfold. unfold Os.path_isdir at 1.
  rewrite bind_unfold. unfold Shutil._destinsrc at 1.
  destruct (_ && _); eexists; reflexivity.
Qed.

Lemma move_raise_unchanged (src dst : string) (st st' : state) (e : exn) :
  Shutil.move src dst st = (Raise e, st') -> st' = st.
Proof.
  assert (forall real_dst, Shutil.rename_or_copy src dst real_dst st = (Raise e, st') -> st' = st)
    as Hrc.
  { intros real_dst. unfold Shutil.rename_or_copy.
    rewrite bind_unfold, catch_unfold.
    destruct (Os.rename src real_dst st) as [[[]|e'] st1] eqn:Er; [discriminate |].
    apply rename_raise_unchanged in Er. subst st1.
    destruct (is_OSError e'); [| now intros [= _ <-]].
    destruct (fallback_raises src dst e' st) as [e'' ->]. now intros [= _ <-]. }
  unfold Shutil.move. rewrite bind_unfold. unfold Os.path_isdir at 1.
  destruct (match stat (cwd st) (fs st) dst with inr Dir => true | _ => false end).
  - rewrite bind_unfold. unfold Shutil._samefile at 1.
    destruct (match stat (cwd st) (fs st) src with inr _ => _ | inl _ => false end).
    + rewrite bind_unfold.
      destruct (Os.rename src dst st) as [[[]|e'] st1] eqn:Er; [discriminate |].
      intros [= _ <-]. eapply rename_raise_unchanged; exact Er.
    + rewrite bind_unfold. unfold Os.path_exists at 1.
      destruct (match stat (cwd st) (fs st) _ with inr _ => true | inl _ => false end).
      * now intros [= _ <-].
      * apply Hrc.
  - apply Hrc.
Qed.

Lemma keeps_dirs_refl (st : state) : keeps_dirs st st.
Proof. unfold keeps_dirs. now repeat split. Qed.

Lemma keeps_dirs_trans (st1 st2 st3 : state) :
  keeps_dirs st1 st2 -> keeps_dirs st2 st3 -> keeps_dirs st1 st3.
Proof.
  intros (B1 & C1 & P1 & D1 & M1) (B2 & C2 & P2 & D2 & M2).
  unfold keeps_dirs. do 3 (split; [congruence |]). split.
  - intros k Hk. now apply D2, D1.
  - intros k. now rewrite M2, M1.
Qed.

Lemma keeps_dirs_log (e : effect) (st : state) :
  (forall k, e <> Mkdir k) -> keeps_dirs st (log e st).
Proof.
  intros Hne. unfold keeps_dirs. repeat split; try reflexivity; try tauto.
  intros k. now apply mkdir_count_log_ne.
Qed.

Lemma keeps_dirs_is_dir (st st' : state) (p : string) :
  keeps_dirs st st' -> is_dir st p -> is_dir st' p.
Proof.
  intros (_ & Hc & _ & Hd & _). rewrite !is_dir_inv. unfold key_of. rewrite Hc.
  intros (Ht & Hn). split; [exact Ht |].
  destruct (resolve (cwd st) p) as [|x k]; [reflexivity |]. cbn in *. now apply Hd.
Qed.

Lemma is_file_inv (st : state) (p c : string) :
  is_file st p c ->
  truthy p = true /\ fs st !! key_of st p = Some (File c) /\ key_of st p <> [] /\
  plain_name (basename p) = true.
Proof.
  unfold is_file, key_of. rewrite stat_inr. intros (Ht & Hn & Hd).
  assert (resolve (cwd st) p <> []) as Hk by (intros E; rewrite E in Hn; discriminate).
  repeat split; try assumption.
  - destruct (resolve (cwd st) p); [contradiction | exact Hn].
  - unfold plain_name. rewrite basename_no_sep. cbn [negb andb].
    fold (dir_only p). destruct (dir_only p); [now specialize (Hd eq_refl) | reflexivity].
Qed.

Lemma moved_state_keeps (st : state) (ks kd : list string) (c : string) :
  fs st !! ks = Some (File c) -> fs st !! kd <> Some Dir ->
  keeps_dirs st (moved_state st ks kd c).
Proof.
  intros Hs Hd. unfold moved_state.
  eapply keeps_dirs_trans; [| apply keeps_dirs_log; discriminate].
  destruct (decide (ks = kd)); [apply keeps_dirs_refl |].
  unfold keeps_dirs. cbn. repeat split.
  intros k Hk.
  rewrite lookup_insert_ne by congruence.
  rewrite lookup_delete_ne by congruence. exact Hk.
Qed.

(** A move of a regular file either fails and changes nothing, or renames
    that file; no directory is lost either way. *)
Lemma rename_file_keeps (src dst c : string) (st st' : state) (r : result unit) :
  is_file st src c -> Os.rename src dst st = (r, st') -> keeps_dirs st st'.
Proof.
  intros Hf. destruct (is_file_inv _ _ _ Hf) as (_ & Hks & Hne & _).
  unfold Os.rename. unfold is_file in Hf. rewrite Hf. fold (key_of st src) (key_of st dst).
  destruct (negb (truthy dst)); [intros [= _ <-]; apply keeps_dirs_refl |].
  destruct (node_at (fs st) (key_of st dst)) as [[x|]|] eqn:En.
  - destruct (dir_only dst); [intros [= _ <-]; apply keeps_dirs_refl |].
    assert (fs st !! key_of st dst <> Some Dir) as Hnd.
    { destruct (key_of st dst); cbn in En; [discriminate | congruence]. }
    pose proof (moved_state_keeps st _ _ c Hks Hnd) as Hk. unfold moved_state in Hk.
    destruct (decide (key_of st src = key_of st dst)); intros [= _ <-]; exact Hk.
  - intros [= _ <-]; apply keeps_dirs_refl.
  - destruct (dir_only dst); [intros [= _ <-]; apply keeps_dirs_refl |].
    destruct (Os.check_parent (fs st) (key_of st dst) dst); [intros [= _ <-]; apply keeps_dirs_refl |].
    assert (fs st !! key_of st dst <> Some Dir) as Hnd.
    { destruct (key_of st dst); cbn in En; [discriminate | congruence]. }
    pose proof (moved_state_keeps st _ _ c Hks Hnd) as Hk. unfold moved_state in Hk.
    destruct (decide (key_of st src = key_of st dst)) as [Heq|]; intros [= _ <-]; [| exact Hk].
    exfalso. rewrite Heq in Hks. destruct (key_of st dst); cbn in En; congruence.
Qed.

Lemma move_file_keeps (src dst c : string) (st st' : state) (r : result (option string)) :
  is_file st src c -> Shutil.move src dst st = (r, st') -> keeps_dirs st st'.
Proof.
  intros Hf.
  assert (forall (real_dst : string) (r' : result (option string)),
             Shutil.rename_or_copy src dst real_dst st = (r', st') -> keeps_dirs st st') as Hrc.
  { intros real_dst r'. unfold Shutil.rename_or_copy.
    rewrite bind_unfold, catch_unfold.
    destruct (Os.rename src real_dst st) as [[[]|e'] st1] eqn:Er.
    - intros [= _ <-]. eapply rename_file_keeps; eassumption.
    - pose proof (rename_file_keeps _ _ _ _ _ _ Hf Er) as Hk.
      destruct (is_OSError e'); [| now intros [= _ <-]].
      destruct (fallback_raises src dst e' st1) as [e'' ->]. now intros [= _ <-]. }
  unfold Shutil.move. rewrite bind_unfold. unfold Os.path_isdir at 1.
  destruct (match stat (cwd st) (fs st) dst with inr Dir => true | _ => false end).
  - rewrite bind_unfold. unfold Shutil._samefile at 1.
    destruct (match stat (cwd st) (fs st) src with inr _ => _ | inl _ => false end).
    + rewrite bind_unfold.
      destruct (Os.rename src dst st) as [[[]|e'] st1] eqn:Er;
        intros [= _ <-]; eapply rename_file_keeps; eassumption.
    + rewrite bind_unfold. unfold Os.path_exists at 1.
      destruct (match stat (cwd st) (fs st) _ with inr _ => true | inl _ => false end).
      * intros [= _ <-]. apply keeps_dirs_refl.
      * apply Hrc.
  - apply Hrc.
Qed.

(** Moving a regular file to a free or file-occupied name inside an
    existing directory. *)
Lemma move_into_dir (src d c : string) (st : state) :
  is_file st src c -> is_dir st d ->
  ~ is_dir st (join d (basename src)) ->
  Shutil.move src (join d (basename src)) st =
  (Ok (Some (join d (basename src))),
   moved_state st (key_of st src) (key_of st d ++ [basename src]) c).
Proof.
  intros Hf Hd Hnd.
  destruct (is_file_inv _ _ _ Hf) as (_ & Hks & Hne & HF).
  destruct (plain_name_inv _ HF) as (_ & _ & _ & Ht).
  set (F := basename src) in *. set (dst := join d F) in *.
  assert (stat (cwd st) (fs st) dst =
          match fs st !! (key_of st d ++ [F]) with
          | Some n => inr n
          | None => inl ENOENT
          end) as Hstat.
  { unfold dst. rewrite stat_join by assumption. fold (key_of st d).
    apply is_dir_inv in Hd as (_ & ->). reflexivity. }
  assert (fs st !! (key_of st d ++ [F]) <> Some Dir) as HnD.
  { intros E. apply Hnd. unfold is_dir. now rewrite Hstat, E. }
  unfold Shutil.move. rewrite bind_unfold. unfold Os.path_isdir at 1.
  assert (match stat (cwd st) (fs st) dst with inr Dir => true | _ => false end = false) as ->.
  { rewrite Hstat. now destruct (fs st !! (key_of st d ++ [F])) as [[?|]|]. }
  assert (resolve (cwd st) dst = key_of st d ++ [F]) as Hkd
    by (unfold dst; now rewrite resolve_join by assumption).
  assert (truthy dst = true) as Htd by (unfold dst; now apply truthy_join).
  assert (dir_only dst = false) as Hdo by (unfold dst; now apply dir_only_join).
  unfold Shutil.rename_or_copy. rewrite bind_unfold, catch_unfold.
  unfold Os.rename. unfold is_file in Hf. rewrite Hf.
  rewrite Htd, Hkd, Hdo, node_at_snoc. cbn [negb].
  fold (key_of st src). unfold moved_state.
  destruct (fs st !! (key_of st d ++ [F])) as [[x|]|] eqn:E.
  - now destruct (decide (key_of st src = key_of st d ++ [F])).
  - congruence.
  - unfold Os.check_parent. rewrite removelast_snoc.
    apply is_dir_inv in Hd as (_ & ->).
    destruct (decide (key_of st src = key_of st d ++ [F])) as [Heq|]; [| reflexivity].
    rewrite Heq in Hks. congruence.
Qed.

Lemma moved_state_dst (st : state) (src d c : string) :
  is_file st src c -> is_dir st d ->
  is_file (moved_state st (key_of st src) (key_of st d ++ [basename src]) c)
          (join d (basename src)) c.
Proof.
  intros Hf Hd. destruct (is_file_inv _ _ _ Hf) as (_ & Hks & _ & HF).
  unfold is_file. apply lookup_category; [exact HF |].
  unfold moved_state, key_of. cbn [cwd fs log].
  destruct (decide (_ = _)) as [Heq|]; cbn [cwd fs with_fs].
  - rewrite <- Heq. exact Hks.
  - apply lookup_insert_eq.
Qed.

Lemma moved_state_src (st : state) (src c : string) (kd : list string) :
  is_file st src c -> key_of st src <> kd ->
  absent (moved_state st (key_of st src) kd c) src.
Proof.
  intros Hf Hne. destruct (is_file_inv _ _ _ Hf) as (Ht & Hks & Hk0 & _).
  unfold absent, stat, moved_state. cbn [cwd fs log]. rewrite Ht. cbn [negb].
  destruct (decide (_ = _)); [contradiction |]. cbn [cwd fs with_fs].
  fold (key_of st src).
  assert (node_at (<[kd := File c]> (delete (key_of st src) (fs st))) (key_of st src) = None) as ->.
  { destruct (key_of st src) as [|x k] eqn:E; [contradiction |].
    cbn. rewrite lookup_insert_ne by congruence. apply lookup_delete_eq. }
  destruct (node_at _ _) as [[?|]|]; eauto.
Qed.

End Move.

(** ** The move step and whole calls *)

Section Organize.
Import Py PosixPath.

Lemma move_step_file (p d c : string) (st : state) :
  is_file st p c -> is_dir st d -> ~ is_dir st (join d (basename p)) ->
  move_step p d st =
  (Ok tt, log (Print ("Moved: " +:+ p +:+ " -> " +:+ d))
              (moved_state st (key_of st p) (key_of st d ++ [basename p]) c)).
Proof.
  intros Hf Hd Hn. unfold move_step. rewrite catch_unfold, bind_unfold.
  now rewrite (move_into_dir p d c st Hf Hd Hn).
Qed.

Lemma move_step_raise (p d : string) (st st2 : state) (e : exn) :
  Shutil.move p (join d (basename p)) st = (Raise e, st2) ->
  move_step p d st = (Ok tt, log (Print ("Error moving " +:+ p +:+ ": " +:+ exn_str e)) st).
Proof.
  intros Hm. pose proof (move_raise_unchanged _ _ _ _ _ Hm) as ->.
  unfold move_step. rewrite catch_unfold, bind_unfold, Hm. reflexivity.
Qed.

(** Whatever the move does to a regular file, the step returns normally
    and loses no directory. *)
Lemma move_step_keeps (p d c : string) (st : state) :
  is_file st p c ->
  exists st', move_step p d st = (Ok tt, st') /\ keeps_dirs st st'.
Proof.
  intros Hf. unfold move_step. rewrite catch_unfold, bind_unfold.
  destruct (Shutil.move p (join d (basename p)) st) as [[o|e] st1] eqn:Em;
    pose proof (move_file_keeps _ _ _ _ _ _ Hf Em) as Hk.
  - eexists. split; [reflexivity |].
    eapply keeps_dirs_trans; [exact Hk | apply keeps_dirs_log; discriminate].
  - eexists. split; [reflexivity |].
    eapply keeps_dirs_trans; [exact Hk | apply keeps_dirs_log; discriminate].
Qed.

Lemma key_of_target (st : state) (b p : string) :
  plain_name (basename p) = true ->
  key_of st (target b p) = key_of st b ++ [classify p; basename p].
Proof.
  intros HF. unfold key_of, target.
  rewrite resolve_join by assumption.
  rewrite resolve_join by (apply folders_plain, classify_in_folders).
  now rewrite <- app_assoc.
Qed.

(** A regular file, not excluded, handed to [organize_file] below an
    existing root: the call completes and the file is at its target. *)
Lemma organize_moves_file (st : state) (b p content : string) :
  base_folder st = Some b -> is_dir st b ->
  is_excluded p = false -> is_file st p content ->
  (forall c x, In c folders -> ~ is_file st (join b c) x) ->
  ~ is_dir st (target b p) ->
  exists st',
    organize_file p st = (Ok tt, st') /\
    last (trace st') = Some (Print ("Moved: " +:+ p +:+ " -> " +:+ join b (classify p))) /\
    is_file st' (target b p) content /\
    (key_of st p <> key_of st (target b p) -> absent st' p) /\
    (forall c, In c folders -> is_dir st' (join b c)).
Proof.
  intros Hb Hroot Hex Hf Hnf Hnd.
  destruct (is_file_inv _ _ _ Hf) as (_ & Hks & _ & HF).
  set (st0 := log (Print ("Organizing: " +:+ p)) st).
  destruct (create_loop_under_root folders st0 b Hb Hroot folders_NoDup folders_plain Hnf)
    as (st1 & Hrun & Hext & Hdirs & Hout & _).
  assert (cwd st1 = cwd st) as Hcwd by (now destruct Hext as (_ & _ & -> & _)).
  assert (forall x, key_of st1 x = key_of st x) as Hkey by (intros x; unfold key_of; now rewrite Hcwd).
  assert (is_file st1 p content) as Hf1 by (now apply (is_file_weaken st0)).
  assert (is_dir st1 (join b (classify p))) as Hd1 by (apply Hdirs, classify_in_folders).
  assert (~ is_dir st1 (target b p)) as Hnd1.
  { intros H. apply Hnd. unfold is_dir, target in *.
    apply lookup_category in H; [| exact HF]. apply lookup_category; [exact HF |].
    rewrite Hkey in H. destruct (Hout (key_of st (join b (classify p)) ++ [basename p])) as [E _].
    - intros c Hc. unfold key_of. rewrite resolve_join by (apply folders_plain, classify_in_folders).
      intros Heq. apply (f_equal (@length string)) in Heq. rewrite !length_app in Heq.
      cbn in Heq. lia.
    - rewrite E in H. exact H. }
  rewrite (organize_file_unfold p st Hex). fold st0.
  rewrite bind_unfold. unfold create_category_dirs. change (map fst FOLDERS) with folders.
  rewrite Hrun, bind_unfold.
  rewrite (destination_ok p st1 b) by (destruct Hext as (E & _); rewrite E; exact Hb).
  rewrite (move_step_file p _ content st1 Hf1 Hd1 Hnd1).
  eexists. split; [reflexivity |]. split; [cbn [trace log]; apply last_snoc |].
  split; [| split].
  - apply (moved_state_dst st1 p (join b (classify p)) content Hf1 Hd1).
  - intros Hne.
    apply (moved_state_src st1 p content (key_of st1 (join b (classify p)) ++ [basename p]) Hf1).
    rewrite !Hkey. intros Heq. apply Hne. rewrite Heq. unfold key_of, target.
    now rewrite (resolve_join _ _ (basename p)) by assumption.
  - intros c Hc.
    apply (keeps_dirs_is_dir st1); [| now apply Hdirs].
    eapply keeps_dirs_trans; [| apply keeps_dirs_log; discriminate].
    apply moved_state_keeps.
    + rewrite <- (proj1 (proj2 (is_file_inv _ _ _ Hf1))). reflexivity.
    + intros E. apply Hnd1. unfold is_dir, target. apply lookup_category; assumption.
Qed.

End Organize.

(** ** Claims about single calls of [organize_file] *)

Section OrganizeClaims.
Import Py PosixPath.

(** C3, as stated, fails in two ways.  A picture created directly inside
    [images] is "moved" onto itself, so the source path still names the file
    after a successful call; and when the target name is taken by a
    directory, [shutil.move] puts the file inside that directory, so the
    target path does not name the file. *)
Lemma organize_moves_file_counterexample :
  ~ (forall (st st' : state) (b p content : string),
       base_folder st = Some b -> is_dir st b ->
       is_excluded p = false -> is_file st p content ->
       organize_file p st = (Ok tt, st') ->
       last (trace st') = Some (Print ("Moved: " +:+ p +:+ " -> " +:+ join b (classify p))) ->
       absent st' p) /\
  ~ (forall (st st' : state) (b p content : string),
       base_folder st = Some b -> is_dir st b ->
       is_excluded p = false -> is_file st p content ->
       organize_file p st = (Ok tt, st') ->
       last (trace st') = Some (Print ("Moved: " +:+ p +:+ " -> " +:+ join b (classify p))) ->
       is_file st' (target b p) content).
Proof.
  split; intros H.
  - specialize (H st_sorted (snd (organize_file "/srv/inbox/images/cat.png" st_sorted))
                  "/srv/inbox" "/srv/inbox/images/cat.png" "PNG").
    destruct H as [e He]; try (vm_compute; reflexivity).
    vm_compute in He. discriminate.
  - specialize (H st_clash (snd (organize_file "/srv/inbox/photo.jpg" st_clash))
                  "/srv/inbox" "/srv/inbox/photo.jpg" "JFIF").
    assert (is_file (snd (organize_file "/srv/inbox/photo.jpg" st_clash))
                    (target "/srv/inbox" "/srv/inbox/photo.jpg") "JFIF") as Hf
      by (apply H; vm_compute; reflexivity).
    vm_compute in Hf. discriminate.
Qed.

(** C3 (amended): let the root [b] be an existing directory none of whose
    category names is taken by a regular file, and let [p] name a regular
    file that is not excluded, with base name [F] and category [C], such
    that [b/C/F] is not an existing directory.  Then [organize_file]
    returns normally and reports the move; afterwards [b/C/F] is that file,
    with the base name kept, all eight category directories exist, and,
    unless [p] already denoted [b/C/F], the source path names nothing. *)
Theorem organize_moves_regular_file (st : state) (b p content : string) :
  base_folder st = Some b -> is_dir st b ->
  is_excluded p = false -> is_file st p content ->
  (forall c x, In c folders -> ~ is_file st (join b c) x) ->
  ~ is_dir st (target b p) ->
  exists st',
    organize_file p st = (Ok tt, st') /\
    last (trace st') = Some (Print ("Moved: " +:+ p +:+ " -> " +:+ join b (classify p))) /\
    is_file st' (target b p) content /\
    basename (target b p) = basename p /\
    (key_of st p <> key_of st (target b p) -> absent st' p) /\
    (forall c, In c folders -> is_dir st' (join b c)).
Proof.
  intros Hb Hroot Hex Hf Hnf Hnd.
  destruct (organize_moves_file st b p content Hb Hroot Hex Hf Hnf Hnd)
    as (st' & H1 & H2 & H3 & H4 & H5).
  exists st'. repeat (split; [assumption |]). split; [| split; assumption].
  apply basename_join, basename_no_sep.
Qed.

(** The end-to-end case of C3: [photo.jpg] in a root without subfolders. *)
Lemma organize_moves_regular_file_witness :
  exists st',
    organize_file "photo.jpg" st_fresh = (Ok tt, st') /\
    is_file st' "/srv/inbox/images/photo.jpg" "JFIF" /\
    absent st' "photo.jpg" /\
    (forall c, In c folders -> is_dir st' (join "/srv/inbox" c)).
Proof.
  destruct (organize_moves_regular_file st_fresh "/srv/inbox" "photo.jpg" "JFIF")
    as (st' & H1 & _ & H3 & _ & H5 & H6).
  - reflexivity.
  - vm_compute. reflexivity.
  - reflexivity.
  - vm_compute. reflexivity.
  - intros c x Hc Hf. simpl in Hc.
    repeat (destruct Hc as [<- | Hc]; [vm_compute in Hf; discriminate |]). exact Hc.
  - intros Hd. vm_compute in Hd. discriminate.
  - exists st'. split; [exact H1 |]. split; [exact H3 |]. split; [| exact H6].
    apply H5. vm_compute. discriminate.
Defined.

(** C4: every call of [organize_file] takes one of three courses: it skips
    an excluded name; or the creation of the category directories raises and
    the call ends there, with no move attempted; or the creation completes
    in a state [st1] in which all eight category directories exist below the
    root, and the move step (lines 172-176) runs from that very state. *)
Theorem category_dirs_exist_before_move (p : string) (st : state) :
  (is_excluded p = true /\
   organize_file p st = (Ok tt, log (Print ("Skipping: " +:+ basename p)) st)) \/
  (is_excluded p = false /\
   exists e st1,
     create_category_dirs (log (Print ("Organizing: " +:+ p)) st) = (Raise e, st1) /\
     organize_file p st = (Raise e, st1)) \/
  (is_excluded p = false /\
   exists b st1,
     create_category_dirs (log (Print ("Organizing: " +:+ p)) st) = (Ok tt, st1) /\
     base_folder st = Some b /\
     (forall c, In c folders -> is_dir st1 (join b c)) /\
     organize_file p st = move_step p (join b (classify p)) st1).
Proof. apply organize_file_cases. Qed.

(** C6: for a path whose base name is on the exclusion list the call
    returns at once: it prints one line and leaves the file system, the
    settings and the counters as they were; no directory is created and
    nothing is renamed. *)
Theorem excluded_file_is_skipped (p : string) (st : state) :
  is_excluded p = true ->
  exists st',
    organize_file p st = (Ok tt, st') /\
    fs st' = fs st /\
    trace st' = trace st ++ [Print ("Skipping: " +:+ basename p)] /\
    base_folder st' = base_folder st /\
    progress_bars st' = progress_bars st.
Proof.
  intros Hex. eexists. split; [now apply organize_file_excluded |]. now repeat split.
Qed.

Lemma excluded_file_is_skipped_witness :
  exists st',
    organize_file "README.txt" st_fresh = (Ok tt, st') /\
    fs st' = fs st_fresh /\
    trace st' = trace st_fresh ++ [Print "Skipping: README.txt"].
Proof.
  destruct (excluded_file_is_skipped "README.txt" st_fresh) as (st' & H1 & H2 & H3 & _).
  - reflexivity.
  - exists st'. split; [exact H1 |]. split; [exact H2 | exact H3].
Defined.

(** C7: when the call has passed the creation of the directories and
    [shutil.move] raises [e], the handler of lines 175-176 catches it:
    [organize_file] returns normally, its last output is the line
    "Error moving ..." carrying [e], the file system is the one the
    creation left, and a regular file at the source path is still there. *)
Theorem move_error_is_reported (p b : string) (st st1 st2 : state) (e : exn) :
  is_excluded p = false ->
  base_folder st = Some b ->
  create_category_dirs (log (Print ("Organizing: " +:+ p)) st) = (Ok tt, st1) ->
  Shutil.move p (target b p) st1 = (Raise e, st2) ->
  exists st',
    organize_file p st = (Ok tt, st') /\
    last (trace st') = Some (Print ("Error moving " +:+ p +:+ ": " +:+ exn_str e)) /\
    fs st' = fs st1 /\
    (forall c, is_file st p c -> is_file st' p c).
Proof.
  intros Hex Hb Hcreate Hmove.
  pose proof (create_category_dirs_extends _ _ _ Hcreate) as Hext.
  rewrite (organize_file_unfold p st Hex), bind_unfold, Hcreate, bind_unfold.
  rewrite (destination_ok p st1 b) by (destruct Hext as (E & _); rewrite E; exact Hb).
  rewrite (move_step_raise p _ st1 st2 e Hmove).
  eexists. split; [reflexivity |]. split; [cbn [trace log]; apply last_snoc |].
  split; [reflexivity |].
  intros c Hf. apply (is_file_weaken (log (Print ("Organizing: " +:+ p)) st)); [| exact Hf].
  eapply extends_trans; [exact Hext | apply extends_log].
Qed.

Lemma move_error_is_reported_witness :
  exists st',
    organize_file "/srv/inbox/photo.jpg" st_sorted = (Ok tt, st') /\
    last (trace st') =
      Some (Print "Error moving /srv/inbox/photo.jpg: Destination path '/srv/inbox/images/photo.jpg/photo.jpg' already exists") /\
    is_file st' "/srv/inbox/photo.jpg" "JFIF".
Proof.
  pose (st0 := log (Print "Organizing: /srv/inbox/photo.jpg") st_sorted).
  destruct (move_error_is_reported "/srv/inbox/photo.jpg" "/srv/inbox" st_sorted
              (snd (create_category_dirs st0)) (snd (create_category_dirs st0))
              (ShutilError "Destination path '/srv/inbox/images/photo.jpg/photo.jpg' already exists"))
    as (st' & H1 & H2 & _ & H4).
  - reflexivity.
  - reflexivity.
  - vm_compute. reflexivity.
  - vm_compute. reflexivity.
  - exists st'. split; [exact H1 |]. split; [exact H2 |]. apply H4. vm_compute. reflexivity.
Defined.

End OrganizeClaims.

(** ** Sequences of calls *)

Section Sequences.
Import Py PosixPath.

Lemma is_dir_not_file (st : state) (p x : string) : is_dir st p -> ~ is_file st p x.
Proof. unfold is_dir, is_file. intros -> H. discriminate. Qed.

(** One call on a regular file, below an existing root none of whose
    category names is taken by a regular file. *)
Lemma organize_call_under_root (st : state) (b p content : string) :
  base_folder st = Some b -> is_dir st b ->
  (forall c x, In c folders -> ~ is_file st (join b c) x) ->
  is_file st p content ->
  exists st',
    organize_file p st = (Ok tt, st') /\
    base_folder st' = Some b /\ cwd st' = cwd st /\
    (forall q, is_dir st q -> is_dir st' q) /\
    (forall c x, In c folders -> ~ is_file st' (join b c) x) /\
    (forall c, In c folders ->
               mkdir_count (key_of st b ++ [c]) st' =
               (mkdir_count (key_of st b ++ [c]) st +
                if missing st b c && negb (is_excluded p) then 1 else 0)%nat /\
               missing st' b c = missing st b c && is_excluded p) /\
    (is_excluded p = false -> forall c, In c folders -> is_dir st' (join b c)).
Proof.
  intros Hb Hroot Hnf Hf. destruct (is_excluded p) eqn:Hex.
  - exists (log (Print ("Skipping: " +:+ basename p)) st).
    split; [now apply organize_file_excluded |].
    split; [exact Hb |]. split; [reflexivity |]. split; [now intros q Hq |].
    split; [exact Hnf |]. split; [| discriminate].
    intros c Hc. rewrite !andb_false_r, andb_true_r.
    rewrite mkdir_count_log_ne by discriminate. split; [lia | reflexivity].
  - set (st0 := log (Print ("Organizing: " +:+ p)) st).
    destruct (create_loop_under_root folders st0 b Hb Hroot folders_NoDup folders_plain Hnf)
      as (st1 & Hrun & Hext & Hdirs & _ & Hin).
    assert (is_file st1 p content) as Hf1 by (now apply (is_file_weaken st0)).
    destruct (move_step_keeps p (join b (classify p)) content st1 Hf1) as (st' & Hmove & Hk).
    assert (base_folder st1 = Some b) as Hb1 by (destruct Hext as (E & _); rewrite E; exact Hb).
    assert (cwd st1 = cwd st) as Hc1 by (now destruct Hext as (_ & _ & -> & _)).
    destruct Hk as (Hkb & Hkc & Hkp & Hkd & Hkm).
    assert (keeps_dirs st1 st') as Hk by (unfold keeps_dirs; now repeat split).
    assert (forall c, In c folders -> is_dir st' (join b c)) as Hdirs'.
    { intros c Hc. apply (keeps_dirs_is_dir st1); [exact Hk | now apply Hdirs]. }
    exists st'. split.
    { rewrite (organize_file_unfold p st Hex). fold st0.
      rewrite bind_unfold. unfold create_category_dirs. change (map fst FOLDERS) with folders.
      rewrite Hrun, bind_unfold, (destination_ok p st1 b Hb1). exact Hmove. }
    split; [congruence |]. split; [congruence |].
    split.
    { intros q Hq. apply (keeps_dirs_is_dir st1); [exact Hk |].
      apply (is_dir_weaken st0); [exact Hext | exact Hq]. }
    split; [intros c x Hc; apply is_dir_not_file; now apply Hdirs' |].
    split; [| intros _; exact Hdirs'].
    intros c Hc. rewrite andb_true_r, andb_false_r. split.
    + rewrite Hkm. change (key_of st b) with (key_of st0 b). rewrite (Hin c Hc).
      unfold st0 at 2. rewrite mkdir_count_log_ne by discriminate.
      unfold missing. change (key_of st0 b) with (key_of st b). change (fs st0) with (fs st).
      now destruct (fs st !! (key_of st b ++ [c])).
    + specialize (Hdirs' c Hc). unfold is_dir in Hdirs'.
      apply lookup_category in Hdirs'; [| now apply folders_plain].
      unfold missing. now rewrite Hdirs'.
Qed.

(** Any number of calls on regular files. *)
Lemma organize_all_under_root (ps : list string) :
  forall (st : state) (b : string),
    base_folder st = Some b -> is_dir st b ->
    (forall c x, In c folders -> ~ is_file st (join b c) x) ->
    sources_are_files ps st ->
    Forall (fun r => r = Ok tt) (fst (organize_all ps st)) /\
    (forall q, is_dir st q -> is_dir (snd (organize_all ps st)) q) /\
    (forall c, In c folders ->
               mkdir_count (key_of st b ++ [c]) (snd (organize_all ps st)) =
               (mkdir_count (key_of st b ++ [c]) st +
                if missing st b c && existsb (fun p => negb (is_excluded p)) ps
                then 1 else 0)%nat /\
               (existsb (fun p => negb (is_excluded p)) ps = true ->
                is_dir (snd (organize_all ps st)) (join b c))).
Proof.
  induction ps as [|p ps IH]; intros st b Hb Hroot Hnf Hsrc.
  - cbn. split; [constructor |]. split; [now intros q Hq |].
    intros c Hc. rewrite andb_false_r. split; [lia | discriminate].
  - cbn [sources_are_files] in Hsrc. destruct Hsrc as [[content Hf] Hrest].
    destruct (organize_call_under_root st b p content Hb Hroot Hnf Hf)
      as (st1 & Hcall & Hb1 & Hc1 & Hkeep & Hnf1 & Hcount & Hall).
    rewrite Hcall in Hrest. cbn [snd] in Hrest.
    destruct (IH st1 b Hb1 (Hkeep b Hroot) Hnf1 Hrest) as (Hok & Hkeep' & Hcount').
    cbn [organize_all]. rewrite Hcall.
    destruct (organize_all ps st1) as [rs st'] eqn:Eall. cbn [fst snd] in *.
    assert (key_of st1 b = key_of st b) as Hkey by (unfold key_of; now rewrite Hc1).
    split; [now constructor |]. split; [intros q Hq; now apply Hkeep', Hkeep |].
    intros c Hc. destruct (Hcount c Hc) as [Hn Hm]. destruct (Hcount' c Hc) as [Hn' Hd'].
    rewrite Hkey in Hn'. rewrite Hn', Hn, Hm. cbn [existsb]. split.
    + destruct (missing st b c), (is_excluded p), (existsb _ ps); cbn; lia.
    + destruct (is_excluded p) eqn:Hex; cbn [negb orb].
      * exact Hd'.
      * intros _. apply Hkeep'. now apply Hall.
Qed.

End Sequences.

(** ** Claims about the creation of the directories and the exclusion list *)

Section CreationAndExclusion.
Import Py PosixPath.

(** C5, as stated, fails: a call for an excluded name returns before the
    creation step, so one call to [organize_file "README.txt"] on a root
    without subfolders creates no category directory at all; and on a root
    that already has [images], no call creates it. *)
Lemma category_dirs_created_once_counterexample :
  ~ (forall (st : state) (b : string) (ps : list string),
       base_folder st = Some b -> is_dir st b -> ps <> [] ->
       sources_are_files ps st ->
       forall c, In c folders ->
                 mkdir_count (key_of st b ++ [c]) (snd (organize_all ps st)) =
                 S (mkdir_count (key_of st b ++ [c]) st)) /\
  mkdir_count ["srv"; "inbox"; "images"]
              (snd (organize_all ["/srv/inbox/images/cat.png"] st_sorted)) = O.
Proof.
  split; [| vm_compute; reflexivity].
  intros H.
  specialize (H st_fresh "/srv/inbox" ["README.txt"]).
  assert (mkdir_count (key_of st_fresh "/srv/inbox" ++ ["images"])
                      (snd (organize_all ["README.txt"] st_fresh)) =
          S (mkdir_count (key_of st_fresh "/srv/inbox" ++ ["images"]) st_fresh)) as Habs.
  { apply H.
    - reflexivity.
    - vm_compute. reflexivity.
    - discriminate.
    - cbn [sources_are_files]. split; [| exact I]. exists "notes". vm_compute. reflexivity.
    - simpl. left. reflexivity. }
  vm_compute in Habs. discriminate.
Qed.

(** C5 (amended): below an existing root none of whose category names is
    taken by a regular file, any sequence of calls of [organize_file] on
    regular files returns normally each time and creates every category
    directory at most once in total: exactly once when it was missing
    before the first call and at least one call is for a name that is not
    excluded, and not at all otherwise.  Running the creation step again
    when the eight directories exist changes nothing and raises nothing. *)
Theorem category_dirs_created_once (st : state) (b : string) (ps : list string) :
  base_folder st = Some b -> is_dir st b ->
  (forall c x, In c folders -> ~ is_file st (join b c) x) ->
  sources_are_files ps st ->
  Forall (fun r => r = Ok tt) (fst (organize_all ps st)) /\
  (forall c, In c folders ->
             mkdir_count (key_of st b ++ [c]) (snd (organize_all ps st)) =
             (mkdir_count (key_of st b ++ [c]) st +
              if missing st b c && existsb (fun p => negb (is_excluded p)) ps
              then 1 else 0)%nat) /\
  (forall st2, base_folder st2 = Some b -> is_dir st2 b ->
               (forall c, In c folders -> is_dir st2 (join b c)) ->
               create_category_dirs st2 = (Ok tt, st2)).
Proof.
  intros Hb Hroot Hnf Hsrc.
  destruct (organize_all_under_root ps st b Hb Hroot Hnf Hsrc) as (Hok & _ & Hcount).
  split; [exact Hok |]. split.
  - intros c Hc. now destruct (Hcount c Hc).
  - intros st2 Hb2 Hroot2 Hdirs. unfold create_category_dirs.
    change (map fst FOLDERS) with folders.
    apply (create_loop_noop folders st2 b Hb2 Hroot2).
    intros c Hc. split; [now apply folders_plain | now apply Hdirs].
Qed.

Lemma category_dirs_created_once_witness :
  Forall (fun r => r = Ok tt)
         (fst (organize_all ["photo.jpg"; "README.txt"; "readme.txt"] st_fresh)) /\
  mkdir_count (key_of st_fresh "/srv/inbox" ++ ["images"])
              (snd (organize_all ["photo.jpg"; "README.txt"; "readme.txt"] st_fresh)) =
  (mkdir_count (key_of st_fresh "/srv/inbox" ++ ["images"]) st_fresh + 1)%nat.
Proof.
  destruct (category_dirs_created_once st_fresh "/srv/inbox"
              ["photo.jpg"; "README.txt"; "readme.txt"]) as (H1 & H2 & _).
  - reflexivity.
  - vm_compute. reflexivity.
  - intros c x Hc Hf. simpl in Hc.
    repeat (destruct Hc as [<- | Hc]; [vm_compute in Hf; discriminate |]). exact Hc.
  - cbn [sources_are_files].
    split; [exists "JFIF"; vm_compute; reflexivity |].
    split; [exists "notes"; vm_compute; reflexivity |].
    split; [exists "lower-case notes"; vm_compute; reflexivity | exact I].
  - split; [exact H1 |]. apply (H2 "images"). simpl. left. reflexivity.
Defined.

Lemma all_char_app (c : ascii) (a b : string) :
  all_char c (a +:+ b) = all_char c a && all_char c b.
Proof. induction a as [|x a IH]; simpl; [reflexivity | now rewrite IH, andb_assoc]. Qed.

Lemma is_excluded_iff (p : string) :
  is_excluded p = true <-> basename p = "README.txt" \/ basename p = "dashboard.png".
Proof.
  unfold is_excluded. rewrite str_in_In. simpl. intuition congruence.
Qed.

(** A name that differs from an excluded one in letter case only is filed
    like the excluded name would be. *)
Lemma case_variant_classified (p x : string) :
  In x excluded_files -> lower (basename p) = lower x -> classify p = classify x.
Proof.
  intros Hx Hl.
  assert (exists stem E C exts,
             lower x = stem +:+ E /\ In (C, exts) FOLDERS /\ In E exts /\
             has_char sep stem = false /\ all_char extsep stem = false /\
             classify x = C) as (stem & E & C & exts & Hsplit & HC & HE & Hs & Hd & Hcx).
  { simpl in Hx. destruct Hx as [<- | [<- | []]].
    - exists "readme", ".txt", "documents", [".pdf"; ".docx"; ".txt"; ".pptx"].
      repeat split; simpl; auto.
    - exists "dashboard", ".png", "images", [".png"; ".jpg"; ".jpeg"; ".gif"; ".bmp"; ".tiff"].
      repeat split; simpl; auto. }
  rewrite Hsplit in Hl. destruct (lower_app_inv _ _ _ Hl) as (s1 & s2 & Hb & H1 & H2).
  rewrite Hcx. rewrite (basename_decompose p), Hb, <- app_assoc_str.
  apply (classify_case_variant _ s2 C E exts HC HE H2).
  rewrite basename_app by (rewrite <- has_char_lower_sep, H1; exact Hs).
  rewrite all_char_app, <- (all_char_lower_extsep s1), H1, Hd. apply andb_false_r.
Qed.

(** C10: the exclusion test compares the base name of the path with the
    two listed names, exactly.  An excluded name is skipped below any
    directory prefix.  A name that differs from a listed one in letter case
    only is not excluded: it is filed like any other file of its extension
    and, under the conditions of C3, moved to its category directory. *)
Theorem exclusion_is_exact (st : state) (b p content x : string) :
  (is_excluded p = true <-> basename p = "README.txt" \/ basename p = "dashboard.png") /\
  (In x excluded_files ->
   forall d, organize_file (d +:+ String sep x) st =
             (Ok tt, log (Print ("Skipping: " +:+ x)) st)) /\
  (In x excluded_files -> lower (basename p) = lower x -> basename p <> x ->
   is_excluded p = false /\ classify p = classify x /\
   (base_folder st = Some b -> is_dir st b -> is_file st p content ->
    (forall c y, In c folders -> ~ is_file st (join b c) y) ->
    ~ is_dir st (target b p) ->
    exists st',
      organize_file p st = (Ok tt, st') /\
      is_file st' (target b p) content /\
      (key_of st p <> key_of st (target b p) -> absent st' p))).
Proof.
  split; [apply is_excluded_iff |]. split.
  - intros Hx d.
    assert (basename (d +:+ String sep x) = x) as Hbn.
    { apply basename_under. simpl in Hx. now destruct Hx as [<- | [<- | []]]. }
    rewrite organize_file_excluded, Hbn; [reflexivity |].
    unfold is_excluded. rewrite Hbn. now apply str_in_In.
  - intros Hx Hl Hne.
    assert (is_excluded p = false) as Hex.
    { destruct (is_excluded p) eqn:E; [| reflexivity]. exfalso.
      apply is_excluded_iff in E. simpl in Hx.
      destruct E as [E | E], Hx as [<- | [<- | []]]; rewrite E in *;
        try contradiction; discriminate. }
    split; [exact Hex |]. split; [now apply case_variant_classified |].
    intros Hb Hroot Hf Hnf Hnd.
    destruct (organize_moves_file st b p content Hb Hroot Hex Hf Hnf Hnd)
      as (st' & H1 & _ & H3 & H4 & _).
    exists st'. now repeat split.
Qed.

Lemma exclusion_is_exact_witness :
  is_excluded "/srv/inbox/readme.txt" = false /\
  classify "/srv/inbox/readme.txt" = "documents" /\
  (exists st',
      organize_file "/srv/inbox/readme.txt" st_fresh = (Ok tt, st') /\
      is_file st' "/srv/inbox/documents/readme.txt" "lower-case notes" /\
      absent st' "/srv/inbox/readme.txt") /\
  organize_file ("/srv/inbox/deep/er" +:+ String sep "README.txt") st_fresh =
  (Ok tt, log (Print "Skipping: README.txt") st_fresh).
Proof.
  destruct (exclusion_is_exact st_fresh "/srv/inbox" "/srv/inbox/readme.txt"
              "lower-case notes" "README.txt") as (_ & Hskip & Hvar).
  destruct Hvar as (H1 & H2 & H3).
  - simpl. left. reflexivity.
  - reflexivity.
  - discriminate.
  - split; [exact H1 |]. split; [exact H2 |]. split.
    + destruct H3 as (st' & Ha & Hb & Hc).
      * reflexivity.
      * vm_compute. reflexivity.
      * vm_compute. reflexivity.
      * intros c y Hc Hf. simpl in Hc.
        repeat (destruct Hc as [<- | Hc]; [vm_compute in Hf; discriminate |]). exact Hc.
      * intros Hd. vm_compute in Hd. discriminate.
      * exists st'. split; [exact Ha |]. split; [exact Hb |].
        apply Hc. vm_compute. discriminate.
    + apply Hskip. simpl. left. reflexivity.
Defined.

End CreationAndExclusion.

(** ** The count refresh *)

Section Counts.
Import Py PosixPath.

Lemma child_name_spec (k k' : list string) (x : string) :
  child_name k k' = Some x <-> k' = k ++ [x].
Proof.
  unfold child_name. split.
  - destruct (decide (take (length k) k' = k)) as [E|]; [| discriminate].
    destruct (drop (length k) k') as [|y [|z l]] eqn:Ed; try discriminate.
    intros [= <-]. rewrite <- (take_drop (length k) k'), E, Ed. reflexivity.
  - intros ->. rewrite take_app_length, drop_app_length.
    destruct (decide (k = k)); [reflexivity | contradiction].
Qed.

Lemma NoDup_omap_inj {A B : Type} (f : A -> option B) (l : list A) :
  (forall x y z, x ∈ l -> y ∈ l -> f x = Some z -> f y = Some z -> x = y) ->
  NoDup l -> NoDup (omap f l).
Proof.
  induction l as [|a l IH]; intros Hinj Hnd; [constructor |].
  apply NoDup_cons in Hnd as [Ha Hnd].
  assert (NoDup (omap f l)) as Hl.
  { apply IH; [| exact Hnd]. intros x y z Hx Hy. apply Hinj; now right. }
  simpl. destruct (f a) as [b|] eqn:Ea; [| exact Hl].
  apply NoDup_cons. split; [| exact Hl].
  intros Hb. apply list_elem_of_omap in Hb as (y & Hy & Ey).
  apply Ha. rewrite (Hinj a y b); [exact Hy | now left | now right | exact Ea | exact Ey].
Qed.

(** [os.listdir] answers with the names of the immediate entries, each
    once: entries further down are not among them. *)
Lemma children_spec (m : gmap (list string) node) (k : list string) :
  NoDup (children m k) /\
  forall x, x ∈ children m k <-> is_Some (m !! (k ++ [x])).
Proof.
  unfold children. split.
  - apply NoDup_omap_inj; [| apply NoDup_map_to_list].
    intros [k1 n1] [k2 n2] z H1 H2 E1 E2. cbn [fst] in *.
    apply child_name_spec in E1, E2. subst k1 k2.
    apply elem_of_map_to_list in H1, H2. congruence.
  - intros x. rewrite list_elem_of_omap. split.
    + intros ([k' n] & Hin & E). cbn [fst] in E. apply child_name_spec in E. subst k'.
      apply elem_of_map_to_list in Hin. now exists n.
    + intros [n Hn]. exists (k ++ [x], n). split.
      * now apply elem_of_map_to_list.
      * now apply child_name_spec.
Qed.

Lemma with_bars_id (st : state) : with_bars (progress_bars st) st = st.
Proof. now destruct st. Qed.

Lemma length_refresh_bar (st : state) (b : string)
      (bars : list CircularProgressBar) (ic : nat * string) :
  length (refresh_bar st b bars ic) = length bars.
Proof.
  unfold refresh_bar.
  destruct (fs st !! _) as [[?|]|]; try reflexivity.
  destruct (bars !! fst ic); [apply length_insert | reflexivity].
Qed.

(** One round of the loop of lines 182-186. *)
Lemma count_body_step (st : state) (b : string)
      (bars : list CircularProgressBar) (i : nat) (c : string) :
  base_folder st = Some b -> plain_name c = true ->
  (forall x, ~ is_file st (join b c) x) -> (i < length bars)%nat ->
  count_body (i, c) (with_bars bars st) =
  (Ok tt, with_bars (refresh_bar st b bars (i, c)) st).
Proof.
  intros Hb Hc Hnf Hi. unfold count_body, refresh_bar. cbn [fst snd].
  rewrite bind_unfold, (join_base_ok c (with_bars bars st) b Hb).
  rewrite bind_unfold. unfold Os.path_exists at 1. cbn [cwd fs with_bars].
  rewrite stat_join by assumption. fold (key_of st b).
  destruct (fs st !! (key_of st b ++ [c])) as [[x|]|] eqn:E.
  - exfalso. apply (Hnf x). unfold is_file. now apply lookup_category.
  - rewrite bind_unfold. unfold Os.listdir. cbn [cwd fs with_bars].
    rewrite stat_join by assumption. fold (key_of st b). rewrite E.
    rewrite resolve_join by assumption. fold (key_of st b).
    unfold set_total_items. cbn [progress_bars with_bars].
    destruct (lookup_lt_is_Some_2 bars i Hi) as [bar ->]. reflexivity.
  - now destruct (node_at (fs st) (key_of st b)) as [[?|]|].
Qed.

Lemma count_loop (st : state) (b : string) (l : list (nat * string)) :
  base_folder st = Some b ->
  (forall c x, In c folders -> ~ is_file st (join b c) x) ->
  forall bars,
    (forall i c, In (i, c) l -> (i < length bars)%nat /\ In c folders) ->
    for_each l count_body (with_bars bars st) =
    (Ok tt, with_bars (fold_left (refresh_bar st b) l bars) st).
Proof.
  intros Hb Hnf. induction l as [|[i c] l IH]; intros bars Hl; [reflexivity |].
  destruct (Hl i c (or_introl eq_refl)) as [Hi Hc].
  cbn [for_each fold_left]. rewrite bind_unfold.
  rewrite (count_body_step st b bars i c Hb (folders_plain c Hc) (fun x => Hnf c x Hc) Hi).
  apply IH. intros j d Hjd. rewrite length_refresh_bar. apply Hl. now right.
Qed.

Lemma refresh_bar_lookup_ne (st : state) (b : string)
      (bars : list CircularProgressBar) (i j : nat) (c : string) :
  i <> j -> refresh_bar st b bars (j, c) !! i = bars !! i.
Proof.
  intros Hne. unfold refresh_bar. cbn [fst snd].
  destruct (fs st !! _) as [[?|]|]; try reflexivity.
  destruct (bars !! j); [| reflexivity]. apply list_lookup_insert_ne. congruence.
Qed.

Lemma refresh_bar_lookup_eq (st : state) (b : string)
      (bars : list CircularProgressBar) (i : nat) (c : string) :
  refresh_bar st b bars (i, c) !! i =
  match fs st !! (key_of st b ++ [c]), bars !! i with
  | Some Dir, Some bar =>
      Some (mkBar (folder_name bar)
                  (Z.of_nat (length (children (fs st) (key_of st b ++ [c])))))
  | _, o => o
  end.
Proof.
  unfold refresh_bar. cbn [fst snd].
  destruct (fs st !! _) as [[?|]|]; try reflexivity.
  destruct (bars !! i) eqn:E; [| exact E].
  apply list_lookup_insert_eq. now apply lookup_lt_Some in E.
Qed.

Lemma fold_refresh_lookup_notin (st : state) (b : string) (l : list (nat * string)) (i : nat) :
  forall bars, ~ In i (map fst l) ->
               fold_left (refresh_bar st b) l bars !! i = bars !! i.
Proof.
  induction l as [|[j c] l IH]; intros bars Hi; [reflexivity |].
  cbn [fold_left]. rewrite IH by (intros H; apply Hi; now right).
  apply refresh_bar_lookup_ne. intros ->. apply Hi. now left.
Qed.

Lemma fold_refresh_lookup_in (st : state) (b : string) (l : list (nat * string))
      (i : nat) (c : string) :
  List.NoDup (map fst l) -> In (i, c) l ->
  forall bars, fold_left (refresh_bar st b) l bars !! i = refresh_bar st b bars (i, c) !! i.
Proof.
  induction l as [|[j d] l IH]; intros Hnd Hin bars; [contradiction |].
  cbn [map fst] in Hnd. apply List.NoDup_cons_iff in Hnd as [Hj Hnd].
  cbn [fold_left]. destruct Hin as [[= -> ->] | Hin].
  - now apply fold_refresh_lookup_notin.
  - assert (i <> j) as Hne.
    { intros ->. apply Hj. change j with (fst (j, c)). now apply in_map. }
    rewrite (IH Hnd Hin). rewrite !refresh_bar_lookup_eq.
    now rewrite refresh_bar_lookup_ne.
Qed.

Lemma enumerate_folders (i : nat) (c : string) :
  folders !! i = Some c -> In (i, c) (enumerate folders) /\ In c folders /\ (i < 8)%nat.
Proof.
  intros H.
  do 8 (destruct i as [|i]; [injection H as <-; cbn; intuition lia |]).
  discriminate.
Qed.

Lemma update_folder_counts_unset (st : state) :
  is_set (base_folder st) = false -> update_folder_counts st = (Ok tt, st).
Proof.
  intros H. unfold update_folder_counts. rewrite bind_unfold. unfold get_base_folder.
  now rewrite H.
Qed.

(** The refresh below a configured root: each counter whose directory
    exists shows the number of its immediate entries; the others are left
    alone; nothing else in the state changes. *)
Lemma update_folder_counts_set (st : state) (b : string) :
  base_folder st = Some b -> truthy b = true ->
  length (progress_bars st) = length folders ->
  (forall c x, In c folders -> ~ is_file st (join b c) x) ->
  update_folder_counts st =
  (Ok tt, with_bars (fold_left (refresh_bar st b) (enumerate folders) (progress_bars st)) st).
Proof.
  intros Hb Ht Hlen Hnf. unfold update_folder_counts.
  rewrite bind_unfold. unfold get_base_folder. rewrite Hb. cbn [is_set]. rewrite Ht.
  cbn [negb]. rewrite <- (with_bars_id st) at 1.
  apply (count_loop st b (enumerate folders) Hb Hnf).
  intros i c Hic. rewrite Hlen. cbn in Hic.
  repeat (destruct Hic as [[= <- <-] | Hic]; [cbn; intuition lia |]). contradiction.
Qed.

(** C9, as stated, fails: when the directory is missing the refresh leaves
    the counter as it is, which is zero only if it has never been set.
    After the user has selected [/srv/inbox] (three entries in [images]) and
    then [/srv/empty], the counter of [images] keeps showing 3 although
    [/srv/empty/images] does not exist. *)
Lemma count_refresh_counterexample :
  ~ (forall (st st' : state) (b : string) (i : nat) (c : string),
       base_folder st = Some b -> folders !! i = Some c ->
       absent st (join b c) ->
       update_folder_counts st = (Ok tt, st') ->
       total_items <$> (progress_bars st' !! i) = Some 0).
Proof.
  intros H.
  specialize (H st_reselected (snd (update_folder_counts st_reselected))
                "/srv/empty" O "images").
  assert (total_items <$> (progress_bars (snd (update_folder_counts st_reselected)) !! O)
          = Some 0) as Habs.
  { apply H.
    - vm_compute. reflexivity.
    - reflexivity.
    - exists ENOENT. vm_compute. reflexivity.
    - vm_compute. reflexivity. }
  vm_compute in Habs. discriminate.
Qed.

(** C9 (amended): below a configured root none of whose category names is
    taken by a regular file, the refresh returns normally and changes only
    the counters: the file system, the settings and the trace stay as they
    were.  For each category whose directory exists, the counter becomes
    the number of its immediate entries (the names [x] for which
    [root/category/x] exists, each counted once, deeper entries not at
    all); for a category whose directory does not exist the counter keeps
    its previous value, which is 0 as long as it has never been set. *)
Theorem count_refresh (st : state) (b : string) :
  base_folder st = Some b -> truthy b = true ->
  length (progress_bars st) = length folders ->
  (forall c x, In c folders -> ~ is_file st (join b c) x) ->
  exists bars,
    update_folder_counts st = (Ok tt, with_bars bars st) /\
    forall i c, folders !! i = Some c ->
      (is_dir st (join b c) ->
       exists names,
         total_items <$> (bars !! i) = Some (Z.of_nat (length names)) /\
         NoDup names /\
         forall x, x ∈ names <-> is_Some (fs st !! (key_of st (join b c) ++ [x]))) /\
      (~ is_dir st (join b c) -> bars !! i = progress_bars st !! i).
Proof.
  intros Hb Ht Hlen Hnf.
  exists (fold_left (refresh_bar st b) (enumerate folders) (progress_bars st)).
  split; [apply update_folder_counts_set; assumption |].
  intros i c Hic. destruct (enumerate_folders i c Hic) as (Hin & Hc & Hi).
  assert (List.NoDup (map fst (enumerate folders))) as Hnd.
  { cbn. repeat (apply List.NoDup_cons; [cbn; intuition lia |]). apply List.NoDup_nil. }
  rewrite (fold_refresh_lookup_in st b _ i c Hnd Hin), refresh_bar_lookup_eq.
  pose proof (folders_plain c Hc) as Hp.
  assert (key_of st (join b c) = key_of st b ++ [c]) as Hk
    by (unfold key_of; now rewrite resolve_join).
  split.
  - intros Hd. unfold is_dir in Hd. apply lookup_category in Hd; [| exact Hp].
    rewrite Hd. destruct (lookup_lt_is_Some_2 (progress_bars st) i) as [bar ->];
      [rewrite Hlen; exact Hi |].
    exists (children (fs st) (key_of st b ++ [c])). split; [reflexivity |].
    rewrite Hk. apply children_spec.
  - intros Hnd'. destruct (fs st !! (key_of st b ++ [c])) as [[x|]|] eqn:E; try reflexivity.
    exfalso. apply Hnd'. unfold is_dir. now apply lookup_category.
Qed.

Lemma count_refresh_witness :
  exists bars,
    update_folder_counts st_two = (Ok tt, with_bars bars st_two) /\
    (exists names,
        total_items <$> (bars !! O) = Some (Z.of_nat (length names)) /\
        NoDup names /\
        forall x, x ∈ names <->
                  is_Some (fs st_two !! (key_of st_two (join "/srv/inbox" "images") ++ [x]))) /\
    bars !! 1%nat = progress_bars st_two !! 1%nat.
Proof.
  destruct (count_refresh st_two "/srv/inbox") as (bars & H1 & H2).
  - reflexivity.
  - reflexivity.
  - reflexivity.
  - intros c x Hc Hf. simpl in Hc.
    repeat (destruct Hc as [<- | Hc]; [vm_compute in Hf; discriminate |]). exact Hc.
  - exists bars. split; [exact H1 |]. split.
    + apply (H2 O "images"); [reflexivity |]. vm_compute. reflexivity.
    + apply (H2 1%nat "videos"); [reflexivity |]. intros Hd. vm_compute in Hd. discriminate.
Defined.

(** C8, as stated, fails: [organize_file] has no guard for a missing root,
    so an event for a file that is not excluded raises [TypeError] in
    [os.path.join]; and the count refresh returns without any warning. *)
Lemma no_root_counterexample :
  ~ (forall (st : state) (p : string),
       base_folder st = None ->
       exists st', on_created (mkEvent p false) st = (Ok tt, st')) /\
  ~ (forall (st : state),
       base_folder st = None ->
       exists st' title text,
         update_folder_counts st = (Ok tt, st') /\
         In (MessageBox Warning title text) (trace st')).
Proof.
  split; intros H.
  - destruct (H st_unset "/srv/inbox/photo.jpg" eq_refl) as [st' Hst'].
    vm_compute in Hst'. discriminate.
  - destruct (H st_unset eq_refl) as (st' & title & text & Hrun & Hin).
    rewrite update_folder_counts_unset in Hrun by reflexivity.
    injection Hrun as <-. exact Hin.
Qed.

(** C8 (amended): while no root is configured, the count refresh a timer
    tick triggers returns at once, silently: the state is left as it is, no
    warning is issued and nothing is raised.  The warning for a missing
    root comes from [start_watching], which then starts neither the
    observer nor the timer. *)
Theorem no_root_refresh_is_silent (st : state) :
  is_set (base_folder st) = false ->
  update_folder_counts st = (Ok tt, st) /\
  start_watching st =
  (Ok tt, log (MessageBox Warning "No Folder" "Please select a folder first.") st).
Proof.
  intros H. split; [now apply update_folder_counts_unset |].
  unfold start_watching. rewrite bind_unfold. unfold get_base_folder. now rewrite H.
Qed.

Lemma no_root_refresh_is_silent_witness :
  update_folder_counts st_unset = (Ok tt, st_unset) /\
  start_watching st_unset =
  (Ok tt, log (MessageBox Warning "No Folder" "Please select a folder first.") st_unset).
Proof. apply (no_root_refresh_is_silent st_unset). reflexivity. Defined.

End Counts.

(** * Further properties of the program *)

(** ** What the category depends on *)

Section ClassifyMore.
Import Py PosixPath.

Lemma last_occurrence_split (c : ascii) (s : string) :
  has_char c s = true ->
  exists a e, s = a +:+ String c e /\ has_char c e = false.
Proof.
  induction s as [|x r IH]; [discriminate |].
  cbn [has_char]. destruct (has_char c r) eqn:Er.
  - intros _. destruct (IH eq_refl) as (a & e & -> & He).
    exists (String x a), e. now split.
  - rewrite orb_false_r. intros Hx. apply Ascii.eqb_eq in Hx. subst x.
    exists "", r. now split.
Qed.

Lemma basename_idem (p : string) : basename (basename p) = basename p.
Proof. apply basename_plain, basename_no_sep. Qed.

(** The two shapes of a path as [splitext] sees it. *)
Lemma splitext_cases (p : string) :
  (has_char extsep (basename p) = false /\ snd (splitext p) = "") \/
  (exists F e,
      p = F +:+ String extsep e /\
      has_char sep e = false /\ has_char extsep e = false /\
      snd (splitext p) = if all_char extsep (basename F) then "" else String extsep e).
Proof.
  destruct (has_char extsep (basename p)) eqn:Hd.
  - right. destruct (last_occurrence_split _ _ Hd) as (a & e & Hb & He).
    pose proof (basename_no_sep p) as Hs. rewrite Hb, has_char_app in Hs.
    apply orb_false_elim in Hs as [_ Hs]. cbn [has_char] in Hs.
    apply orb_false_elim in Hs as [_ Hs].
    exists (slice_to p (rfind sep p + 1) +:+ a), e.
    assert (p = (slice_to p (rfind sep p + 1) +:+ a) +:+ String extsep e) as Hp.
    { rewrite app_assoc_str, <- Hb. apply basename_decompose. }
    split; [exact Hp |]. split; [exact Hs |]. split; [exact He |].
    rewrite Hp at 1. now apply splitext_app.
  - left. split; [reflexivity | now apply splitext_no_dot].
Qed.

Lemma rfind_lower_sep (s : string) : rfind sep (lower s) = rfind sep s.
Proof.
  induction s as [|c r IH]; [reflexivity |].
  cbn [lower rfind]. now rewrite IH, lower_char_sep.
Qed.

Lemma str_drop_lower (n : nat) (s : string) : str_drop n (lower s) = lower (str_drop n s).
Proof. revert s; induction n as [|n IH]; intros [|c r]; simpl; auto. Qed.

Lemma basename_lower (p : string) : basename (lower p) = lower (basename p).
Proof. unfold basename, slice_from. cbv zeta. now rewrite rfind_lower_sep, str_drop_lower. Qed.

(** The extension the lookup sees is the extension of the lower-cased
    path. *)
Lemma extension_lower (p : string) : extension p = snd (splitext (lower p)).
Proof.
  unfold extension. destruct (splitext_cases p) as [[Hd ->] | (F & e & Hp & Hs & Hd & ->)].
  - symmetry. apply splitext_no_dot.
    now rewrite basename_lower, has_char_lower_extsep.
  - rewrite Hp, lower_app. cbn [lower].
    change (lower_char extsep) with extsep.
    rewrite splitext_app by (now rewrite ?has_char_lower_sep, ?has_char_lower_extsep).
    rewrite basename_lower, all_char_lower_extsep.
    now destruct (all_char extsep (basename F)).
Qed.

Lemma splitext_basename (p : string) : snd (splitext (basename p)) = snd (splitext p).
Proof.
  destruct (splitext_cases p) as [[Hd ->] | (F & e & Hp & Hs & Hd & ->)].
  - apply splitext_no_dot. now rewrite basename_idem.
  - assert (basename p = basename F +:+ String extsep e) as ->.
    { rewrite Hp at 1. apply basename_app. cbn [has_char]. now rewrite Hs. }
    rewrite splitext_app by assumption. now rewrite basename_idem.
Qed.

Lemma find_folder_none_inv (ext : string) (items : list (string * list string)) :
  find_folder ext items = None ->
  forall C exts, In (C, exts) items -> ~ In ext exts.
Proof.
  induction items as [|[folder extensions] rest IH]; intros H C exts HC; [contradiction |].
  cbn [find_folder] in H. destruct (str_in ext extensions) eqn:E; [discriminate |].
  destruct HC as [[= <- <-] | HC].
  - intros Hin. apply str_in_In in Hin. congruence.
  - exact (IH H C exts HC).
Qed.

(** X1: The directory part of a path never influences its category: dots in
    directory names are not extensions. *)
Theorem classify_basename (p : string) : classify (basename p) = classify p.
Proof. unfold classify, extension. now rewrite splitext_basename. Qed.

(** X2: Two paths that differ in letter case only, anywhere in the path, are
    filed under the same category. *)
Theorem classify_case_insensitive (p q : string) :
  lower p = lower q -> classify p = classify q.
Proof. intros H. unfold classify. now rewrite !extension_lower, H. Qed.

Lemma classify_case_insensitive_witness :
  classify "/Srv/Inbox/HOLIDAY.Tar.GZ" = classify "/srv/inbox/holiday.tar.gz".
Proof. apply classify_case_insensitive. reflexivity. Defined.

(** X3: The category of a path is the folder that lists its lower-cased
    extension, and "others" exactly when no folder lists it, or when the
    folder that does is "others" itself (which lists nothing). *)
Theorem classify_characterised (p C : string) :
  classify p = C <->
  (exists exts, In (C, exts) FOLDERS /\ In (extension p) exts) \/
  (C = "others" /\ unsupported (extension p)).
Proof.
  split.
  - intros <-. unfold classify.
    destruct (find_folder (extension p) FOLDERS) as [f|] eqn:E.
    + left. now apply find_folder_some.
    + right. split; [reflexivity |]. intros C exts. now apply find_folder_none_inv.
  - intros [(exts & HC & HE) | [-> Hu]].
    + unfold classify. now destruct (table_entry _ _ _ HC HE) as [_ ->].
    + now apply classify_unsupported.
Qed.

End ClassifyMore.

(** ** Calls of [organize_file] that meet an obstacle *)

Section OrganizeMore.
Import Py PosixPath.

(** X4: Without a root, a call for a name that is not excluded raises
    [TypeError] in the first [os.path.join]; nothing but the line
    "Organizing: ..." has happened by then. *)
Theorem organize_file_without_root (p : string) (st : state) :
  base_folder st = None -> is_excluded p = false ->
  organize_file p st =
  (Raise (TypeError "expected str, bytes or os.PathLike object, not NoneType"),
   log (Print ("Organizing: " +:+ p)) st).
Proof.
  intros Hb Hex. rewrite (organize_file_unfold p st Hex), bind_unfold.
  unfold create_category_dirs. cbn [map FOLDERS fst for_each].
  rewrite bind_unfold, create_body_unfold. cbn [base_folder log]. now rewrite Hb.
Qed.

Lemma organize_file_without_root_witness :
  organize_file "/srv/inbox/photo.jpg" st_unset =
  (Raise (TypeError "expected str, bytes or os.PathLike object, not NoneType"),
   log (Print "Organizing: /srv/inbox/photo.jpg") st_unset).
Proof. apply (organize_file_without_root "/srv/inbox/photo.jpg" st_unset); reflexivity. Defined.

(** The creation loop stops at the first category name that a regular file
    occupies. *)
Lemma create_loop_blocked (cs : list string) :
  forall (st : state) (b : string),
    base_folder st = Some b -> is_dir st b -> List.NoDup cs ->
    (forall c, In c cs -> plain_name c = true) ->
    (exists c x, In c cs /\ is_file st (join b c) x) ->
    exists c0 x0 st',
      In c0 cs /\ is_file st (join b c0) x0 /\
      for_each cs create_body st = (Raise (OSError EEXIST (join b c0)), st') /\
      extends st st'.
Proof.
  induction cs as [|c cs IH]; intros st b Hb Hroot Hnd Hplain (c' & x & Hc' & Hf');
    [contradiction |].
  apply List.NoDup_cons_iff in Hnd as [Hnotin Hnd].
  assert (plain_name c = true) as Hc by (apply Hplain; now left).
  cbn [for_each]. rewrite bind_unfold, create_body_unfold, Hb.
  rewrite makedirs_under_root by assumption.
  destruct (fs st !! (key_of st b ++ [c])) as [[y|]|] eqn:E.
  - exists c, y, st. split; [now left |]. split; [now apply lookup_category |].
    split; [reflexivity | apply extends_refl].
  - destruct Hc' as [<- | Hc'].
    { apply lookup_category in Hf'; [congruence | exact Hc]. }
    destruct (IH st b Hb Hroot Hnd (fun d Hd => Hplain d (or_intror Hd)))
      as (c0 & x0 & st' & H0 & Hf0 & Hrun & Hext); [now exists c', x |].
    exists c0, x0, st'. split; [now right |].
    split; [exact Hf0 |]. split; [exact Hrun | exact Hext].
  - destruct Hc' as [<- | Hc'].
    { apply lookup_category in Hf'; [congruence | exact Hc]. }
    set (st1 := log (Mkdir (key_of st b ++ [c]))
                    (with_fs (<[key_of st b ++ [c] := Dir]> (fs st)) st)).
    assert (extends st st1) as Hext1.
    { unfold extends. cbn. repeat split. now apply insert_subseteq. }
    destruct (IH st1 b Hb (is_dir_weaken st st1 b Hext1 Hroot) Hnd
                 (fun d Hd => Hplain d (or_intror Hd)))
      as (c0 & x0 & st' & H0 & Hf0 & Hrun & Hext).
    { exists c', x. split; [exact Hc' | now apply (is_file_weaken st)]. }
    exists c0, x0, st'. split; [now right |]. split; [| split].
    + assert (plain_name c0 = true) as Hp0 by (apply Hplain; now right).
      apply (lookup_category st1 b c0 (File x0) Hp0) in Hf0.
      apply (lookup_category st b c0 (File x0) Hp0).
      cbn in Hf0. rewrite lookup_insert_ne in Hf0; [exact Hf0 |].
      intros Heq. apply app_inj_tail in Heq as [_ ->]. contradiction.
    + exact Hrun.
    + eapply extends_trans; eassumption.
Qed.

(** X5: When a regular file occupies a category name below the root, a call
    for a name that is not excluded ends with [FileExistsError] from
    [os.makedirs], outside the [try]: the exception leaves [organize_file],
    the source is not moved and no file is lost. *)
Theorem organize_file_blocked_by_file (st : state) (b p : string) :
  base_folder st = Some b -> is_dir st b -> is_excluded p = false ->
  (exists c x, In c folders /\ is_file st (join b c) x) ->
  exists c0 x0 st',
    In c0 folders /\ is_file st (join b c0) x0 /\
    organize_file p st = (Raise (OSError EEXIST (join b c0)), st') /\
    (forall q y, is_file st q y -> is_file st' q y).
Proof.
  intros Hb Hroot Hex Hblock.
  destruct (create_loop_blocked folders (log (Print ("Organizing: " +:+ p)) st) b
              Hb Hroot folders_NoDup folders_plain Hblock)
    as (c0 & x0 & st' & H0 & Hf0 & Hrun & Hext).
  exists c0, x0, st'. split; [exact H0 |]. split; [exact Hf0 |]. split.
  - rewrite (organize_file_unfold p st Hex), bind_unfold.
    unfold create_category_dirs. change (map fst FOLDERS) with folders. now rewrite Hrun.
  - intros q y Hq. apply (is_file_weaken (log (Print ("Organizing: " +:+ p)) st)); assumption.
Qed.

Lemma organize_file_blocked_by_file_witness :
  exists c0 x0 st',
    In c0 folders /\ is_file st_blocked (join "/srv/inbox" c0) x0 /\
    organize_file "photo.jpg" st_blocked = (Raise (OSError EEXIST (join "/srv/inbox" c0)), st') /\
    (forall q y, is_file st_blocked q y -> is_file st' q y).
Proof.
  apply (organize_file_blocked_by_file st_blocked "/srv/inbox" "photo.jpg").
  - reflexivity.
  - vm_compute. reflexivity.
  - reflexivity.
  - exists "videos", "not a directory". split; [simpl; tauto | vm_compute; reflexivity].
Defined.

End OrganizeMore.

(** ** The file system after a call *)

Section AfterCall.
Import Py PosixPath.

(** Below an existing root with free category names, a call that is not
    skipped reaches the move step in a state that differs from the initial
    one by the category directories only. *)
Lemma organize_prepared (st : state) (b p : string) :
  base_folder st = Some b -> is_dir st b -> is_excluded p = false ->
  (forall c x, In c folders -> ~ is_file st (join b c) x) ->
  exists st1,
    organize_file p st = move_step p (join b (classify p)) st1 /\
    extends st st1 /\
    (forall c, In c folders -> is_dir st1 (join b c)) /\
    (forall k, (forall c, In c folders -> k <> key_of st b ++ [c]) ->
               fs st1 !! k = fs st !! k).
Proof.
  intros Hb Hroot Hex Hnf.
  set (st0 := log (Print ("Organizing: " +:+ p)) st).
  destruct (create_loop_under_root folders st0 b Hb Hroot folders_NoDup folders_plain Hnf)
    as (st1 & Hrun & Hext & Hdirs & Hout & _).
  exists st1. split; [| split; [exact Hext | split; [exact Hdirs |]]].
  - rewrite (organize_file_unfold p st Hex). fold st0.
    rewrite bind_unfold. unfold create_category_dirs. change (map fst FOLDERS) with folders.
    rewrite Hrun, bind_unfold.
    now rewrite (destination_ok p st1 b) by (destruct Hext as (E & _); rewrite E; exact Hb).
  - intros k Hk. now destruct (Hout k Hk).
Qed.

Lemma extends_key_of (st st1 : state) (x : string) :
  extends st st1 -> key_of st1 x = key_of st x.
Proof. intros (_ & _ & Hc & _). unfold key_of. now rewrite Hc. Qed.



Lemma target_not_dir_after_create (st st1 : state) (b p : string) :
  plain_name (basename p) = true ->
  extends st st1 ->
  (forall k, (forall c, In c folders -> k <> key_of st b ++ [c]) -> fs st1 !! k = fs st !! k) ->
  (is_dir st1 (target b p) <-> is_dir st (target b p)) /\
  forall x, fs st1 !! (key_of st (target b p) ++ [x]) = fs st !! (key_of st (target b p) ++ [x]).
Proof.
  intros HF Hext Hout.
  assert (forall l, l <> [] -> forall c, In c folders ->
                    key_of st (join b (classify p)) ++ l <> key_of st b ++ [c]) as Hlen.
  { intros l Hl c Hc. unfold key_of.
    rewrite resolve_join by (apply folders_plain, classify_in_folders).
    intros Heq. apply (f_equal (@length string)) in Heq. rewrite !length_app in Heq.
    destruct l; [contradiction |]. cbn in Heq. lia. }
  split.
  - unfold is_dir, target. rewrite !(lookup_category _ _ _ _ HF).
    rewrite (extends_key_of st st1 _ Hext), Hout; [reflexivity |].
    apply Hlen. discriminate.
  - intros x. apply Hout. unfold target, key_of.
    rewrite (resolve_join _ _ (basename p)) by assumption.
    rewrite <- app_assoc. apply Hlen. discriminate.
Qed.



End AfterCall.

(** ** A directory in the way, and the file system around a move *)

Section Collisions.
Import Py PosixPath.

Lemma rstrip_no_trailing (p : string) : endswith sep p = false -> rstrip sep p = p.
Proof.
  induction p as [|a r IH]; [reflexivity |].
  destruct r as [|y r].
  - cbn. now intros ->.
  - intros H. change (endswith sep (String a (String y r))) with (endswith sep (String y r)) in H.
    change (rstrip sep (String a (String y r)))
      with (match rstrip sep (String y r) with
            | EmptyString => if Ascii.eqb a sep then EmptyString else String a EmptyString
            | String z r' => String a (String z r')
            end).
    now rewrite (IH H).
Qed.

Lemma basename_truthy_no_trailing (p : string) :
  truthy (basename p) = true -> endswith sep p = false.
Proof.
  intros H. destruct (endswith sep p) eqn:E; [| reflexivity].
  destruct (endswith_inv _ E) as [a' ->].
  rewrite (basename_under a' "" eq_refl) in H. discriminate.
Qed.

(** [shutil._basename] of the path of a regular file is its base name. *)
Lemma shutil_basename_file (st : state) (p c : string) :
  is_file st p c -> Shutil._basename p = basename p.
Proof.
  intros Hf. destruct (is_file_inv _ _ _ Hf) as (_ & _ & _ & HF).
  destruct (plain_name_inv _ HF) as (_ & _ & _ & Ht).
  unfold Shutil._basename. now rewrite rstrip_no_trailing by now apply basename_truthy_no_trailing.
Qed.

Lemma rename_into_dir (src d c : string) (st : state) :
  is_file st src c -> is_dir st d ->
  fs st !! (key_of st d ++ [basename src]) <> Some Dir ->
  Os.rename src (join d (basename src)) st =
  (Ok tt, moved_state st (key_of st src) (key_of st d ++ [basename src]) c).
Proof.
  intros Hf Hd HnD.
  destruct (is_file_inv _ _ _ Hf) as (_ & Hks & Hne & HF).
  destruct (plain_name_inv _ HF) as (_ & _ & _ & Ht).
  set (F := basename src) in *. set (dst := join d F) in *.
  assert (resolve (cwd st) dst = key_of st d ++ [F]) as Hkd
    by (unfold dst; now rewrite resolve_join by assumption).
  assert (truthy dst = true) as Htd by (unfold dst; now apply truthy_join).
  assert (dir_only dst = false) as Hdo by (unfold dst; now apply dir_only_join).
  unfold Os.rename. unfold is_file in Hf. rewrite Hf.
  rewrite Htd, Hkd, Hdo, node_at_snoc. cbn [negb].
  fold (key_of st src). unfold moved_state.
  destruct (fs st !! (key_of st d ++ [F])) as [[x|]|] eqn:E.
  - now destruct (decide (key_of st src = key_of st d ++ [F])).
  - congruence.
  - unfold Os.check_parent. rewrite removelast_snoc.
    apply is_dir_inv in Hd as (_ & ->).
    destruct (decide (key_of st src = key_of st d ++ [F])) as [Heq|]; [| reflexivity].
    rewrite Heq in Hks. congruence.
Qed.

Lemma samefile_file_dir (src dst c : string) (st : state) :
  is_file st src c -> is_dir st dst -> Shutil._samefile src dst st = (Ok false, st).
Proof.
  intros Hf Hd. destruct (is_file_inv _ _ _ Hf) as (_ & Hks & Hne & _).
  pose proof Hd as Hd'. apply is_dir_inv in Hd' as (_ & Hkd).
  unfold Shutil._samefile. unfold is_file in Hf. unfold is_dir in Hd. rewrite Hf, Hd.
  fold (key_of st src) (key_of st dst).
  destruct (bool_decide (key_of st src = key_of st dst)) eqn:E; [| reflexivity].
  apply bool_decide_eq_true in E. exfalso. rewrite <- E in Hkd.
  destruct (key_of st src); [contradiction | cbn in Hkd; congruence].
Qed.

(** [shutil.move] onto an existing directory puts the file inside it. *)
Lemma move_inside_dir (src dst c : string) (st : state) :
  is_file st src c -> is_dir st dst ->
  fs st !! (key_of st dst ++ [basename src]) = None ->
  Shutil.move src dst st =
  (Ok (Some (join dst (basename src))),
   moved_state st (key_of st src) (key_of st dst ++ [basename src]) c).
Proof.
  intros Hf Hd Hfree.
  destruct (is_file_inv _ _ _ Hf) as (_ & _ & _ & HF).
  unfold Shutil.move. rewrite bind_unfold. unfold Os.path_isdir at 1.
  pose proof Hd as Hd'. unfold is_dir in Hd'. rewrite Hd'.
  rewrite bind_unfold, (samefile_file_dir src dst c st Hf Hd).
  rewrite (shutil_basename_file st src c Hf).
  rewrite bind_unfold. unfold Os.path_exists at 1.
  rewrite stat_join by assumption. fold (key_of st dst). rewrite Hfree.
  apply is_dir_inv in Hd as (_ & Hn). rewrite Hn.
  unfold Shutil.rename_or_copy. rewrite bind_unfold, catch_unfold.
  rewrite (rename_into_dir src dst c st Hf); [reflexivity | exact Hd' | congruence].
Qed.

Lemma move_name_taken (src dst c : string) (n : node) (st : state) :
  is_file st src c -> is_dir st dst ->
  fs st !! (key_of st dst ++ [basename src]) = Some n ->
  Shutil.move src dst st =
  (Raise (ShutilError ("Destination path '" +:+ join dst (basename src) +:+ "' already exists")),
   st).
Proof.
  intros Hf Hd Htaken.
  destruct (is_file_inv _ _ _ Hf) as (_ & _ & _ & HF).
  unfold Shutil.move. rewrite bind_unfold. unfold Os.path_isdir at 1.
  pose proof Hd as Hd'. unfold is_dir in Hd'. rewrite Hd'.
  rewrite bind_unfold, (samefile_file_dir src dst c st Hf Hd).
  rewrite (shutil_basename_file st src c Hf).
  rewrite bind_unfold. unfold Os.path_exists at 1.
  rewrite stat_join by assumption. fold (key_of st dst). now rewrite Htaken.
Qed.

(** X7: When the target name [root/C/F] is an existing directory that has no
    entry [F], the file is put inside that directory, as [root/C/F/F]; the
    call reports a move to [root/C]. *)
Theorem organize_file_into_directory (st : state) (b p content : string) :
  base_folder st = Some b -> is_dir st b -> is_excluded p = false ->
  is_file st p content ->
  (forall c x, In c folders -> ~ is_file st (join b c) x) ->
  is_dir st (target b p) ->
  fs st !! (key_of st (target b p) ++ [basename p]) = None ->
  exists st',
    organize_file p st = (Ok tt, st') /\
    last (trace st') = Some (Print ("Moved: " +:+ p +:+ " -> " +:+ join b (classify p))) /\
    is_dir st' (target b p) /\
    is_file st' (join (target b p) (basename p)) content /\
    absent st' p.
Proof.
  intros Hb Hroot Hex Hf Hnf Hd Hfree.
  destruct (is_file_inv _ _ _ Hf) as (_ & _ & _ & HF).
  destruct (organize_prepared st b p Hb Hroot Hex Hnf) as (st1 & Hrun & Hext & Hdirs & Hout).
  assert (is_file st1 p content) as Hf1 by (now apply (is_file_weaken st)).
  assert (is_dir st1 (target b p)) as Hd1 by (now apply (is_dir_weaken st)).
  destruct (target_not_dir_after_create st st1 b p HF Hext Hout) as [_ Hin].
  assert (fs st1 !! (key_of st1 (target b p) ++ [basename p]) = None) as Hfree1
    by (rewrite (extends_key_of st st1 _ Hext), Hin; exact Hfree).
  pose proof (move_inside_dir p (target b p) content st1 Hf1 Hd1 Hfree1) as Hmove.
  rewrite Hrun. unfold move_step. rewrite catch_unfold, bind_unfold.
  fold (target b p). rewrite Hmove.
  destruct (is_file_inv _ _ _ Hf1) as (_ & Hks1 & _ & _).
  eexists. split; [reflexivity |]. split; [cbn [trace log]; apply last_snoc |].
  split; [| split].
  - apply (keeps_dirs_is_dir st1); [| exact Hd1].
    eapply keeps_dirs_trans; [| apply keeps_dirs_log; discriminate].
    apply moved_state_keeps; [exact Hks1 | congruence].
  - apply (moved_state_dst st1 p (target b p) content Hf1 Hd1).
  - apply (moved_state_src st1 p content _ Hf1). intros Heq. congruence.
Qed.

Lemma organize_file_into_directory_witness :
  exists st',
    organize_file "photo.jpg" st_clash = (Ok tt, st') /\
    is_dir st' "/srv/inbox/images/photo.jpg" /\
    is_file st' "/srv/inbox/images/photo.jpg/photo.jpg" "JFIF" /\
    absent st' "photo.jpg".
Proof.
  destruct (organize_file_into_directory st_clash "/srv/inbox" "photo.jpg" "JFIF")
    as (st' & H1 & _ & H3 & H4 & H5).
  - reflexivity.
  - vm_compute. reflexivity.
  - reflexivity.
  - vm_compute. reflexivity.
  - intros c x Hc Hf. simpl in Hc.
    repeat (destruct Hc as [<- | Hc]; [vm_compute in Hf; discriminate |]). exact Hc.
  - vm_compute. reflexivity.
  - vm_compute. reflexivity.
  - exists st'. split; [exact H1 |]. split; [exact H3 |]. split; [exact H4 | exact H5].
Defined.

(** X8: When the target name [root/C/F] is an existing directory that already
    has an entry [F], [shutil.move] refuses; the refusal is reported, the
    source stays where it is and only the category directories have been
    added. *)
Theorem organize_file_name_taken (st : state) (b p content : string) (n : node) :
  base_folder st = Some b -> is_dir st b -> is_excluded p = false ->
  is_file st p content ->
  (forall c x, In c folders -> ~ is_file st (join b c) x) ->
  is_dir st (target b p) ->
  fs st !! (key_of st (target b p) ++ [basename p]) = Some n ->
  exists st',
    organize_file p st = (Ok tt, st') /\
    last (trace st') =
      Some (Print ("Error moving " +:+ p +:+ ": Destination path '" +:+
                   join (target b p) (basename p) +:+ "' already exists")) /\
    is_file st' p content /\
    fs st' !! (key_of st (target b p) ++ [basename p]) = Some n /\
    (forall k, (forall c, In c folders -> k <> key_of st b ++ [c]) ->
               fs st' !! k = fs st !! k).
Proof.
  intros Hb Hroot Hex Hf Hnf Hd Htaken.
  destruct (is_file_inv _ _ _ Hf) as (_ & _ & _ & HF).
  destruct (organize_prepared st b p Hb Hroot Hex Hnf) as (st1 & Hrun & Hext & Hdirs & Hout).
  assert (is_file st1 p content) as Hf1 by (now apply (is_file_weaken st)).
  assert (is_dir st1 (target b p)) as Hd1 by (now apply (is_dir_weaken st)).
  destruct (target_not_dir_after_create st st1 b p HF Hext Hout) as [_ Hin].
  assert (fs st1 !! (key_of st1 (target b p) ++ [basename p]) = Some n) as Ht1
    by (rewrite (extends_key_of st st1 _ Hext), Hin; exact Htaken).
  pose proof (move_name_taken p (target b p) content n st1 Hf1 Hd1 Ht1) as Hmove.
  rewrite Hrun. fold (target b p) in Hmove.
  rewrite (move_step_raise p (join b (classify p)) st1 st1 _ Hmove).
  eexists. split; [reflexivity |]. split; [cbn [trace log]; apply last_snoc |].
  split; [exact Hf1 |]. split; [| exact Hout].
  cbn [fs log]. rewrite Hin. exact Htaken.
Qed.

Lemma organize_file_name_taken_witness :
  exists st',
    organize_file "photo.jpg" st_sorted = (Ok tt, st') /\
    last (trace st') =
      Some (Print "Error moving photo.jpg: Destination path '/srv/inbox/images/photo.jpg/photo.jpg' already exists") /\
    is_file st' "photo.jpg" "JFIF".
Proof.
  destruct (organize_file_name_taken st_sorted "/srv/inbox" "photo.jpg" "JFIF"
              (File "older JFIF")) as (st' & H1 & H2 & H3 & _).
  - reflexivity.
  - vm_compute. reflexivity.
  - reflexivity.
  - vm_compute. reflexivity.
  - intros c x Hc Hf. simpl in Hc.
    repeat (destruct Hc as [<- | Hc]; [vm_compute in Hf; discriminate |]). exact Hc.
  - vm_compute. reflexivity.
  - vm_compute. reflexivity.
  - exists st'. split; [exact H1 |]. split; [exact H2 | exact H3].
Defined.

End Collisions.

(** ** What a move leaves alone, and what the next refresh shows *)

Section MoveAndCount.
Import Py PosixPath.

(** The state a call on a regular file ends in (conditions of C3). *)
Lemma organize_final_state (st : state) (b p content : string) :
  base_folder st = Some b -> is_dir st b -> is_excluded p = false ->
  is_file st p content ->
  (forall c x, In c folders -> ~ is_file st (join b c) x) ->
  ~ is_dir st (target b p) ->
  exists st1,
    extends st st1 /\
    (forall c, In c folders -> is_dir st1 (join b c)) /\
    (forall k, (forall c, In c folders -> k <> key_of st b ++ [c]) ->
               fs st1 !! k = fs st !! k) /\
    fs st1 !! key_of st p = Some (File content) /\
    organize_file p st =
    (Ok tt, log (Print ("Moved: " +:+ p +:+ " -> " +:+ join b (classify p)))
                (moved_state st1 (key_of st p) (key_of st (target b p)) content)).
Proof.
  intros Hb Hroot Hex Hf Hnf Hnd.
  destruct (is_file_inv _ _ _ Hf) as (_ & _ & _ & HF).
  destruct (organize_prepared st b p Hb Hroot Hex Hnf) as (st1 & Hrun & Hext & Hdirs & Hout).
  assert (is_file st1 p content) as Hf1 by (now apply (is_file_weaken st)).
  assert (~ is_dir st1 (target b p)) as Hnd1.
  { intros H. apply Hnd. now apply (target_not_dir_after_create st st1 b p HF Hext Hout). }
  exists st1. split; [exact Hext |]. split; [exact Hdirs |]. split; [exact Hout |]. split.
  - destruct (is_file_inv _ _ _ Hf1) as (_ & Hks & _). now rewrite <- (extends_key_of st st1 p Hext).
  - rewrite Hrun.
    rewrite (move_step_file p _ content st1 Hf1 (Hdirs _ (classify_in_folders p)) Hnd1).
    rewrite !(extends_key_of st st1 _ Hext). unfold target, key_of.
    now rewrite (resolve_join _ _ (basename p)) by assumption.
Qed.

(** X9: A successful move touches the source, the target and the category
    directories, and nothing else in the file system. *)
Theorem organize_file_frame (st : state) (b p content : string) :
  base_folder st = Some b -> is_dir st b -> is_excluded p = false ->
  is_file st p content ->
  (forall c x, In c folders -> ~ is_file st (join b c) x) ->
  ~ is_dir st (target b p) ->
  exists st',
    organize_file p st = (Ok tt, st') /\
    forall k, k <> key_of st p -> k <> key_of st (target b p) ->
              (forall c, In c folders -> k <> key_of st b ++ [c]) ->
              fs st' !! k = fs st !! k.
Proof.
  intros Hb Hroot Hex Hf Hnf Hnd.
  destruct (organize_final_state st b p content Hb Hroot Hex Hf Hnf Hnd)
    as (st1 & _ & _ & Hout & _ & Hrun).
  eexists. split; [exact Hrun |].
  intros k Hks Hkd Hcat. unfold moved_state. cbn [fs log].
  destruct (decide (key_of st p = key_of st (target b p))); cbn [fs with_fs].
  - now apply Hout.
  - rewrite lookup_insert_ne, lookup_delete_ne by congruence. now apply Hout.
Qed.

Lemma organize_file_frame_witness :
  exists st',
    organize_file "photo.jpg" st_fresh = (Ok tt, st') /\
    fs st' !! ["srv"; "inbox"; "README.txt"] = Some (File "notes").
Proof.
  destruct (organize_file_frame st_fresh "/srv/inbox" "photo.jpg" "JFIF") as (st' & H1 & H2).
  - reflexivity.
  - vm_compute. reflexivity.
  - reflexivity.
  - vm_compute. reflexivity.
  - intros c x Hc Hf. simpl in Hc.
    repeat (destruct Hc as [<- | Hc]; [vm_compute in Hf; discriminate |]). exact Hc.
  - intros Hd. vm_compute in Hd. discriminate.
  - exists st'. split; [exact H1 |].
    rewrite (H2 ["srv"; "inbox"; "README.txt"]).
    + vm_compute. reflexivity.
    + vm_compute. discriminate.
    + vm_compute. discriminate.
    + intros c Hc. simpl in Hc.
      repeat (destruct Hc as [<- | Hc]; [vm_compute; discriminate |]). contradiction.
Defined.

(** The key of a path with an ordinary base name ends in that name. *)
Lemma resolve_basename (wd : list string) (p : string) :
  plain_name (basename p) = true -> exists k, resolve wd p = k ++ [basename p].
Proof.
  intros HF. destruct (plain_name_inv _ HF) as (Hs & _).
  destruct (has_char sep p) eqn:Hp.
  - destruct (last_occurrence_split _ _ Hp) as (a & e & Hpe & He).
    assert (basename p = e) as Hb by (rewrite Hpe; now apply basename_under).
    rewrite Hb in *. rewrite Hpe. unfold resolve.
    rewrite split_app_sep, (split_plain e He), fold_left_app. cbn [fold_left].
    rewrite (resolve_step_plain _ e HF). eauto.
  - rewrite (basename_plain p Hp) in *. unfold resolve.
    rewrite (split_plain p Hp). cbn [fold_left]. rewrite (resolve_step_plain _ p HF). eauto.
Qed.

Lemma children_gain (m m' : gmap (list string) node) (k : list string) (F : string) :
  (forall x, is_Some (m' !! (k ++ [x])) <-> x = F \/ is_Some (m !! (k ++ [x]))) ->
  length (children m' k) =
  (length (children m k) + match m !! (k ++ [F]) with Some _ => 0 | None => 1 end)%nat.
Proof.
  intros H.
  destruct (children_spec m k) as [Hnd Hin]. destruct (children_spec m' k) as [Hnd' Hin'].
  destruct (m !! (k ++ [F])) as [n|] eqn:E.
  - rewrite Nat.add_0_r. apply Permutation_length, NoDup_Permutation; try assumption.
    intros x. rewrite Hin', Hin, H. split; [| tauto].
    intros [-> | Hx]; [rewrite E; eauto | exact Hx].
  - replace (length (children m k) + 1)%nat with (length (F :: children m k))
      by (cbn; lia).
    apply Permutation_length, NoDup_Permutation; try assumption.
    + apply NoDup_cons. split; [| exact Hnd].
      rewrite Hin, E. intros [? ?]. discriminate.
    + intros x. rewrite Hin', elem_of_cons, Hin. apply H.
Qed.

(** The counter the refresh writes for an existing category directory. *)
Lemma refresh_counter (st : state) (b : string) (i : nat) (c : string) :
  base_folder st = Some b -> truthy b = true ->
  length (progress_bars st) = length folders ->
  (forall c x, In c folders -> ~ is_file st (join b c) x) ->
  folders !! i = Some c -> is_dir st (join b c) ->
  exists st',
    update_folder_counts st = (Ok tt, st') /\
    total_items <$> (progress_bars st' !! i) =
    Some (Z.of_nat (length (children (fs st) (key_of st b ++ [c])))).
Proof.
  intros Hb Ht Hlen Hnf Hic Hd.
  eexists. split; [exact (update_folder_counts_set st b Hb Ht Hlen Hnf) |].
  destruct (enumerate_folders i c Hic) as (Hin & Hc & Hi).
  assert (List.NoDup (map fst (enumerate folders))) as Hnd.
  { cbn. repeat (apply List.NoDup_cons; [cbn; intuition lia |]). apply List.NoDup_nil. }
  cbn [progress_bars with_bars].
  rewrite (fold_refresh_lookup_in st b _ i c Hnd Hin), refresh_bar_lookup_eq.
  unfold is_dir in Hd. apply lookup_category in Hd; [| now apply folders_plain].
  rewrite Hd. destruct (lookup_lt_is_Some_2 (progress_bars st) i) as [bar ->];
    [rewrite Hlen; exact Hi | reflexivity].
Qed.

(** X10: Organising a regular file and then refreshing the counts: the counter
    of the file's category shows the number of entries its directory had
    before, plus one if the target name was free (an existing file of that
    name is replaced, and the count stays). *)
Theorem organize_then_refresh (st : state) (b p content : string) (i : nat) :
  base_folder st = Some b -> is_dir st b -> is_excluded p = false ->
  is_file st p content ->
  (forall c x, In c folders -> ~ is_file st (join b c) x) ->
  ~ is_dir st (target b p) ->
  length (progress_bars st) = length folders ->
  folders !! i = Some (classify p) ->
  exists st' st'',
    organize_file p st = (Ok tt, st') /\
    update_folder_counts st' = (Ok tt, st'') /\
    total_items <$> (progress_bars st'' !! i) =
    Some (Z.of_nat (length (children (fs st) (key_of st b ++ [classify p])) +
                    match fs st !! key_of st (target b p) with
                    | Some _ => 0
                    | None => 1
                    end)).
Proof.
  intros Hb Hroot Hex Hf Hnf Hnd Hlen Hic.
  destruct (is_file_inv _ _ _ Hf) as (_ & Hks & _ & HF).
  destruct (organize_final_state st b p content Hb Hroot Hex Hf Hnf Hnd)
    as (st1 & Hext & Hdirs & Hout & Hks1 & Hrun).
  set (st' := log (Print ("Moved: " +:+ p +:+ " -> " +:+ join b (classify p)))
                  (moved_state st1 (key_of st p) (key_of st (target b p)) content)) in *.
  set (C := classify p) in *.
  assert (key_of st (target b p) = (key_of st b ++ [C]) ++ [basename p]) as Hkt
    by (rewrite key_of_target by assumption; now rewrite <- app_assoc).
  assert (fs st1 !! key_of st (target b p) <> Some Dir) as HnD.
  { rewrite Hout.
    - intros E. apply Hnd. unfold is_dir, target. apply lookup_category; [exact HF |].
      unfold key_of in *. rewrite resolve_join by (apply folders_plain, classify_in_folders).
      fold C. now rewrite <- Hkt.
    - intros c Hc. rewrite Hkt. intros Heq. apply (f_equal (@length string)) in Heq.
      rewrite !length_app in Heq. cbn in Heq. lia. }
  assert (keeps_dirs st1 st') as Hkeep.
  { eapply keeps_dirs_trans; [| apply keeps_dirs_log; discriminate].
    now apply moved_state_keeps. }
  destruct Hkeep as (Hkb & Hkc & Hkp & Hkd & Hkm).
  assert (keeps_dirs st1 st') as Hkeep by (unfold keeps_dirs; now repeat split).
  assert (forall c, In c folders -> is_dir st' (join b c)) as Hdirs'.
  { intros c Hc. apply (keeps_dirs_is_dir st1); [exact Hkeep | now apply Hdirs]. }
  assert (base_folder st' = Some b) as Hb'.
  { rewrite Hkb. destruct Hext as (-> & _). exact Hb. }
  assert (forall x, key_of st' x = key_of st x) as Hkey.
  { intros x. unfold key_of. rewrite Hkc. now destruct Hext as (_ & _ & -> & _). }
  destruct (refresh_counter st' b i C) as (st'' & Hrefresh & Hcount).
  - exact Hb'.
  - now apply is_dir_inv in Hroot as (? & _).
  - rewrite Hkp. destruct Hext as (_ & -> & _). exact Hlen.
  - intros c x Hc. apply is_dir_not_file. now apply Hdirs'.
  - exact Hic.
  - apply Hdirs', classify_in_folders.
  - exists st', st''. split; [exact Hrun |]. split; [exact Hrefresh |].
    rewrite Hcount, Hkey. do 3 f_equal.
    rewrite Hkt. apply children_gain. intros x.
    assert (fs st1 !! ((key_of st b ++ [C]) ++ [x]) = fs st !! ((key_of st b ++ [C]) ++ [x]))
      as Hsame.
    { apply Hout. intros c Hc Heq. apply (f_equal (@length string)) in Heq.
      rewrite !length_app in Heq. cbn in Heq. lia. }
    unfold st', moved_state. cbn [fs log].
    destruct (decide (key_of st p = key_of st (target b p))) as [Heq | Hne]; cbn [fs with_fs].
    + rewrite Hsame. split; [tauto |].
      intros [-> | Hx]; [| exact Hx]. rewrite <- Hkt, <- Heq, Hks. eauto.
    + destruct (decide (x = basename p)) as [-> | Hx].
      * rewrite <- Hkt, lookup_insert_eq. split; eauto.
      * rewrite lookup_insert_ne by (rewrite Hkt; intros E; apply app_inj_tail in E as [_ E]; congruence).
        rewrite lookup_delete_ne, Hsame; [tauto |].
        destruct (resolve_basename (cwd st) p HF) as [k0 Hk0]. unfold key_of at 1. rewrite Hk0.
        intros E. apply app_inj_tail in E as [_ E]. congruence.
Qed.

Lemma organize_then_refresh_witness :
  exists st' st'',
    organize_file "photo.jpg" st_fresh = (Ok tt, st') /\
    update_folder_counts st' = (Ok tt, st'') /\
    total_items <$> (progress_bars st'' !! O) = Some 1.
Proof.
  destruct (organize_then_refresh st_fresh "/srv/inbox" "photo.jpg" "JFIF" O)
    as (st' & st'' & H1 & H2 & H3).
  - reflexivity.
  - vm_compute. reflexivity.
  - reflexivity.
  - vm_compute. reflexivity.
  - intros c x Hc Hf. simpl in Hc.
    repeat (destruct Hc as [<- | Hc]; [vm_compute in Hf; discriminate |]). exact Hc.
  - intros Hd. vm_compute in Hd. discriminate.
  - reflexivity.
  - reflexivity.
  - exists st', st''. split; [exact H1 |]. split; [exact H2 |]. exact H3.
Defined.

End MoveAndCount.

(** ** What no call of [organize_file] does *)

Section Tame.
Import Py PosixPath.

Lemma same_settings_refl (st : state) : same_settings st st.
Proof. unfold same_settings. auto. Qed.

Lemma same_settings_trans (st1 st2 st3 : state) :
  same_settings st1 st2 -> same_settings st2 st3 -> same_settings st1 st3.
Proof. unfold same_settings. intros (? & ? & ?) (? & ? & ?). repeat split; congruence. Qed.

Lemma allowed_same (st st' : state) (e : exn) :
  same_settings st st' -> allowed st' e -> allowed st e.
Proof. intros (Hb & _). destruct e; cbn; congruence || auto. Qed.

Lemma allowed_os (st : state) (e : exn) : is_OSError e = true -> allowed st e.
Proof. intros H. destruct e; cbn in *; try discriminate; exact I. Qed.

Ltac tame_leaf :=
  cbn [fst snd]; split;
  [ unfold same_settings; cbn; auto
  | split;
    [ first [ exists []; rewrite app_nil_r; split; reflexivity
            | eexists [_]; split; reflexivity ]
    | intros ? [= <-]; cbn; try first [exact I | assumption] ] ].

Lemma tame_pure {A : Type} (f : state -> A) : tame (fun st => (Ok (f st), st)).
Proof. intros st. tame_leaf. Qed.

Lemma tame_ret {A : Type} (a : A) : tame (mret a : M A).
Proof. exact (tame_pure (fun _ => a)). Qed.

Lemma tame_raise {A : Type} (e : exn) : (forall st, allowed st e) -> tame (raise e : M A).
Proof. intros H st. unfold raise. tame_leaf. apply H. Qed.

Lemma tame_emit (e : effect) : is_io e = true -> tame (emit e).
Proof. intros H st. unfold emit. cbn [fst snd]. split; [unfold same_settings; cbn; auto |].
  split; [| discriminate]. exists [e]. cbn. now rewrite H. Qed.

Lemma tame_bind {A B : Type} (m : M A) (k : A -> M B) :
  tame m -> (forall a, tame (k a)) -> tame (m ≫= k).
Proof.
  intros Hm Hk st. rewrite bind_unfold.
  destruct (Hm st) as (Hs & (l & Hl & Hio) & He).
  destruct (m st) as [[a|e] st1]; cbn [fst snd] in *.
  - destruct (Hk a st1) as (Hs' & (l' & Hl' & Hio') & He').
    split; [eapply same_settings_trans; eassumption |]. split.
    + exists (l ++ l'). rewrite Hl', Hl, app_assoc. split; [reflexivity |].
      now rewrite forallb_app, Hio, Hio'.
    + intros e H. eapply allowed_same; [exact Hs | now apply He'].
  - split; [exact Hs |]. split; [eauto |]. intros e' [= <-]. now apply He.
Qed.

Lemma tame_catch {A : Type} (handles : exn -> bool) (m : M A) (h : exn -> M A) :
  tame m -> (forall e, handles e = true -> tame (h e)) -> tame (catch handles m h).
Proof.
  intros Hm Hh st. rewrite catch_unfold.
  destruct (Hm st) as (Hs & (l & Hl & Hio) & He).
  destruct (m st) as [[a|e] st1]; cbn [fst snd] in *.
  - split; [exact Hs |]. split; [eauto | discriminate].
  - destruct (handles e) eqn:Hd; [| split; [exact Hs |]; split; [eauto | exact He]].
    destruct (Hh e Hd st1) as (Hs' & (l' & Hl' & Hio') & He').
    split; [eapply same_settings_trans; eassumption |]. split.
    + exists (l ++ l'). rewrite Hl', Hl, app_assoc. split; [reflexivity |].
      now rewrite forallb_app, Hio, Hio'.
    + intros e' H. eapply allowed_same; [exact Hs | now apply He'].
Qed.

Lemma tame_for_each {A : Type} (l : list A) (body : A -> M unit) :
  (forall x, tame (body x)) -> tame (for_each l body).
Proof.
  intros H. induction l as [|x l IH]; cbn [for_each]; [apply tame_ret |].
  apply tame_bind; [apply H | intros _; exact IH].
Qed.

Lemma tame_path_exists (p : string) : tame (Os.path_exists p).
Proof. exact (tame_pure _). Qed.

Lemma tame_path_isdir (p : string) : tame (Os.path_isdir p).
Proof. exact (tame_pure _). Qed.

Lemma tame_mkdir (p : string) : tame (Os.mkdir p).
Proof. intros st. unfold Os.mkdir. cbv zeta. repeat case_match; tame_leaf. Qed.

Lemma tame_rename (src dst : string) : tame (Os.rename src dst).
Proof.
  intros st. unfold Os.rename, Os.check_parent. cbv zeta. repeat case_match; simplify_eq; tame_leaf.
Qed.

Lemma tame_makedirs_rec (depth : nat) :
  forall name ok, tame (Os.makedirs_rec depth name ok).
Proof.
  induction depth as [|depth IH]; intros name ok; cbn [Os.makedirs_rec].
  - apply tame_raise. intros st. exact I.
  - destruct (PosixPath.split name) as [head tail].
    destruct (if negb (truthy tail) then PosixPath.split head else (head, tail))
      as [head' tail'].
    apply tame_bind; [apply tame_path_exists |]. intros present.
    apply tame_bind.
    + destruct (truthy head' && truthy tail' && negb present); [| apply tame_ret].
      apply tame_bind; [| intros _; apply tame_ret].
      apply tame_catch; [apply IH | intros _ _; apply tame_ret].
    + intros [|]; [apply tame_ret |].
      apply tame_catch; [apply tame_mkdir |]. intros e He.
      apply tame_bind; [apply tame_path_isdir |]. intros d.
      destruct (negb ok || negb d); [| apply tame_ret].
      apply tame_raise. intros st. now apply allowed_os.
Qed.

Lemma tame_fallback (src dst : string) (e : exn) :
  is_OSError e = true -> tame (Shutil.fallback src dst e).
Proof.
  intros He. unfold Shutil.fallback.
  apply tame_bind; [apply tame_path_isdir |]. intros d.
  apply tame_bind; [exact (tame_pure _) |]. intros inside.
  destruct (d && inside); apply tame_raise; intros st; [exact I | now apply allowed_os].
Qed.

Lemma tame_rename_or_copy (src dst real_dst : string) :
  tame (Shutil.rename_or_copy src dst real_dst).
Proof.
  unfold Shutil.rename_or_copy. apply tame_bind; [| intros _; apply tame_ret].
  apply tame_catch; [apply tame_rename | apply tame_fallback].
Qed.

Lemma tame_move (src dst : string) : tame (Shutil.move src dst).
Proof.
  unfold Shutil.move. apply tame_bind; [apply tame_path_isdir |].
  intros [|]; [| apply tame_rename_or_copy].
  apply tame_bind; [exact (tame_pure _) |].
  intros [|]; [apply tame_bind; [apply tame_rename | intros _; apply tame_ret] |].
  cbv zeta. apply tame_bind; [apply tame_path_exists |].
  intros [|]; [apply tame_raise; intros st; exact I | apply tame_rename_or_copy].
Qed.

Lemma tame_join_base (x : string) : tame (join_base x).
Proof.
  intros st. unfold join_base. rewrite bind_unfold. unfold get_base_folder.
  destruct (base_folder st) eqn:E; tame_leaf.
Qed.

Lemma tame_create_category_dirs : tame create_category_dirs.
Proof.
  unfold create_category_dirs. apply tame_for_each. intros c. unfold create_body.
  apply tame_bind; [apply tame_join_base |]. intros p. apply tame_makedirs_rec.
Qed.

Lemma tame_destination (ext : string) : tame (destination ext).
Proof.
  unfold destination. apply tame_bind.
  - destruct (find_folder ext FOLDERS); [| apply tame_ret].
    apply tame_bind; [apply tame_join_base | intros d; apply tame_ret].
  - intros [d|]; [| apply tame_join_base].
    destruct (truthy d); [apply tame_ret | apply tame_join_base].
Qed.

Lemma tame_move_step (p d : string) : tame (move_step p d).
Proof.
  unfold move_step. apply tame_catch.
  - apply tame_bind; [apply tame_move | intros _; now apply tame_emit].
  - intros e _. now apply tame_emit.
Qed.

Lemma tame_organize_file (p : string) : tame (organize_file p).
Proof.
  unfold organize_file. cbv zeta.
  destruct (str_in (basename p) excluded_files); [now apply tame_emit |].
  apply tame_bind; [now apply tame_emit |]. intros _.
  apply tame_bind; [apply tame_create_category_dirs |]. intros _.
  apply tame_bind; [apply tame_destination | intros d; apply tame_move_step].
Qed.

(** X11: Whatever the path and the state, and whether the call returns or
    raises: [organize_file] leaves the selected folder, the working
    directory and the counters as they are, and all it adds to the trace
    are printed lines, created directories and renames.  It shows no
    message box and starts neither an observer nor the timer. *)
Theorem organize_file_contained (p : string) (st : state) :
  same_settings st (snd (organize_file p st)) /\
  exists l, trace (snd (organize_file p st)) = trace st ++ l /\ forallb is_io l = true.
Proof. destruct (tame_organize_file p st) as (H1 & H2 & _). now split. Qed.

(** *** The exceptions that leave [organize_file] *)

Lemma raises_pure {A : Type} (P : exn -> Prop) (f : state -> A) :
  raises_only P (fun st => (Ok (f st), st)).
Proof. intros st e H. discriminate. Qed.

Lemma raises_ret {A : Type} (P : exn -> Prop) (a : A) : raises_only P (mret a : M A).
Proof. exact (raises_pure P (fun _ => a)). Qed.

Lemma raises_raise {A : Type} (P : exn -> Prop) (e : exn) : P e -> raises_only P (raise e : M A).
Proof. intros H st e' [= <-]. exact H. Qed.

Lemma raises_emit (P : exn -> Prop) (e : effect) : raises_only P (emit e).
Proof. intros st e' H. discriminate. Qed.

Lemma raises_weaken {A : Type} (P Q : exn -> Prop) (m : M A) :
  (forall e, P e -> Q e) -> raises_only P m -> raises_only Q m.
Proof. intros HPQ Hm st e H. apply HPQ. exact (Hm st e H). Qed.

Lemma raises_bind {A B : Type} (P : exn -> Prop) (m : M A) (k : A -> M B) :
  raises_only P m -> (forall a, raises_only P (k a)) -> raises_only P (m ≫= k).
Proof.
  intros Hm Hk st e. rewrite bind_unfold. specialize (Hm st).
  destruct (m st) as [[a|e'] st1]; cbn [fst] in *.
  - apply Hk.
  - intros [= <-]. now apply Hm.
Qed.

Lemma raises_catch {A : Type} (P Q : exn -> Prop) (handles : exn -> bool)
      (m : M A) (h : exn -> M A) :
  raises_only Q m ->
  (forall e, Q e -> handles e = false -> P e) ->
  (forall e, Q e -> handles e = true -> raises_only P (h e)) ->
  raises_only P (catch handles m h).
Proof.
  intros Hm Hpass Hh st e. rewrite catch_unfold. specialize (Hm st).
  destruct (m st) as [[a|e'] st1]; cbn [fst] in *; [discriminate |].
  specialize (Hm e' eq_refl). destruct (handles e') eqn:Hd.
  - now apply Hh.
  - intros [= <-]. now apply Hpass.
Qed.

Lemma raises_for_each {A : Type} (P : exn -> Prop) (l : list A) (body : A -> M unit) :
  (forall x, raises_only P (body x)) -> raises_only P (for_each l body).
Proof.
  intros H. induction l as [|x l IH]; cbn [for_each]; [apply raises_ret |].
  apply raises_bind; [apply H | intros _; exact IH].
Qed.

Lemma raises_mkdir (p : string) : raises_only is_os_error (Os.mkdir p).
Proof.
  intros st e. unfold Os.mkdir. cbv zeta.
  repeat case_match; cbn [fst]; intros [= <-]; unfold is_os_error; eauto.
Qed.

Lemma raises_makedirs_rec (depth : nat) :
  forall name ok,
    raises_only (fun e => e = RecursionError \/ is_os_error e) (Os.makedirs_rec depth name ok).
Proof.
  induction depth as [|depth IH]; intros name ok; cbn [Os.makedirs_rec].
  - apply raises_raise. now left.
  - destruct (PosixPath.split name) as [head tail].
    destruct (if negb (truthy tail) then PosixPath.split head else (head, tail))
      as [head' tail'].
    apply raises_bind; [apply raises_pure |]. intros present.
    apply raises_bind.
    + destruct (truthy head' && truthy tail' && negb present); [| apply raises_ret].
      apply raises_bind; [| intros _; apply raises_ret].
      eapply raises_catch; [apply IH | tauto | intros _ _ _; apply raises_ret].
    + intros [|]; [apply raises_ret |].
      eapply raises_catch; [apply raises_mkdir | tauto |]. intros e He _.
      apply raises_bind; [apply raises_pure |]. intros d.
      destruct (negb ok || negb d); [| apply raises_ret].
      apply raises_raise. now right.
Qed.

Lemma raises_makedirs (name : string) (ok : bool) :
  raises_only is_os_error (Os.makedirs name ok).
Proof.
  intros st e H.
  destruct (raises_makedirs_rec _ _ _ st e H) as [-> | He]; [| exact He].
  exfalso. destruct (Os.makedirs name ok st) as [r st'] eqn:E. cbn [fst] in H. subst r.
  exact (makedirs_never_exhausted _ _ _ _ _ E eq_refl).
Qed.

Lemma raises_join_base (x : string) :
  raises_only (fun e => exists msg, e = TypeError msg) (join_base x).
Proof.
  intros st e. unfold join_base. rewrite bind_unfold. unfold get_base_folder. cbn [fst].
  destruct (base_folder st); intros [= <-]. eauto.
Qed.

Lemma raises_organize_file (p : string) :
  raises_only (fun e => is_os_error e \/ exists msg, e = TypeError msg) (organize_file p).
Proof.
  unfold organize_file. cbv zeta.
  destruct (str_in (basename p) excluded_files); [apply raises_emit |].
  apply raises_bind; [apply raises_emit |]. intros _.
  assert (forall x, raises_only (fun e => is_os_error e \/ exists msg, e = TypeError msg)
                                (join_base x)) as Hjoin.
  { intros x. eapply raises_weaken; [| apply raises_join_base]. tauto. }
  apply raises_bind.
  - unfold create_category_dirs. apply raises_for_each. intros c. unfold create_body.
    apply raises_bind; [apply Hjoin |]. intros q.
    eapply raises_weaken; [| apply raises_makedirs]. tauto.
  - intros _. apply raises_bind.
    + unfold destination. apply raises_bind.
      * destruct (find_folder _ FOLDERS); [| apply raises_ret].
        apply raises_bind; [apply Hjoin | intros d; apply raises_ret].
      * intros [d|]; [| apply Hjoin]. destruct (truthy d); [apply raises_ret | apply Hjoin].
    + intros d. unfold move_step.
      eapply (raises_catch _ (fun _ => True)); [intros ? ? _; exact I | discriminate |].
      intros e _ _. apply raises_emit.
Qed.

Lemma organize_file_raises (p : string) (st : state) (e : exn) :
  fst (organize_file p st) = Raise e ->
  is_os_error e \/ (base_folder st = None /\ exists msg, e = TypeError msg).
Proof.
  intros H.
  destruct (tame_organize_file p st) as (_ & _ & Hallowed). specialize (Hallowed e H).
  destruct (raises_organize_file p st e H) as [He | [msg ->]]; [now left |].
  right. split; [exact Hallowed | eauto].
Qed.



End Tame.

(** ** The count refresh, whatever the state *)

Section Refresh.
Import Py PosixPath.

Lemma only_counts_refl (st : state) : only_counts st st.
Proof. unfold only_counts. auto. Qed.

Lemma only_counts_trans (st1 st2 st3 : state) :
  only_counts st1 st2 -> only_counts st2 st3 -> only_counts st1 st3.
Proof.
  unfold only_counts. intros (? & ? & ? & ? & ?) (? & ? & ? & ? & ?). repeat split; congruence.
Qed.

Lemma only_counts_length (st st' : state) :
  only_counts st st' -> length (progress_bars st') = length (progress_bars st).
Proof.
  intros (_ & _ & _ & _ & H). apply (f_equal (@length string)) in H.
  now rewrite !length_map in H.
Qed.

Lemma only_counts_is_file (st st' : state) (p x : string) :
  only_counts st st' -> is_file st' p x <-> is_file st p x.
Proof. intros (Hf & _ & _ & Hc & _). unfold is_file. now rewrite Hf, Hc. Qed.

Lemma set_total_items_frame (i : nat) (n : Z) (st : state) :
  only_counts st (snd (set_total_items i n st)).
Proof.
  unfold set_total_items.
  destruct (progress_bars st !! i) as [bar|] eqn:E; cbn [snd]; [| apply only_counts_refl].
  unfold only_counts. cbn. repeat split.
  change (folder_name <$> <[i := mkBar (folder_name bar) n]> (progress_bars st) =
          folder_name <$> progress_bars st).
  rewrite list_fmap_insert. cbn. apply list_insert_id. now rewrite list_lookup_fmap, E.
Qed.

(** The three courses of one round of the loop of lines 182-186. *)
Lemma count_body_cases (i : nat) (c : string) (st : state) (b : string) :
  base_folder st = Some b ->
  match stat (cwd st) (fs st) (join b c) with
  | inl _ => count_body (i, c) st = (Ok tt, st)
  | inr (File _) => count_body (i, c) st = (Raise (OSError ENOTDIR (join b c)), st)
  | inr Dir =>
      count_body (i, c) st =
      set_total_items i (Z.of_nat (length (children (fs st) (key_of st (join b c))))) st
  end.
Proof.
  intros Hb. unfold count_body. rewrite bind_unfold, (join_base_ok c st b Hb).
  rewrite bind_unfold. unfold Os.path_exists.
  destruct (stat (cwd st) (fs st) (join b c)) as [e|[x|]] eqn:E.
  - reflexivity.
  - rewrite bind_unfold. unfold Os.listdir. now rewrite E.
  - rewrite bind_unfold. unfold Os.listdir. now rewrite E.
Qed.

Lemma count_body_frame (ic : nat * string) (st : state) :
  only_counts st (snd (count_body ic st)).
Proof.
  destruct ic as [i c]. destruct (base_folder st) as [b|] eqn:Hb.
  - pose proof (count_body_cases i c st b Hb) as H.
    destruct (stat (cwd st) (fs st) (join b c)) as [e|[x|]]; rewrite H;
      try apply only_counts_refl. apply set_total_items_frame.
  - unfold count_body, join_base. rewrite !bind_unfold. unfold get_base_folder. rewrite Hb.
    apply only_counts_refl.
Qed.

Lemma count_loop_frame (l : list (nat * string)) :
  forall st, only_counts st (snd (for_each l count_body st)).
Proof.
  induction l as [|ic l IH]; intros st; cbn [for_each]; [apply only_counts_refl |].
  rewrite bind_unfold. pose proof (count_body_frame ic st) as H.
  destruct (count_body ic st) as [[[]|e] st1]; cbn [snd] in *; [| exact H].
  eapply only_counts_trans; [exact H | apply IH].
Qed.

Lemma update_frame (st : state) : only_counts st (snd (update_folder_counts st)).
Proof.
  unfold update_folder_counts. rewrite bind_unfold. unfold get_base_folder.
  destruct (negb (is_set (base_folder st))); [apply only_counts_refl | apply count_loop_frame].
Qed.

(** X13: Whatever the state, and whether it returns or raises, the count
    refresh changes nothing but the numbers the counters show: the file
    system, the trace, the selected folder and the working directory stay
    as they are, and the counters keep their number, order and names. *)
Theorem update_folder_counts_frame (st : state) :
  only_counts st (snd (update_folder_counts st)).
Proof. apply update_frame. Qed.

(** The loop raises only on a category name that is a regular file. *)
Lemma count_loop_raises (b : string) (l : list (nat * string)) :
  forall st e,
    base_folder st = Some b ->
    (forall i c, In (i, c) l -> (i < length (progress_bars st))%nat) ->
    fst (for_each l count_body st) = Raise e ->
    exists i c x, In (i, c) l /\ is_file st (join b c) x /\ e = OSError ENOTDIR (join b c).
Proof.
  induction l as [|[i c] l IH]; intros st e Hb Hl; cbn [for_each]; [discriminate |].
  rewrite bind_unfold.
  pose proof (count_body_cases i c st b Hb) as Hc.
  pose proof (count_body_frame (i, c) st) as Hfr.
  assert (forall st1, only_counts st st1 ->
            fst (for_each l count_body st1) = Raise e ->
            exists j d x, In (j, d) ((i, c) :: l) /\ is_file st (join b d) x /\
                          e = OSError ENOTDIR (join b d)) as Hrest.
  { intros st1 H1 Hr.
    destruct (IH st1 e) as (j & d & x & Hin & Hf & ->).
    - destruct H1 as (_ & _ & -> & _). exact Hb.
    - intros j d Hjd. rewrite (only_counts_length _ _ H1). apply (Hl j d). now right.
    - exact Hr.
    - exists j, d, x. split; [now right |]. split; [| reflexivity].
      now apply (only_counts_is_file st st1). }
  destruct (stat (cwd st) (fs st) (join b c)) as [en|[x|]] eqn:E; rewrite Hc in *.
  - apply Hrest, only_counts_refl.
  - cbn [fst]. intros [= <-]. exists i, c, x. split; [now left |]. now split.
  - destruct (lookup_lt_is_Some_2 (progress_bars st) i) as [bar Hbar];
      [apply (Hl i c); now left |].
    unfold set_total_items in *. rewrite Hbar in *. cbn [snd] in Hfr.
    now apply Hrest.
Qed.

(** The loop returns only if no category name is a regular file. *)
Lemma count_loop_ok (b : string) (l : list (nat * string)) :
  forall st st',
    base_folder st = Some b ->
    for_each l count_body st = (Ok tt, st') ->
    forall i c x, In (i, c) l -> ~ is_file st (join b c) x.
Proof.
  induction l as [|[i c] l IH]; intros st st' Hb Hrun j d x Hin; [contradiction |].
  cbn [for_each] in Hrun. rewrite bind_unfold in Hrun.
  pose proof (count_body_cases i c st b Hb) as Hc.
  pose proof (count_body_frame (i, c) st) as Hfr.
  destruct (count_body (i, c) st) as [[[]|e] st1] eqn:Ec; [| discriminate].
  cbn [snd] in Hfr. destruct Hin as [[= <- <-] | Hin].
  - intros Hf. unfold is_file in Hf. rewrite Hf in Hc. discriminate.
  - rewrite <- (only_counts_is_file st st1 _ _ Hfr).
    apply (IH st1 st') with (i := j); [| exact Hrun | exact Hin].
    destruct Hfr as (_ & _ & -> & _). exact Hb.
Qed.

Lemma in_enumerate_folders (i : nat) (c : string) :
  In (i, c) (enumerate folders) -> (i < length folders)%nat /\ In c folders.
Proof.
  intros H. cbn in H.
  repeat (destruct H as [[= <- <-] | H]; [cbn; intuition lia |]). contradiction.
Qed.

Lemma update_raises (st : state) (e : exn) :
  length (progress_bars st) = length folders ->
  fst (update_folder_counts st) = Raise e ->
  exists b c x,
    base_folder st = Some b /\ truthy b = true /\ In c folders /\
    is_file st (join b c) x /\ e = OSError ENOTDIR (join b c).
Proof.
  intros Hlen. unfold update_folder_counts. rewrite bind_unfold. unfold get_base_folder.
  destruct (base_folder st) as [b|] eqn:Hb; cbn [is_set]; [| discriminate].
  destruct (truthy b) eqn:Ht; cbn [negb]; [| discriminate].
  intros H.
  destruct (count_loop_raises b (enumerate folders) st e Hb) as (i & c & x & Hin & Hf & ->).
  - intros i c Hic. rewrite Hlen. now apply (in_enumerate_folders i c).
  - exact H.
  - exists b, c, x. repeat split; try assumption. now apply (in_enumerate_folders i c).
Qed.

Lemma update_ok (st st' : state) (b : string) :
  base_folder st = Some b -> truthy b = true ->
  update_folder_counts st = (Ok tt, st') ->
  forall c x, In c folders -> ~ is_file st (join b c) x.
Proof.
  intros Hb Ht. unfold update_folder_counts. rewrite bind_unfold. unfold get_base_folder.
  rewrite Hb. cbn [is_set]. rewrite Ht. cbn [negb]. intros Hrun c x Hc.
  destruct (In_nth_error _ _ Hc) as [i Hi].
  assert (folders !! i = Some c) as Hi'.
  { revert Hi. generalize folders. induction i as [|i IH]; intros [|y l]; cbn; try discriminate.
    - trivial.
    - apply IH. }
  destruct (enumerate_folders i c Hi') as (Hin & _).
  exact (count_loop_ok b (enumerate folders) st st' Hb Hrun i c x Hin).
Qed.

(** X14: The refresh below a selected folder raises exactly when a regular
    file has the name of a category there: [os.path.exists] answers true
    for it and [os.listdir] raises [NotADirectoryError], which nothing
    catches. *)
Theorem update_folder_counts_raises_iff (st : state) (b : string) :
  base_folder st = Some b -> truthy b = true ->
  length (progress_bars st) = length folders ->
  ((exists e, fst (update_folder_counts st) = Raise e) <->
   (exists c x, In c folders /\ is_file st (join b c) x)) /\
  (forall e, fst (update_folder_counts st) = Raise e ->
             exists c x, In c folders /\ is_file st (join b c) x /\
                         e = OSError ENOTDIR (join b c)).
Proof.
  intros Hb Ht Hlen.
  assert (forall e, fst (update_folder_counts st) = Raise e ->
             exists c x, In c folders /\ is_file st (join b c) x /\
                         e = OSError ENOTDIR (join b c)) as Hwhich.
  { intros e H. destruct (update_raises st e Hlen H) as (b' & c & x & Hb' & _ & Hc & Hf & ->).
    assert (b' = b) as -> by congruence. eauto. }
  split; [| exact Hwhich]. split.
  - intros [e H]. destruct (Hwhich e H) as (c & x & Hc & Hf & _). eauto.
  - intros (c & x & Hc & Hf).
    destruct (update_folder_counts st) as [[[]|e] st'] eqn:E; [| now exists e].
    exfalso. exact (update_ok st st' b Hb Ht E c x Hc Hf).
Qed.

Lemma update_folder_counts_raises_iff_witness :
  exists c x, In c folders /\ is_file st_blocked (join "/srv/inbox" c) x /\
              OSError ENOTDIR "/srv/inbox/videos" = OSError ENOTDIR (join "/srv/inbox" c).
Proof.
  destruct (update_folder_counts_raises_iff st_blocked "/srv/inbox") as [_ H].
  - reflexivity.
  - reflexivity.
  - reflexivity.
  - apply (H (OSError ENOTDIR "/srv/inbox/videos")). vm_compute. reflexivity.
Defined.

Lemma length_fold_refresh (st : state) (b : string) (l : list (nat * string)) :
  forall bars, length (fold_left (refresh_bar st b) l bars) = length bars.
Proof.
  induction l as [|ic l IH]; intros bars; cbn [fold_left]; [reflexivity |].
  now rewrite IH, length_refresh_bar.
Qed.

Lemma enumerate_NoDup : List.NoDup (map fst (enumerate folders)).
Proof.
  cbn. repeat (apply List.NoDup_cons; [cbn; intuition lia |]). apply List.NoDup_nil.
Qed.

(** What the refresh loop leaves at each index. *)
Lemma refresh_lookup (st : state) (b : string) (bars : list CircularProgressBar) (i : nat) :
  fold_left (refresh_bar st b) (enumerate folders) bars !! i =
  match folders !! i with
  | Some c => refresh_bar st b bars (i, c) !! i
  | None => bars !! i
  end.
Proof.
  destruct (folders !! i) as [c|] eqn:E.
  - destruct (enumerate_folders i c E) as (Hin & _).
    apply (fold_refresh_lookup_in st b _ i c enumerate_NoDup Hin).
  - apply fold_refresh_lookup_notin. intros Hin.
    apply in_map_iff in Hin as ([j c] & <- & Hin). cbn [fst] in E.
    apply in_enumerate_folders in Hin as [Hj _].
    apply lookup_ge_None in E. lia.
Qed.

(** X15: A second refresh with nothing changed in between changes nothing. *)
Theorem update_folder_counts_idempotent (st : state) (b : string) :
  base_folder st = Some b -> truthy b = true ->
  length (progress_bars st) = length folders ->
  (forall c x, In c folders -> ~ is_file st (join b c) x) ->
  exists st',
    update_folder_counts st = (Ok tt, st') /\
    update_folder_counts st' = (Ok tt, st').
Proof.
  intros Hb Ht Hlen Hnf.
  set (bars := fold_left (refresh_bar st b) (enumerate folders) (progress_bars st)).
  exists (with_bars bars st). split; [now apply update_folder_counts_set |].
  rewrite (update_folder_counts_set (with_bars bars st) b Hb Ht).
  - f_equal. unfold with_bars at 1. cbn [base_folder cwd fs trace progress_bars with_bars].
    unfold with_bars. f_equal.
    change (refresh_bar (mkState (base_folder st) bars (cwd st) (fs st) (trace st)) b)
      with (refresh_bar st b).
    apply list_eq. intros i. rewrite refresh_lookup.
    destruct (folders !! i) as [c|] eqn:E; [| reflexivity].
    assert (bars !! i = refresh_bar st b (progress_bars st) (i, c) !! i) as Hbi
      by (unfold bars; now rewrite refresh_lookup, E).
    rewrite refresh_bar_lookup_eq in *. rewrite Hbi.
    destruct (fs st !! (key_of st b ++ [c])) as [[x|]|]; try reflexivity.
    now destruct (progress_bars st !! i).
  - cbn [progress_bars with_bars]. unfold bars. now rewrite length_fold_refresh.
  - exact Hnf.
Qed.

Lemma update_folder_counts_idempotent_witness :
  exists st',
    update_folder_counts st_two = (Ok tt, st') /\
    update_folder_counts st' = (Ok tt, st').
Proof.
  apply (update_folder_counts_idempotent st_two "/srv/inbox").
  - reflexivity.
  - reflexivity.
  - reflexivity.
  - intros c x Hc Hf. simpl in Hc.
    repeat (destruct Hc as [<- | Hc]; [vm_compute in Hf; discriminate |]). exact Hc.
Defined.

End Refresh.

(** ** Selecting a folder *)

Section SelectFolder.
Import Py PosixPath.

Lemma start_watching_set (st : state) (b : string) :
  base_folder st = Some b -> truthy b = true ->
  start_watching st = (update_folder_counts ;; emit TimerStart) (log (ObserverStart b) st).
Proof.
  intros Hb Ht. unfold start_watching. rewrite bind_unfold. unfold get_base_folder.
  rewrite Hb. cbn [is_set]. rewrite Ht. reflexivity.
Qed.

Lemma select_folder_unfold (f : string) (st : state) :
  truthy f = true ->
  select_folder f st = (update_folder_counts ;; emit TimerStart) (selected f st).
Proof.
  intros Ht. unfold select_folder. rewrite Ht.
  transitivity (start_watching
                  (log (MessageBox Information "Folder Selected" ("Organizing: " +:+ f))
                       (log (Print ("Selected folder: " +:+ f)) (with_base (Some f) st))));
    [reflexivity |].
  now rewrite (start_watching_set _ f).
Qed.

Lemma select_folder_dismissed (f : string) (st : state) :
  truthy f = false ->
  select_folder f st =
  (Ok tt, log (MessageBox Warning "No Folder Selected" "Please select a valid folder.") st).
Proof. intros Ht. unfold select_folder. now rewrite Ht. Qed.



(** X17: Selecting a folder in which a regular file has the name of a category:
    the observer is started, then the first count refresh raises
    [NotADirectoryError] and [select_folder] ends there, before
    [self.timer.start()].  The folder is watched, but unless the timer was
    already running the counters are never refreshed. *)
Theorem select_folder_blocked (st : state) (f : string) :
  truthy f = true ->
  length (progress_bars st) = length folders ->
  (exists c x, In c folders /\ is_file st (join f c) x) ->
  exists c x st',
    In c folders /\ is_file st (join f c) x /\
    select_folder f st = (Raise (OSError ENOTDIR (join f c)), st') /\
    base_folder st' = Some f /\
    In (ObserverStart f) (trace st') /\
    (In TimerStart (trace st') -> In TimerStart (trace st)).
Proof.
  intros Ht Hlen (c0 & x0 & Hc0 & Hf0).
  pose proof (update_frame (selected f st)) as Hfr.
  destruct (update_folder_counts (selected f st)) as [[[]|e] st'] eqn:E.
  - exfalso. exact (update_ok (selected f st) st' f eq_refl Ht E c0 x0 Hc0 Hf0).
  - destruct (update_raises (selected f st) e Hlen) as (b & c & x & Hb & _ & Hc & Hf & ->);
      [now rewrite E |].
    injection Hb as <-.
    exists c, x, st'. split; [exact Hc |]. split; [exact Hf |]. split.
    + now rewrite (select_folder_unfold f st Ht), bind_unfold, E.
    + cbn [snd] in Hfr. destruct Hfr as (_ & Htr & Hbase & _).
      split; [now rewrite Hbase |]. rewrite Htr. cbn [trace selected log with_base]. split.
      * apply in_or_app. right. now left.
      * intros Hin. repeat (apply in_app_or in Hin as [Hin | [Hin | []]]; [| discriminate]).
        exact Hin.
Qed.

Lemma select_folder_blocked_witness :
  exists c x st',
    In c folders /\ is_file (init [] fs_blocked) (join "/srv/inbox" c) x /\
    select_folder "/srv/inbox" (init [] fs_blocked) =
    (Raise (OSError ENOTDIR (join "/srv/inbox" c)), st') /\
    base_folder st' = Some "/srv/inbox" /\
    In (ObserverStart "/srv/inbox") (trace st') /\
    (In TimerStart (trace st') -> In TimerStart (trace (init [] fs_blocked))).
Proof.
  apply (select_folder_blocked (init [] fs_blocked) "/srv/inbox").
  - reflexivity.
  - reflexivity.
  - exists "videos", "not a directory". split; [simpl; tauto | vm_compute; reflexivity].
Defined.

End SelectFolder.

(** ** What holds between any two callbacks *)

Section Session.
Import Py PosixPath.

(** What [select_folder] does to the state in every case. *)
Lemma select_folder_general (f : string) (st : state) :
  map folder_name (progress_bars (snd (select_folder f st))) =
  map folder_name (progress_bars st) /\
  if truthy f then base_folder (snd (select_folder f st)) = Some f
  else base_folder (snd (select_folder f st)) = base_folder st /\
       (watching (snd (select_folder f st)) -> watching st).
Proof.
  destruct (truthy f) eqn:Ht.
  - rewrite (select_folder_unfold f st Ht), bind_unfold.
    pose proof (update_frame (selected f st)) as Hfr.
    destruct (update_folder_counts (selected f st)) as [[[]|e] st']; cbn [snd] in *;
      destruct Hfr as (_ & _ & Hbase & _ & Hnames); now split.
  - rewrite (select_folder_dismissed f st Ht). cbn [snd]. split; [reflexivity |].
    split; [reflexivity |]. unfold watching. cbn [trace log].
    intros [Hin | [b Hin]]; apply in_app_or in Hin as [Hin | [Hin | []]];
      try discriminate; eauto.
Qed.

Lemma select_folder_raises (f : string) (st : state) (e : exn) :
  length (progress_bars st) = length folders ->
  fst (select_folder f st) = Raise e -> is_os_error e.
Proof.
  intros Hlen. destruct (truthy f) eqn:Ht.
  - rewrite (select_folder_unfold f st Ht), bind_unfold.
    destruct (update_folder_counts (selected f st)) as [[[]|e'] st'] eqn:E; [discriminate |].
    cbn [fst]. intros [= <-].
    destruct (update_raises (selected f st) e' Hlen) as (b & c & x & _ & _ & _ & _ & ->);
      [now rewrite E |].
    unfold is_os_error. eauto.
  - now rewrite (select_folder_dismissed f st Ht).
Qed.

Lemma io_not_watching (l : list effect) (e : effect) :
  forallb is_io l = true -> is_io e = false -> ~ In e l.
Proof.
  intros Hl He Hin. rewrite forallb_forall in Hl. specialize (Hl e Hin). congruence.
Qed.

(** The invariant of the running program. *)
Lemma reachable_inv (st : state) :
  reachable st ->
  map folder_name (progress_bars st) = folders /\
  (forall b, base_folder st = Some b -> truthy b = true) /\
  (watching st -> base_folder st <> None).
Proof.
  induction 1 as [wd m | a st Hr (Hnames & Hbase & Hwatch) | m st Hr IH].
  - split; [reflexivity |]. split; [discriminate |].
    intros [[] | [b []]].
  - destruct a as [f | | ev]; cbn [perform].
    + destruct (select_folder_general f st) as [Hn Hsel]. rewrite Hn.
      split; [exact Hnames |]. destruct (truthy f) eqn:Ht.
      * rewrite Hsel. split; [now intros b [= <-] | discriminate].
      * destruct Hsel as [-> Hw]. split; [exact Hbase | tauto].
    + destruct (update_frame st) as (_ & Htr & Hb & _ & Hn). rewrite Hn, Hb.
      unfold watching in *. rewrite Htr. now split.
    + unfold on_created. destruct (negb (is_directory ev)); [| now split].
      destruct (tame_organize_file (src_path ev) st) as ((Hb & _ & Hp) & (l & Hl & Hio) & _).
      rewrite Hp, Hb. split; [exact Hnames |]. split; [exact Hbase |].
      unfold watching in *. rewrite Hl. intros Hw. apply Hwatch.
      destruct Hw as [Hin | [b Hin]]; apply in_app_or in Hin as [Hin | Hin]; eauto;
        exfalso; revert Hin; now apply io_not_watching.
  - exact IH.
Qed.

(** X18: From start to end of a run, the [i]-th counter carries the name of the
    [i]-th folder of the list: whatever is selected, whatever events and
    ticks arrive, whatever happens on the file system, and also after a
    callback has raised. *)
Theorem counters_match_folders (st : state) :
  reachable st -> map folder_name (progress_bars st) = folders.
Proof. intros H. now apply reachable_inv. Qed.

Lemma counters_match_folders_witness :
  map folder_name
      (progress_bars (snd (perform Tick (snd (perform (Select "/srv/inbox") (init [] fs_two))))))
  = folders.
Proof.
  apply (counters_match_folders
           (snd (perform Tick (snd (perform (Select "/srv/inbox") (init [] fs_two)))))).
  apply reach_perform, reach_perform, reach_init.
Defined.

(** X19: Once an observer or the timer has been started, a folder is selected,
    and it is not the empty string: the timer never meets the guard of
    [update_folder_counts], and no event of an observer finds
    [base_folder] unset. *)
Theorem watching_has_folder (st : state) :
  reachable st -> watching st ->
  exists b, base_folder st = Some b /\ truthy b = true.
Proof.
  intros Hr Hw. destruct (reachable_inv st Hr) as (_ & Hbase & Hwatch).
  destruct (base_folder st) as [b|] eqn:E; [| now destruct (Hwatch Hw)].
  exists b. split; [reflexivity | now apply Hbase].
Qed.

Lemma watching_has_folder_witness :
  exists b,
    base_folder (snd (perform (Select "/srv/inbox") (init [] fs_two))) = Some b /\
    truthy b = true.
Proof.
  apply (watching_has_folder (snd (perform (Select "/srv/inbox") (init [] fs_two)))).
  - apply reach_perform, reach_init.
  - left. vm_compute. tauto.
Defined.

(** X20: The exceptions that can leave a callback of the running program: an
    [OSError] ([os.makedirs] in [organize_file], [os.listdir] in the count
    refresh), or the [TypeError] of an event handled while no folder is
    selected.  In particular the index into [progress_bars] is never out
    of range. *)
Theorem callbacks_raise_only (st : state) (a : action) (e : exn) :
  reachable st -> fst (perform a st) = Raise e ->
  is_os_error e \/
  (base_folder st = None /\ exists ev msg, a = Created ev /\ e = TypeError msg).
Proof.
  intros Hr. destruct (reachable_inv st Hr) as (Hnames & _).
  assert (length (progress_bars st) = length folders) as Hlen.
  { rewrite <- Hnames. now rewrite length_map. }
  destruct a as [f | | ev]; cbn [perform].
  - intros H. left. exact (select_folder_raises f st e Hlen H).
  - intros H. left.
    destruct (update_raises st e Hlen H) as (b & c & x & _ & _ & _ & _ & ->).
    unfold is_os_error. eauto.
  - unfold on_created. destruct (negb (is_directory ev)); [| discriminate].
    intros H. destruct (organize_file_raises _ _ _ H) as [He | [Hb [msg ->]]]; [now left |].
    right. split; [exact Hb |]. eauto.
Qed.

Lemma callbacks_raise_only_witness :
  is_os_error (OSError ENOTDIR "/srv/inbox/videos") \/
  (base_folder (init [] fs_blocked) = None /\
   exists ev msg, Select "/srv/inbox" = Created ev /\
                  OSError ENOTDIR "/srv/inbox/videos" = TypeError msg).
Proof.
  apply (callbacks_raise_only (init [] fs_blocked) (Select "/srv/inbox")).
  - apply reach_init.
  - vm_compute. reflexivity.
Defined.

End Session.

(** ** The layout of the window *)

Section Layout.

Lemma enumerate_lookup {A : Type} (l : list A) (k i : nat) (x : A) :
  enumerate l !! k = Some (i, x) -> i = k /\ l !! k = Some x.
Proof.
  unfold enumerate. intros H. apply lookup_zip_with_Some in H as (i' & x' & [= <- <-] & Hi & Hx).
  apply lookup_seq in Hi as [-> _]. now split.
Qed.

(** The widgets of the layout: the title, one counter per folder, the
    button. *)
Lemma init_ui_lookup (fl : list string) (i : nat) (p : placement) :
  init_ui fl !! i = Some p ->
  (i = O /\ p = mkPlacement TitleLabel 0 0 1 3) \/
  (exists k folder,
      i = S k /\ fl !! k = Some folder /\
      p = mkPlacement (Counter folder) (k / 3 + 1) (k mod 3) 1 1) \/
  (i = S (length fl) /\ p = mkPlacement SelectButton 4 0 1 3).
Proof.
  unfold init_ui. destruct i as [|i]; [intros [= <-]; now left |].
  rewrite lookup_cons. intros H. apply lookup_app_Some in H as [H | [Hlen H]].
  - right. left.
    change (((fun '(i, folder) =>
                mkPlacement (Counter folder) (fst (grid_position i)) (snd (grid_position i)) 1 1)
               <$> enumerate fl) !! i = Some p) in H.
    apply list_lookup_fmap_Some in H as ([k folder] & -> & Hk).
    apply enumerate_lookup in Hk as [-> Hf]. exists i, folder. now repeat split.
  - right. right. rewrite length_map in *. unfold enumerate in *.
    rewrite length_zip_with, length_seq, Nat.min_id in *.
    destruct (i - length fl)%nat as [|n] eqn:E; [| destruct n; discriminate].
    injection H as <-. split; [f_equal; lia | reflexivity].
Qed.

(** X21: However many folders the list has, up to nine, no two widgets of the
    layout share a cell: the counters fill the rows 1 to 3 from left to
    right, three to a row, between the title in row 0 and the button in
    row 4. *)
Theorem init_ui_no_overlap (fl : list string) (i j : nat) (p q : placement) (r c : nat) :
  (length fl <= 9)%nat ->
  init_ui fl !! i = Some p -> init_ui fl !! j = Some q ->
  covers p r c = true -> covers q r c = true ->
  i = j /\
  (forall folder, placed p = Counter folder -> (1 <= r <= 3 /\ c < 3)%nat).
Proof.
  intros Hlen Hp Hq Hcp Hcq.
  assert (forall k, (k < 9 -> k / 3 < 3)%nat) as Hdiv.
  { intros k Hk. apply Nat.Div0.div_lt_upper_bound. lia. }
  assert (forall k, (k mod 3 < 3)%nat) as Hmod by (intros k; apply Nat.mod_upper_bound; lia).
  pose proof (Nat.div_mod_eq) as Hdm.
  unfold covers in *.
  apply init_ui_lookup in Hp as [[-> ->] | [(k & f & -> & Hk & ->) | [-> ->]]];
    apply init_ui_lookup in Hq as [[-> ->] | [(k' & f' & -> & Hk' & ->) | [-> ->]]];
    cbn [row column row_span column_span placed] in *;
    repeat (apply andb_prop in Hcp as [Hcp ?]); repeat (apply andb_prop in Hcq as [Hcq ?]);
    repeat match goal with
           | H : (_ <=? _)%nat = true |- _ => apply Nat.leb_le in H
           | H : (_ <? _)%nat = true |- _ => apply Nat.ltb_lt in H
           | H : fl !! _ = Some _ |- _ => apply lookup_lt_Some in H
           end;
    try (split; [reflexivity | discriminate]).
  - exfalso. lia.
  - exfalso. lia.
  - exfalso. lia.
  - pose proof (Hdiv k ltac:(lia)). pose proof (Hmod k). pose proof (Hmod k').
    pose proof (Hdm k 3%nat). pose proof (Hdm k' 3%nat). split; [| intros ? _]; lia.
  - exfalso. pose proof (Hdiv k ltac:(lia)). lia.
  - exfalso. lia.
  - exfalso. pose proof (Hdiv k' ltac:(lia)). lia.
Qed.

Lemma init_ui_no_overlap_witness :
  4%nat = 4%nat /\
  (forall folder, Counter "documents" = Counter folder -> (1 <= 2 <= 3 /\ 0 < 3)%nat).
Proof.
  apply (init_ui_no_overlap folders 4 4
           (mkPlacement (Counter "documents") 2 0 1 1)
           (mkPlacement (Counter "documents") 2 0 1 1) 2 0).
  - vm_compute. lia.
  - reflexivity.
  - reflexivity.
  - reflexivity.
  - reflexivity.
Defined.

End Layout.
